(** * connectdeaf-ia: the FAQ retrieval pipeline and the certificate pipeline

    A shallow embedding of the two services of the repository,

      - [connectdeaf-faq-api]: [infra/vector_database.py], [services/faq.py],
        [routes/faq.py];
      - [ai-api]: [infra/storage.py], [routes/certificate.py],
        [routes/chat.py];

    and the properties of them that the specification states.

    The Python code talks to five outside services (embedding, chat
    completion, Azure AI Search, Azure Blob Storage, Azure document
    analysis).  They are modelled by an environment of oracles [Env], which
    fixes what each call answers and which calls fail, and by a [World] that
    holds the state the services keep (indexes, documents, blobs) and the
    trace of the calls made.  Python functions become computations in the
    monad [M] of state and exceptions over [World]; a [try]/[except] block
    becomes [try_except].

    Conventions:
      - every exception of the model derives from [Exception], as the ones
        the code meets do ([HTTPException] included), so that
        [except Exception] catches them all;
      - logging has no effect on the control flow and is left out, and so
        are the settings, which are only handed to the clients;
      - the [json] module and the string methods the code calls are
        modelled on [str] values, which are lists of code points; numbers
        are read and written as Python does (a [float] is the nearest
        double and is written by its [repr], an [int] has at most 4300
        digits).

    The file has three parts: the model of Python's strings and JSON, the
    services and the code, and the properties. *)

From Stdlib Require Import ZArith NArith List String Ascii Bool Lia.
From Stdlib Require Import PrimFloat DecimalString.
From stdpp Require Import gmap list.

Set Default Proof Using "Type".
Set Warnings "-register-all,-inexact-float,-clear-no-such-hyp".

(** Python values of type [str] are sequences of Unicode code points, values of
    type [bytes] sequences of octets. *)
Abbreviation str := (list N).
Abbreviation bytes := (list Byte.byte).

(* ================================================================= *)
(** ** Python strings *)

Module Py.

Local Open Scope N_scope.

(** Literals are written as Rocq strings, which hold the UTF-8 encoding of
    the text; [utf8_decode] turns the octets back into code points. *)
Fixpoint utf8_decode (bs : list N) : str :=
  match bs with
  | [] => []
  | b0 :: t0 =>
    if b0 <? 128 then b0 :: utf8_decode t0
    else
      match t0 with
      | [] => [b0]
      | b1 :: t1 =>
        if b0 <? 224 then ((b0 - 192) * 64 + (b1 - 128)) :: utf8_decode t1
        else
          match t1 with
          | [] => [b0; b1]
          | b2 :: t2 =>
            if b0 <? 240
            then ((b0 - 224) * 4096 + (b1 - 128) * 64 + (b2 - 128))
                   :: utf8_decode t2
            else
              match t2 with
              | [] => [b0; b1; b2]
              | b3 :: t3 =>
                ((b0 - 240) * 262144 + (b1 - 128) * 4096
                 + (b2 - 128) * 64 + (b3 - 128)) :: utf8_decode t3
              end
          end
      end
  end.

Definition lit (s : string) : str :=
  utf8_decode (map N_of_ascii (list_ascii_of_string s)).

(** [str.isspace] on one character: the code points Python counts as
    whitespace. *)
Definition isspace (c : N) : bool :=
  ((9 <=? c) && (c <=? 13)) || ((28 <=? c) && (c <=? 32))
  || (c =? 133) || (c =? 160) || (c =? 5760)
  || ((8192 <=? c) && (c <=? 8202))
  || (c =? 8232) || (c =? 8233) || (c =? 8239) || (c =? 8287)
  || (c =? 12288).

Fixpoint lstrip (s : str) : str :=
  match s with
  | c :: r => if isspace c then lstrip r else s
  | [] => []
  end.

Definition rstrip (s : str) : str := rev (lstrip (rev s)).

(** [s.strip()] *)
Definition strip (s : str) : str := rstrip (lstrip s).

(** [sep.join(items)] on a list of strings *)
Fixpoint join (sep : str) (items : list str) : str :=
  match items with
  | [] => []
  | [x] => x
  | x :: r => x ++ sep ++ join sep r
  end.

(** [s.split(sep, 1)] for a separator of one character: the text before
    the first separator and the text after it, or the whole text alone. *)
Fixpoint split_1 (sep : N) (s : str) : list str :=
  match s with
  | [] => [[]]
  | c :: r =>
    if c =? sep then [[]; r]
    else
      match split_1 sep r with
      | h :: t => (c :: h) :: t
      | [] => [[c]]
      end
  end.

(** [str(n)] for an [int] *)
Definition str_of_int (z : Z) : str :=
  lit (NilZero.string_of_int (Z.to_int z)).

(** Truth value of a [str] ([bool(s)]): the empty string is false. *)
Definition truthy {A} (s : list A) : bool :=
  match s with [] => false | _ => true end.

End Py.

Notation "'u' s" := (Py.lit s%string) (at level 1, s at level 0, only parsing).

(* ================================================================= *)
(** ** Exceptions and outcomes *)

(** The exception classes that occur; all of them derive from [Exception].
  The Azure classes form the hierarchy of [azure.core.exceptions]:
  [AzureError] is the root, [HttpResponseError] and [ServiceRequestError]
  derive from it, [ResourceExistsError] and [ResourceNotFoundError] from
  [HttpResponseError]. *)
Inductive exn_class :=
| ValueError | KeyError | IndexError | TypeError | AttributeError
| JSONDecodeError | OSError
| AzureError | HttpResponseError | ServiceRequestError
| ResourceExistsError | ResourceNotFoundError
| OpenAIError.

(** An exception value: FastAPI's [HTTPException(status_code, detail)], itself
  a subclass of [Exception], or an instance of one of the classes above
  with the text [str(e)] gives. *)
Inductive exn :=
| HTTPException (status_code : Z) (detail : str)
| Error (cls : exn_class) (msg : str).

Definition is_AzureError (e : exn) : bool :=
match e with
| Error (AzureError | HttpResponseError | ServiceRequestError
        | ResourceExistsError | ResourceNotFoundError) _ => true
| _ => false
end.

Definition is_ResourceExistsError (e : exn) : bool :=
match e with
| Error ResourceExistsError _ => true
| _ => false
end.

(** [str(e)], as the f-strings of the handlers format it.  For an
  [HTTPException] it is ["<status_code>: <detail>"]. *)
Definition exn_str (e : exn) : str :=
match e with
| HTTPException c d => Py.str_of_int c ++ u": " ++ d
| Error _ msg => msg
end.

Inductive outcome (A : Type) :=
| Ret (a : A)
| Raise (e : exn).
Arguments Ret {A} a.
Arguments Raise {A} e.

Definition obind {A B} (o : outcome A) (k : A -> outcome B) : outcome B :=
match o with
| Ret a => k a
| Raise e => Raise e
end.

(** The elements of a list comprehension, evaluated left to right; the first
  exception ends the evaluation. *)
Fixpoint traverse {A B} (f : A -> outcome B) (l : list A) : outcome (list B) :=
match l with
| [] => Ret []
| x :: r => obind (f x) (fun y => obind (traverse f r) (fun ys => Ret (y :: ys)))
end.

(* ================================================================= *)
(** ** Python floats: [float(text)] and [repr] *)

Module Float64.

Local Open Scope Z_scope.

(** A binary64 value.  A finite value that is not zero is [m * 2^e] with
    [0 < m < 2^53] and [-1074 <= e <= 971]. *)
Inductive double :=
| Zero (negative : bool)
| Finite (negative : bool) (m e : Z)
| Inf (negative : bool)
| NaN.

(** [a * 2^x * 10^y] for a comparison with, or a division by, a number
    that carries [2^x' * 10^y']: the powers whose exponent is negative on
    the other side are multiplied in on this one, so that both sides are
    integers. *)
Definition scaled (a x y x' y' : Z) : Z :=
  a * 2 ^ Z.max x 0 * 10 ^ Z.max y 0 * 2 ^ Z.max (- x') 0 * 10 ^ Z.max (- y') 0.

(** The quotient of [n] by [d], rounded to nearest, ties to even *)
Definition div_half_even (n d : Z) : Z :=
  let q := n / d in
  let r := n mod d in
  if (d <? 2 * r) || ((d =? 2 * r) && Z.odd q) then q + 1 else q.

(** [float(text)] for the decimal [D * 10^E]: the nearest double, ties to
    even; infinity from [2^1024 - 2^970] on. *)
Definition of_decimal (negative : bool) (D E : Z) : double :=
  if D <=? 0 then Zero negative
  else
    let magnitude := Z.log2 D * 30103 / 100000 + E in
    if 400 <? magnitude then Inf negative
    else if magnitude <? -400 then Zero negative
    else
      let num := D * 10 ^ Z.max E 0 in
      let den := 10 ^ Z.max (- E) 0 in
      let e0 := Z.log2 num - Z.log2 den - 52 in
      let q0 := scaled num (- e0) 0 0 0 / scaled den e0 0 0 0 in
      let e1 := if q0 <? 2 ^ 52 then e0 - 1 else e0 in
      let e2 := Z.max e1 (-1074) in
      let q := div_half_even (scaled num (- e2) 0 0 0) (scaled den e2 0 0 0) in
      let (m, e) := if q =? 2 ^ 53 then (2 ^ 52, e2 + 1) else (q, e2) in
      if m =? 0 then Zero negative
      else if 971 <? e then Inf negative
      else Finite negative m e.

(** [floor(log10(V * 2^g))] for [0 < V] *)
Definition floor_log10 (V g : Z) : Z :=
  let k0 := (Z.log2 V + g) * 30103 / 100000 in
  let reaches k := scaled 1 0 k g 0 <=? scaled V g 0 0 k in
  if reaches (k0 + 1) then k0 + 1
  else if reaches k0 then k0
  else k0 - 1.

(** The decimals [d * 10^p] of [n] digits next to [m * 2^e], below and
    above, that read back as this double: they lie between the midpoints
    to the neighbouring doubles, the midpoints included when [m] is even.
    Of two, the nearer, and the even one when they are as near. *)
Definition shortest_step (m e n : Z) : option (Z * Z) :=
  let V := 4 * m in
  let g := e - 2 in
  let HI := 4 * m + 2 in
  let LO := if (m =? 2 ^ 52) && (-1074 <? e) then 4 * m - 1 else 4 * m - 2 in
  let inclusive := Z.even m in
  let p := floor_log10 V g - (n - 1) in
  let d_lo := scaled V g 0 0 p / scaled 1 0 p g 0 in
  let d_hi := d_lo + 1 in
  let ok_lo :=
    let a := scaled LO g 0 0 p in
    let b := scaled d_lo 0 p g 0 in
    if inclusive then a <=? b else a <? b in
  let ok_hi :=
    let a := scaled d_hi 0 p g 0 in
    let b := scaled HI g 0 0 p in
    if inclusive then a <=? b else a <? b in
  let twice := scaled (2 * V) g 0 0 p in
  let middle := scaled (2 * d_lo + 1) 0 p g 0 in
  let lo_nearer := (twice <? middle) || ((twice =? middle) && Z.even d_lo) in
  if ok_lo && ok_hi then Some (if lo_nearer then d_lo else d_hi, p)
  else if ok_lo then Some (d_lo, p)
  else if ok_hi then Some (d_hi, p)
  else None.

Fixpoint shortest_from (fuel : nat) (m e n : Z) : Z * Z :=
  match fuel with
  | O => (m, e)
  | S fuel =>
    match shortest_step m e n with
    | Some r => r
    | None => shortest_from fuel m e (n + 1)
    end
  end.

Fixpoint strip_zeros (s : str) : str :=
  match s with
  | 48%N :: r => strip_zeros r
  | _ => s
  end.

(** The shortest digits that read back as [m * 2^e], at most 17, without
    zeros at the end, and the position [decpt] of the decimal point: the
    value written is [0.d1d2... * 10^decpt]. *)
Definition shortest (m e : Z) : str * Z :=
  let (d, p) := shortest_from 17 m e 1 in
  let ds := Py.str_of_int d in
  (rev (strip_zeros (rev ds)), Z.of_nat (length ds) + p).

Definition zeros (n : Z) : str := repeat 48%N (Z.to_nat n).

(** The digits as [repr] lays them out: with an exponent of two digits or
    more when [decpt <= -4] or [16 < decpt], in positional notation
    otherwise, there with [.0] after an integer. *)
Definition layout (ds : str) (decpt : Z) : str :=
  let L := Z.of_nat (length ds) in
  if (decpt <=? -4) || (16 <? decpt) then
    let x := decpt - 1 in
    let mantissa :=
      match ds with
      | d :: (_ :: _) as r => d :: 46%N :: r
      | _ => ds
      end in
    let xs := Py.str_of_int (Z.abs x) in
    mantissa ++ [101%N; if x <? 0 then 45%N else 43%N]
             ++ (match xs with [_] => 48%N :: xs | _ => xs end)
  else if decpt <=? 0 then [48%N; 46%N] ++ zeros (- decpt) ++ ds
  else if L <=? decpt then ds ++ zeros (decpt - L) ++ [46%N; 48%N]
  else take (Z.to_nat decpt) ds ++ [46%N] ++ drop (Z.to_nat decpt) ds.

(** The text [json.dumps] writes for a float: [float.__repr__] of a finite
    value, and [NaN], [Infinity] or [-Infinity]. *)
Definition json_repr (x : double) : str :=
  let sign (negative : bool) : str := if negative then [45%N] else [] in
  match x with
  | Zero negative => sign negative ++ u"0.0"
  | Finite negative m e =>
    let (ds, decpt) := shortest m e in sign negative ++ layout ds decpt
  | Inf negative => sign negative ++ u"Infinity"
  | NaN => u"NaN"
  end.

End Float64.

(* ================================================================= *)
(** ** JSON: the values, [json.loads] and [json.dumps] *)

Module Json.

Local Open Scope N_scope.

(** The Python values the [json] module reads and writes.  A [float] is
    kept as the text [json.dumps] writes for it (no operation of the
    program computes with one): [loads] reads a number with a fraction or
    an exponent to the nearest double and keeps its [repr].  A [dict] is
    the list of its items in insertion order, with distinct keys. *)
Inductive json :=
| JNull
| JBool (b : bool)
| JInt (z : Z)
| JFloat (repr : str)
| JStr (s : str)
| JArr (items : list json)
| JObj (members : list (str * json)).

(** [d[k] = v] *)
Fixpoint dict_set (k : str) (v : json) (d : list (str * json))
  : list (str * json) :=
  match d with
  | [] => [(k, v)]
  | (k', v') :: d' =>
    if bool_decide (k' = k) then (k, v) :: d' else (k', v') :: dict_set k v d'
  end.

(** [d.get(k)] *)
Fixpoint dict_get (k : str) (d : list (str * json)) : option json :=
  match d with
  | [] => None
  | (k', v) :: d' => if bool_decide (k' = k) then Some v else dict_get k d'
  end.

(** *** The decoder *)

Definition is_ws (c : N) : bool :=
  (c =? 32) || (c =? 9) || (c =? 10) || (c =? 13).

Fixpoint skip_ws (s : str) : str :=
  match s with
  | c :: r => if is_ws c then skip_ws r else s
  | [] => []
  end.

Definition is_digit (c : N) : bool := (48 <=? c) && (c <=? 57).

Definition hexval (c : N) : option N :=
  if is_digit c then Some (c - 48)
  else if (97 <=? c) && (c <=? 102) then Some (c - 87)
  else if (65 <=? c) && (c <=? 70) then Some (c - 55)
  else None.

(** Four hexadecimal digits of a [\uXXXX] escape *)
Definition hex4 (s : str) : option (N * str) :=
  match s with
  | a :: b :: c :: d :: r =>
    match hexval a, hexval b, hexval c, hexval d with
    | Some a, Some b, Some c, Some d =>
      Some (a * 4096 + b * 256 + c * 16 + d, r)
    | _, _, _, _ => None
    end
  | _ => None
  end.

(** The character a one-letter escape stands for: quote, backslash, slash,
    b, f, n, r, t *)
Definition simple_escape (c : N) : option N :=
  if c =? 34 then Some 34
  else if c =? 92 then Some 92
  else if c =? 47 then Some 47
  else if c =? 98 then Some 8
  else if c =? 102 then Some 12
  else if c =? 110 then Some 10
  else if c =? 114 then Some 13
  else if c =? 116 then Some 9
  else None.

Definition is_high_surrogate (c : N) : bool := (55296 <=? c) && (c <=? 56319).
Definition is_low_surrogate (c : N) : bool := (56320 <=? c) && (c <=? 57343).
Definition join_surrogates (hi lo : N) : N :=
  65536 + (hi - 55296) * 1024 + (lo - 56320).

(** The body of a string after its opening quote (strict mode: a raw
    control character is an error).  Returns the text and what follows the
    closing quote. *)
Fixpoint scanstring (fuel : nat) (s : str) (acc : str) : option (str * str) :=
  match fuel with
  | O => None
  | S fuel =>
    match s with
    | [] => None
    | c :: r =>
      if c =? 34 then Some (rev acc, r)
      else if c =? 92 then
        match r with
        | [] => None
        | e :: r1 =>
          if e =? 117 then
            match hex4 r1 with
            | None => None
            | Some (uni, r2) =>
              if is_high_surrogate uni then
                match r2 with
                | 92 :: 117 :: r3 =>
                  match hex4 r3 with
                  | None => None
                  | Some (uni2, r4) =>
                    if is_low_surrogate uni2
                    then scanstring fuel r4 (join_surrogates uni uni2 :: acc)
                    else scanstring fuel r2 (uni :: acc)
                  end
                | _ => scanstring fuel r2 (uni :: acc)
                end
              else scanstring fuel r2 (uni :: acc)
            end
          else
            match simple_escape e with
            | Some ch => scanstring fuel r1 (ch :: acc)
            | None => None
            end
        end
      else if c <? 32 then None
      else scanstring fuel r (c :: acc)
    end
  end.

Fixpoint digits (s : str) : str * str :=
  match s with
  | c :: r =>
    if is_digit c then let (ds, r') := digits r in (c :: ds, r') else ([], s)
  | [] => ([], [])
  end.

Definition int_of_digits (ds : str) : Z :=
  fold_left (fun acc c => (acc * 10 + Z.of_N (c - 48))%Z) ds 0%Z.

(** [sys.get_int_max_str_digits()]: a longer run of digits is refused by
    [int] with a [ValueError]. *)
Definition int_max_str_digits : nat := 4300.

Definition int_limit_exceeded (ndigits : nat) : exn :=
  Error ValueError
    (u"Exceeds the limit (4300 digits) for integer string conversion: "
     ++ u"value has " ++ Py.str_of_int (Z.of_nat ndigits)
     ++ u" digits; use sys.set_int_max_str_digits() to increase the limit").

(** The number at the head of the text, as the decoder's pattern matches
    it: an optional minus sign; a zero, or a non-zero digit and more digits;
    optionally a point and one digit or more; optionally [e] or [E], an
    optional sign and one digit or more.  The result is an [int] when
    there is neither fraction nor exponent, and [float] of the matched text
    otherwise. *)
Definition match_number (s : str) : option (outcome json * str) :=
  let (negative, s1) :=
    match s with
    | 45 :: r => (true, r)
    | _ => (false, s)
    end in
  match s1 with
  | c :: r =>
    if is_digit c then
      let (intpart, r1) :=
        if c =? 48 then ([48], r)
        else let (ds, r') := digits r in (c :: ds, r') in
      let (frac, r2) :=
        match r1 with
        | 46 :: r' =>
          match digits r' with
          | ([], _) => (None, r1)
          | (ds, r'') => (Some ds, r'')
          end
        | _ => (None, r1)
        end in
      let (expo, r3) :=
        match r2 with
        | e :: r' =>
          if (e =? 101) || (e =? 69) then
            let (minus, r'') :=
              match r' with
              | x :: t =>
                if x =? 45 then (true, t)
                else if x =? 43 then (false, t)
                else (false, r')
              | [] => (false, r')
              end in
            match digits r'' with
            | ([], _) => (None, r2)
            | (ds, r3) =>
              let v := int_of_digits ds in
              (Some (if minus then - v else v)%Z, r3)
            end
          else (None, r2)
        | [] => (None, r2)
        end in
      match frac, expo with
      | None, None =>
        if (int_max_str_digits <? length intpart)%nat
        then Some (Raise (int_limit_exceeded (length intpart)), r3)
        else
          let v := int_of_digits intpart in
          Some (Ret (JInt (if negative then - v else v)%Z), r3)
      | _, _ =>
        let fd := default [] frac in
        let D := int_of_digits (intpart ++ fd) in
        let E := (default 0 expo - Z.of_nat (length fd))%Z in
        Some (Ret (JFloat (Float64.json_repr (Float64.of_decimal negative D E))),
              r3)
      end
    else None
  | [] => None
  end.

(** [s] starts with the characters of [p]: what is left of [s] *)
Fixpoint expect (p s : str) : option str :=
  match p, s with
  | [], _ => Some s
  | a :: p', b :: s' => if a =? b then expect p' s' else None
  | _ :: _, [] => None
  end.

Definition expecting_value : exn := Error JSONDecodeError (u"Expecting value").

(** One JSON term at the head of the text ([scan_once]), the elements of an
    array from its first term on, and the members of an object from the
    quote of its first key on.  Each returns the value and the text that
    follows it, or raises. *)
Fixpoint scan_once (fuel : nat) (s : str) : outcome (json * str) :=
  match fuel with
  | O => Raise expecting_value
  | S fuel =>
    match s with
    | [] => Raise expecting_value
    | c :: r =>
      if c =? 34 then
        match scanstring (S (length r)) r [] with
        | Some (x, r') => Ret (JStr x, r')
        | None => Raise expecting_value
        end
      else if c =? 123 then
        match skip_ws r with
        | 125 :: r' => Ret (JObj [], r')
        | r' => scan_object fuel r' []
        end
      else if c =? 91 then
        match skip_ws r with
        | 93 :: r' => Ret (JArr [], r')
        | r' => scan_array fuel r' []
        end
      else
        match expect (u"null") s, expect (u"true") s, expect (u"false") s with
        | Some r', _, _ => Ret (JNull, r')
        | _, Some r', _ => Ret (JBool true, r')
        | _, _, Some r' => Ret (JBool false, r')
        | None, None, None =>
          match match_number s with
          | Some (Ret v, r') => Ret (v, r')
          | Some (Raise e, _) => Raise e
          | None =>
            match expect (u"NaN") s, expect (u"Infinity") s,
                  expect (u"-Infinity") s with
            | Some r', _, _ => Ret (JFloat (Float64.json_repr Float64.NaN), r')
            | _, Some r', _ =>
              Ret (JFloat (Float64.json_repr (Float64.Inf false)), r')
            | _, _, Some r' =>
              Ret (JFloat (Float64.json_repr (Float64.Inf true)), r')
            | None, None, None => Raise expecting_value
            end
          end
        end
    end
  end
with scan_array (fuel : nat) (s : str) (acc : list json)
  : outcome (json * str) :=
  match fuel with
  | O => Raise expecting_value
  | S fuel =>
    match scan_once fuel s with
    | Raise e => Raise e
    | Ret (v, r) =>
      match skip_ws r with
      | c :: r' =>
        if c =? 93 then Ret (JArr (rev (v :: acc)), r')
        else if c =? 44 then scan_array fuel (skip_ws r') (v :: acc)
        else Raise expecting_value
      | [] => Raise expecting_value
      end
    end
  end
with scan_object (fuel : nat) (s : str) (acc : list (str * json))
  : outcome (json * str) :=
  match fuel with
  | O => Raise expecting_value
  | S fuel =>
    match s with
    | 34 :: r =>
      match scanstring (S (length r)) r [] with
      | None => Raise expecting_value
      | Some (key, r1) =>
        match skip_ws r1 with
        | 58 :: r2 =>
          match scan_once fuel (skip_ws r2) with
          | Raise e => Raise e
          | Ret (v, r3) =>
            let acc := dict_set key v acc in
            match skip_ws r3 with
            | c :: r4 =>
              if c =? 125 then Ret (JObj acc, r4)
              else if c =? 44 then scan_object fuel (skip_ws r4) acc
              else Raise expecting_value
            | [] => Raise expecting_value
            end
          end
        | _ => Raise expecting_value
        end
      end
    | _ => Raise expecting_value
    end
  end.

(** [json.loads(s)] for a [str]: one term between optional whitespace;
    anything else raises [JSONDecodeError], and an integer of more than
    4300 digits [ValueError].  The depth at which the interpreter gives up
    on nested arrays and objects ([RecursionError], near its recursion
    limit of 1000 frames less those of the caller) is not part of the
    model. *)
Definition loads (s : str) : outcome json :=
  match scan_once (2 * length s + 2) (skip_ws s) with
  | Ret (v, r) =>
    match skip_ws r with
    | [] => Ret v
    | _ => Raise (Error JSONDecodeError (u"Extra data"))
    end
  | Raise e => Raise e
  end.

(** How deep arrays and objects are nested in a value *)
Fixpoint depth (v : json) : nat :=
  match v with
  | JArr items =>
    S ((fix go (l : list json) : nat :=
          match l with
          | [] => O
          | x :: r => Nat.max (depth x) (go r)
          end) items)
  | JObj members =>
    S ((fix go (l : list (str * json)) : nat :=
          match l with
          | [] => O
          | (_, x) :: r => Nat.max (depth x) (go r)
          end) members)
  | _ => O
  end.

(** *** The encoder *)

Definition hexdigit (n : N) : N := if n <? 10 then 48 + n else 87 + n.

Definition escape_u (c : N) : str :=
  [92; 117; hexdigit (c / 4096 mod 16); hexdigit (c / 256 mod 16);
   hexdigit (c / 16 mod 16); hexdigit (c mod 16)].

(** One character of a string under [ensure_ascii=True] *)
Definition escape_char (c : N) : str :=
  if c =? 34 then [92; 34]
  else if c =? 92 then [92; 92]
  else if c =? 10 then [92; 110]
  else if c =? 13 then [92; 114]
  else if c =? 9 then [92; 116]
  else if c =? 8 then [92; 98]
  else if c =? 12 then [92; 102]
  else if (32 <=? c) && (c <=? 126) then [c]
  else if c <? 65536 then escape_u c
  else
    let n := c - 65536 in
    escape_u (55296 + (n / 1024) mod 1024) ++ escape_u (56320 + n mod 1024).

Definition encode_str (s : str) : str :=
  [34] ++ flat_map escape_char s ++ [34].

(** [json.dumps(v)] with the default separators [", "] and [": "] *)
Fixpoint dumps (v : json) : str :=
  match v with
  | JNull => u"null"
  | JBool true => u"true"
  | JBool false => u"false"
  | JInt z => Py.str_of_int z
  | JFloat repr => repr
  | JStr s => encode_str s
  | JArr items =>
    [91] ++
    (fix go (l : list json) : str :=
       match l with
       | [] => []
       | [x] => dumps x
       | x :: r => dumps x ++ u", " ++ go r
       end) items
    ++ [93]
  | JObj members =>
    [123] ++
    (fix go (l : list (str * json)) : str :=
       match l with
       | [] => []
       | [(k, x)] => encode_str k ++ u": " ++ dumps x
       | (k, x) :: r => encode_str k ++ u": " ++ dumps x ++ u", " ++ go r
       end) members
    ++ [125]
  end.

End Json.
Export Json.

(* ================================================================= *)
(** ** The outside world *)

(** *** Data exchanged with the services *)

(** What [_generate_embeddings] returns: a Python list whose items are
  floats (one vector) or lists of floats (one vector per record).  Its
  length is [len] of that list. *)
Definition embeddings : Type := list (float + list float).

(** The dictionary [insert_document_faq] and [insert_document] upload, by
  its four keys ["id"], ["type"], ["doc_content"] and
  ["doc_content_embeddings"]. *)
Record Document := {
doc_id : str;
doc_type : str;
doc_content : str;
doc_content_embeddings : embeddings;
}.

Inductive field_type := EdmString | CollectionEdmSingle.

Record SearchField := {
field_name : str;
field_data_type : field_type;
field_key : bool;
field_filterable : bool;
field_searchable : bool;
vector_search_dimensions : option Z;
vector_search_profile_name : option str;
}.

Inductive algorithm_kind := EXHAUSTIVE_KNN | HNSW.
Inductive algorithm_metric := COSINE | EUCLIDEAN | DOT_PRODUCT.

Record AlgorithmConfiguration := {
algorithm_name : str;
kind : algorithm_kind;
metric : algorithm_metric;
}.

Record VectorSearchProfile := {
profile_name : str;
algorithm_configuration_name : str;
}.

Record VectorSearch := {
algorithm_configurations : list AlgorithmConfiguration;
profiles : list VectorSearchProfile;
}.

Record SearchIndex := {
index_name_of : str;
index_fields : list SearchField;
index_vector_search : VectorSearch;
}.

Record VectorizedQuery := {
vector : embeddings;
vector_fields : str;
}.

(** The keyword arguments of [SearchClient.search] *)
Record SearchRequest := {
top : Z;
vector_queries : list VectorizedQuery;
select : list str;
filter : str;
}.

(** Values found in a cell of a [DataFrame] of search results *)
Inductive pyval :=
| PyNone
| PyStr (s : str)
| PyFloat (x : float).

Definition isinstance_str (v : pyval) : bool :=
match v with PyStr _ => true | _ => false end.

(** [pd.DataFrame(results)]: the result dictionaries, one per row *)
Definition DataFrame : Type := list (list (str * pyval)).

Record message := {
role : str;
content : str;
}.

(** *** Calls to the services *)

Inductive event :=
| EmbeddingsCreate (input : str)
| ChatCompletionsCreate (temperature : float) (messages : list message)
| ListIndexNames
| CreateOrUpdateIndex (index : SearchIndex)
| UploadDocuments (docs : list Document)
| Search (request : SearchRequest)
| OpenFile (path : str)
| SearchSimilarDocuments (query : str) (k : Z) (filters : option str)
| BlobServiceClientFromConnectionString
| CreateContainer (container_name : str)
| UploadBlob (container_name blob_name : str) (data : bytes) (overwrite : bool)
| DownloadBlob (container_name blob_name : str)
| AnalyzeDocument (model_id : str) (document : bytes).

Definition is_chat_completion (ev : event) : bool :=
match ev with ChatCompletionsCreate _ _ => true | _ => false end.

Definition is_create_index (ev : event) : bool :=
match ev with CreateOrUpdateIndex _ => true | _ => false end.

Definition is_embedding (ev : event) : bool :=
match ev with EmbeddingsCreate _ => true | _ => false end.

(** What the services answer.  [fault n ev] tells whether the call [ev],
  made when [n] calls have been made before it, fails, and with which
  exception; the other fields give the answer of a call that succeeds. *)
Record Env := {
fault : nat -> event -> option exn;
(** [response.data]: the embedding of each record *)
embeddings_data : str -> list (list float);
(** [response.choices]: the [message.content] of each choice *)
chat_choices : list message -> list (option str);
(** the hits of a vector query over the documents of the index *)
search_hits : SearchRequest -> list Document -> DataFrame;
(** the text of a file *)
file_text : str -> str;
(** [result.content] of the document analysis *)
ocr_content : bytes -> str;
(** the identifiers [uuid.uuid4()] draws, in order *)
uuid4 : nat -> str;
(** [AzureSearchVectorDB.search_similar_documents] of [ai-api], whose
    module [infra/vector_database.py] is not part of the sources *)
az_search_similar_documents : str -> Z -> option str -> DataFrame;
}.

(** The state the services keep, and the calls made so far (oldest
  first). *)
Record World := {
trace : list event;
indexes : list SearchIndex;
documents : list Document;
containers : gset str;
blobs : gmap (str * str) bytes;
uuids_drawn : nat;
}.

Definition set_trace (t : list event) (w : World) : World :=
{| trace := t; indexes := indexes w; documents := documents w;
   containers := containers w; blobs := blobs w;
   uuids_drawn := uuids_drawn w |}.

Definition set_indexes (l : list SearchIndex) (w : World) : World :=
{| trace := trace w; indexes := l; documents := documents w;
   containers := containers w; blobs := blobs w;
   uuids_drawn := uuids_drawn w |}.

Definition set_documents (l : list Document) (w : World) : World :=
{| trace := trace w; indexes := indexes w; documents := l;
   containers := containers w; blobs := blobs w;
   uuids_drawn := uuids_drawn w |}.

Definition set_containers (c : gset str) (w : World) : World :=
{| trace := trace w; indexes := indexes w; documents := documents w;
   containers := c; blobs := blobs w; uuids_drawn := uuids_drawn w |}.

Definition set_blobs (b : gmap (str * str) bytes) (w : World) : World :=
{| trace := trace w; indexes := indexes w; documents := documents w;
   containers := containers w; blobs := b; uuids_drawn := uuids_drawn w |}.

Definition set_uuids_drawn (n : nat) (w : World) : World :=
{| trace := trace w; indexes := indexes w; documents := documents w;
   containers := containers w; blobs := blobs w; uuids_drawn := n |}.

(** *** Computations *)

Definition M (A : Type) : Type := World -> outcome A * World.

Definition ret {A} (a : A) : M A := fun w => (Ret a, w).

Definition raise {A} (e : exn) : M A := fun w => (Raise e, w).

Definition bind {A B} (m : M A) (k : A -> M B) : M B :=
fun w =>
  match m w with
  | (Ret a, w') => k a w'
  | (Raise e, w') => (Raise e, w')
  end.

Notation "x <- m ;; k" := (bind m (fun x => k))
(at level 100, m at next level, k at level 200, right associativity).
Notation "m ;;; k" := (bind m (fun _ => k))
(at level 100, k at level 200, right associativity).

(** [try: body / except Exception as e: handler(e)]: every exception of the
  model derives from [Exception]. *)
Definition try_except {A} (body : M A) (handler : exn -> M A) : M A :=
fun w =>
  match body w with
  | (Ret a, w') => (Ret a, w')
  | (Raise e, w') => handler e w'
  end.

(** [try: body / except C as e: handler(e)] for a class [C] *)
Definition try_except_if {A} (catches : exn -> bool)
  (body : M A) (handler : exn -> M A) : M A :=
fun w =>
  match body w with
  | (Ret a, w') => (Ret a, w')
  | (Raise e, w') => if catches e then handler e w' else (Raise e, w')
  end.

Definition lift {A} (o : outcome A) : M A := fun w => (o, w).

Definition get : M World := fun w => (Ret w, w).

Definition modify (f : World -> World) : M unit := fun w => (Ret tt, f w).

(** A call to a service: recorded in the trace, then failing or not as the
  environment says. *)
Definition external (env : Env) (ev : event) : M unit :=
fun w =>
  let w' := set_trace (trace w ++ [ev]) w in
  match fault env (length (trace w)) ev with
  | Some e => (Raise e, w')
  | None => (Ret tt, w')
  end.

(** [l[0]] *)
Definition first {A} (l : list A) : outcome A :=
match l with
| x :: _ => Ret x
| [] => Raise (Error IndexError (u"list index out of range"))
end.

(** *** HTTP responses *)

Record http_response := {
status : Z;
body : json;
}.

(** What FastAPI sends for the outcome of a route whose response model has
  the single field [response : str]: the model as JSON with the route's
  status code, the status and detail of an [HTTPException], and an
  internal server error for any other exception. *)
Definition respond (success : Z) (o : outcome str) : http_response :=
match o with
| Ret s => {| status := success; body := JObj [(u"response", JStr s)] |}
| Raise (HTTPException c d) =>
  {| status := c; body := JObj [(u"detail", JStr d)] |}
| Raise (Error _ _) =>
  {| status := 500; body := JStr (u"Internal Server Error") |}
end.

(* ================================================================= *)
(** ** Python values read from JSON and from data frames *)

(** [v[key]] for a string [key] *)
Definition getitem (v : json) (key : str) : outcome json :=
match v with
| JObj members =>
  match dict_get key members with
  | Some x => Ret x
  | None => Raise (Error KeyError key)
  end
| JArr _ =>
  Raise (Error TypeError (u"list indices must be integers or slices, not str"))
| JStr _ => Raise (Error TypeError (u"string indices must be integers"))
| _ => Raise (Error TypeError (u"object is not subscriptable"))
end.

(** [v.get(key, default)] *)
Definition get_default (v : json) (key : str) (default : json) : outcome json :=
match v with
| JObj members =>
  match dict_get key members with
  | Some x => Ret x
  | None => Ret default
  end
| _ => Raise (Error AttributeError (u"object has no attribute 'get'"))
end.

(** The items a [for] loop over [v] visits *)
Definition iterate (v : json) : outcome (list json) :=
match v with
| JArr items => Ret items
| JObj members => Ret (map (fun kv => JStr kv.1) members)
| JStr s => Ret (map (fun c => JStr [c]) s)
| _ => Raise (Error TypeError (u"object is not iterable"))
end.

(** [sep.join(items)]: every item has to be a [str] *)
Definition join_values (sep : str) (items : list json) : outcome str :=
obind
  (traverse (fun v =>
           match v with
           | JStr s => Ret s
           | _ => Raise (Error TypeError (u"sequence item: expected str instance"))
           end) items)
  (fun l => Ret (Py.join sep l)).

(** [[f(doc) for doc in values if isinstance(doc, str)]] *)
Fixpoint comprehension (f : str -> outcome json) (values : list pyval)
: outcome (list json) :=
match values with
| [] => Ret []
| PyStr doc :: r =>
  obind (f doc) (fun y => obind (comprehension f r) (fun ys => Ret (y :: ys)))
| _ :: r => comprehension f r
end.

Fixpoint row_get (col : str) (r : list (str * pyval)) : option pyval :=
match r with
| [] => None
| (k, v) :: r' => if bool_decide (k = col) then Some v else row_get col r'
end.

(** [df[col].values]: the frame has the columns that occur in some row, a
  row without the column has [NaN] there. *)
Definition df_column (df : DataFrame) (col : str) : outcome (list pyval) :=
if existsb (fun r => bool_decide (is_Some (row_get col r))) df
then Ret (map (fun r => default (PyFloat nan) (row_get col r)) df)
else Raise (Error KeyError col).

(** [message.content.strip()]; the content may be [None] *)
Definition content_strip (c : option str) : outcome str :=
  match c with
  | Some s => Ret (Py.strip s)
  | None =>
    Raise (Error AttributeError (u"'NoneType' object has no attribute 'strip'"))
  end.

Fixpoint for_each {A} (l : list A) (body : A -> M unit) : M unit :=
match l with
| [] => ret tt
| x :: r => body x ;;; for_each r body
end.

(** The reply both question-answering services give when anything fails *)
Definition apology : str :=
u"Desculpe, não consegui encontrar uma resposta para sua pergunta.".

(* ================================================================= *)
(** ** connectdeaf-faq-api: [infra/vector_database.py] *)

Module AzureSearchVectorDB.
Section AzureSearchVectorDB.

Context (env : Env).

Definition index_name : str := u"faq-index".
Definition embeddings_dimension : Z := 1536.

(** The index service *)

Definition list_index_names : M (list str) :=
  external env ListIndexNames ;;;
  w <- get ;;
  ret (map index_name_of (indexes w)).

Fixpoint put_index (index : SearchIndex) (l : list SearchIndex)
  : list SearchIndex :=
  match l with
  | [] => [index]
  | x :: r =>
    if bool_decide (index_name_of x = index_name_of index)
    then index :: r
    else x :: put_index index r
  end.

Definition create_or_update_index (index : SearchIndex) : M unit :=
  external env (CreateOrUpdateIndex index) ;;;
  modify (fun w => set_indexes (put_index index (indexes w)) w).

(** [SearchClient.upload_documents]: the documents are added to the index.
    The service merges by the key ["id"]; the identifiers the program
    uploads are draws of [uuid.uuid4()], taken to be new, so that no
    stored document is replaced.  Whether the service accepts the fields
    of a document is the answer of the call ([fault]). *)
Definition upload_documents (docs : list Document) : M unit :=
  external env (UploadDocuments docs) ;;;
  modify (fun w => set_documents (documents w ++ docs) w).

Definition search (request : SearchRequest) : M DataFrame :=
  external env (Search request) ;;;
  w <- get ;;
  ret (search_hits env request (documents w)).

Definition uuid_uuid4 : M str :=
  fun w => (Ret (uuid4 env (uuids_drawn w)),
            set_uuids_drawn (S (uuids_drawn w)) w).

(** The class *)

Definition _get_index_fields : list SearchField :=
  [ {| field_name := u"id"; field_data_type := EdmString;
       field_key := true; field_filterable := true;
       field_searchable := true;
       vector_search_dimensions := None;
       vector_search_profile_name := None |};
    {| field_name := u"type"; field_data_type := EdmString;
       field_key := false; field_filterable := true;
       field_searchable := true;
       vector_search_dimensions := None;
       vector_search_profile_name := None |};
    {| field_name := u"doc_content"; field_data_type := EdmString;
       field_key := false; field_filterable := true;
       field_searchable := true;
       vector_search_dimensions := None;
       vector_search_profile_name := None |};
    {| field_name := u"document_vector";
       field_data_type := CollectionEdmSingle;
       field_key := false; field_filterable := false;
       field_searchable := true;
       vector_search_dimensions := Some embeddings_dimension;
       vector_search_profile_name := Some (u"ExhaustiveKnnProfile") |} ].

Definition _get_vector_search_config : VectorSearch :=
  {| algorithm_configurations :=
       [ {| algorithm_name := u"ExhaustiveKnn";
            kind := EXHAUSTIVE_KNN;
            metric := COSINE |} ];
     profiles :=
       [ {| profile_name := u"ExhaustiveKnnProfile";
            algorithm_configuration_name := u"ExhaustiveKnn" |} ] |}.

Definition _create_vector_index : M unit :=
  let fields := _get_index_fields in
  let vector_search := _get_vector_search_config in
  let index := {| index_name_of := index_name;
                  index_fields := fields;
                  index_vector_search := vector_search |} in
  try_except (create_or_update_index index) (fun _ => ret tt).

Definition _get_existing_index_names : M (list str) :=
  try_except list_index_names (fun _ => ret []).

(** The constructor, once the three clients are built: they are local
    objects, no call is made to build them. *)
Definition __init__ : M unit :=
  names <- _get_existing_index_names ;;
  if negb (bool_decide (index_name ∈ names))
  then _create_vector_index
  else ret tt.

Definition _generate_embeddings (content : str) : M embeddings :=
  try_except
    (external env (EmbeddingsCreate content) ;;;
     let data := embeddings_data env content in
     if (length data =? 1)%nat
     then r <- lift (first data) ;; ret (map inl r)
     else ret (map inr data))
    (fun _ => ret []).

Definition insert_document_faq (question answer : json) : M unit :=
  try_except
    (let data := JObj [(u"question", question); (u"answer", answer)] in
     let data_str := Json.dumps data in
     doc_embeddings <- _generate_embeddings data_str ;;
     id <- uuid_uuid4 ;;
     let doc := {| doc_id := id;
                   doc_type := u"faq";
                   doc_content := data_str;
                   doc_content_embeddings := doc_embeddings |} in
     upload_documents [doc])
    (fun _ => ret tt).

Definition insert_document (content : str) : M unit :=
  try_except
    (doc_embeddings <- _generate_embeddings content ;;
     id <- uuid_uuid4 ;;
     let doc := {| doc_id := id;
                   doc_type := u"doc";
                   doc_content := content;
                   doc_content_embeddings := doc_embeddings |} in
     upload_documents [doc])
    (fun _ => ret tt).

(** [filters if filters else "type eq 'doc'"] *)
Definition applied_filter (filters : option str) : str :=
  match filters with
  | Some f => if Py.truthy f then f else u"type eq 'doc'"
  | None => u"type eq 'doc'"
  end.

Definition search_similar_documents
    (query : str) (k : Z) (filters : option str) : M DataFrame :=
  query_embedding <- _generate_embeddings query ;;
  let vector_query := {| vector := query_embedding;
                         vector_fields := u"document_vector" |} in
  search {| top := k;
            vector_queries := [vector_query];
            select := [u"id"; u"doc_content"; u"type"];
            filter := applied_filter filters |}.

Definition insert_documents_from_json (json_filepath : str) : M unit :=
  try_except
    (external env (OpenFile json_filepath) ;;;
     data <- lift (Json.loads (file_text env json_filepath)) ;;
     faq <- lift (get_default data (u"faq") (JArr [])) ;;
     items <- lift (iterate faq) ;;
     for_each items
       (fun item =>
          question <- lift (getitem item (u"question")) ;;
          answer <- lift (getitem item (u"answer")) ;;
          insert_document_faq question answer))
    (fun _ => ret tt).

End AzureSearchVectorDB.
End AzureSearchVectorDB.

(* ================================================================= *)
(** ** connectdeaf-faq-api: [services/faq.py] and [routes/faq.py] *)

Module FAQService.
Section FAQService.

Context (env : Env).

Definition system_prompt : str :=
  u"Você é um assistente útil que responde exclusivamente com base nos "
  ++ u"documentos fornecidos. "
  ++ u"Se não souber a resposta, diga 'Não sei' ou "
  ++ u"'Essa informação não está disponível'.".

(** [json.loads(doc)["answer"]] *)
Definition answer_of (doc : str) : outcome json :=
  obind (Json.loads doc) (fun v => getitem v (u"answer")).

(** The context handed to the model, from the column [doc_content] of
    the hits *)
Definition combined_content (values : list pyval) : outcome str :=
  obind (comprehension answer_of values) (join_values (u" ")).

(** The value under ["response"] of the dictionary returned; the model's
    [message.content] may be [None]. *)
Definition _generate_response (query : str) : M (option str) :=
  try_except
    (df <- AzureSearchVectorDB.search_similar_documents env query 3
             (Some (u"type eq 'faq'")) ;;
     values <- lift (df_column df (u"doc_content")) ;;
     combined_content <- lift (combined_content values) ;;
     let messages :=
       [ {| role := u"system"; content := system_prompt |};
         {| role := u"assistant";
            content := u"Contexto: " ++ combined_content |};
         {| role := u"user"; content := query |} ] in
     external env (ChatCompletionsCreate 0 messages) ;;;
     choice <- lift (first (chat_choices env messages)) ;;
     ret choice)
    (fun _ => ret (Some apology)).

Definition chat (query : str) : M (option str) := _generate_response query.

(** [routes/faq.py] *)
Definition chat_faq (user_message : str) : M (option str) :=
  try_except (chat user_message)
    (fun e => raise (HTTPException 500 (u"Failed: " ++ exn_str e))).

(** The response model [FaqResponse] wants a [str] under ["response"]. *)
Definition validate_response (o : outcome (option str)) : outcome str :=
  match o with
  | Ret (Some s) => Ret s
  | Ret None => Raise (Error ValueError (u"ResponseValidationError"))
  | Raise e => Raise e
  end.

(** The answer to [POST /api/faq/chat] from a service that is constructed:
    the route and the response made of its result.  The construction of
    the service for the request is [__init__] below. *)
Definition post_chat (user_message : str) (w : World)
  : http_response * World :=
  let (o, w') := chat_faq user_message w in
  (respond 200 (validate_response o), w').

(** [FAQService.__init__]: it constructs the vector database, which asks
    the index service for the index names and may create the index; the
    OpenAI client is a local object. *)
Definition __init__ : M unit := AzureSearchVectorDB.__init__ env.

(** [POST /api/faq/chat] as it is served: [Depends(FAQService)] constructs
    a service for every request, then the route runs.  An exception of the
    constructor is answered like one of the route. *)
Definition handle_post_chat (user_message : str) (w : World)
  : http_response * World :=
  match __init__ w with
  | (Ret _, w0) => post_chat user_message w0
  | (Raise e, w0) => (respond 200 (Raise e), w0)
  end.

End FAQService.
End FAQService.

(* ================================================================= *)
(** ** ai-api: [infra/storage.py] *)

Module Storage.
Section Storage.

Context (env : Env).

(** The blob service *)

Definition service_create_container (container_name : str) : M unit :=
  external env (CreateContainer container_name) ;;;
  w <- get ;;
  if bool_decide (container_name ∈ containers w)
  then raise (Error ResourceExistsError (u"The specified container already exists."))
  else modify (fun w => set_containers ({[container_name]} ∪ containers w) w).

Definition upload_blob (container_name blob_name : str) (data : bytes)
    (overwrite : bool) : M unit :=
  external env (UploadBlob container_name blob_name data overwrite) ;;;
  w <- get ;;
  if negb (bool_decide (container_name ∈ containers w))
  then raise (Error ResourceNotFoundError (u"The specified container does not exist."))
  else if bool_decide (is_Some (blobs w !! (container_name, blob_name)))
          && negb overwrite
  then raise (Error ResourceExistsError (u"The specified blob already exists."))
  else modify (fun w => set_blobs (<[(container_name, blob_name) := data]> (blobs w)) w).

(** [download_blob()] and [readall()] *)
Definition download_blob (container_name blob_name : str) : M bytes :=
  external env (DownloadBlob container_name blob_name) ;;;
  w <- get ;;
  match blobs w !! (container_name, blob_name) with
  | Some data => ret data
  | None => raise (Error ResourceNotFoundError (u"The specified blob does not exist."))
  end.

(** The class; a container client is the name of its container. *)

Definition get_blob_service_client : M unit :=
  external env BlobServiceClientFromConnectionString.

Definition create_container (container_name : str) : M str :=
  get_blob_service_client ;;;
  try_except_if is_ResourceExistsError
    (service_create_container container_name ;;; ret container_name)
    (fun _ => ret container_name).

Definition upload_file (container_name filename : str) (content : bytes)
  : M str :=
  container_client <- create_container container_name ;;
  try_except
    (upload_blob container_client filename content true ;;;
     ret (container_name ++ u"/" ++ filename))
    (fun e => raise e).

(** [container_name, blob_name = parts] *)
Definition unpack2 (parts : list str) : outcome (str * str) :=
  match parts with
  | [a; b] => Ret (a, b)
  | _ => Raise (Error ValueError (u"not enough values to unpack (expected 2, got 1)"))
  end.

Definition download_file (blob_path : str) : M (option bytes) :=
  try_except
    (names <- lift (unpack2 (Py.split_1 47 blob_path)) ;;
     let '(container_name, blob_name) := names in
     get_blob_service_client ;;;
     content <- download_blob container_name blob_name ;;
     ret (Some content))
    (fun _ => ret None).

End Storage.
End Storage.

(* ================================================================= *)
(** ** ai-api: [routes/certificate.py] *)

Module VerifyFileUseCase.
Section VerifyFileUseCase.

Context (env : Env).

Record VerifyDocumentRequest := {
  document_path : str;
  professional_name : str;
}.

(** [begin_analyze_document] and [poller.result()] are one call to the
    analysis service. *)
Definition _ocr (doc_content : bytes) : M str :=
  try_except_if is_AzureError
    (external env (AnalyzeDocument (u"prebuilt-read") doc_content) ;;;
     let extracted_text := ocr_content env doc_content in
     ret extracted_text)
    (fun e =>
       raise (HTTPException 500 (u"Erro ao realizar OCR: " ++ exn_str e))).

Definition system_prompt (professional_name : str) : str :=
  u"Você é um assistente especializado em validação de certificados. "
  ++ u"Analise o conteúdo extraído do documento e verifique se ele contém "
  ++ u"todas as informações necessárias para que o certificado seja "
  ++ u"considerado válido. "
  ++ u"Considere o nome do profissional, o número do registro e a data de "
  ++ u"validade. "
  ++ u"O nome do profissional informado é '" ++ professional_name ++ u"'. "
  ++ u"Se todas as informações estiverem corretas e consistentes, "
  ++ u"responda 'Válido'. "
  ++ u"Caso contrário, responda 'Inválido'.".

Definition messages (extracted_text professional_name : str) : list message :=
  [ {| role := u"system"; content := system_prompt professional_name |};
    {| role := u"user"; content := extracted_text |} ].

Definition _generate_response (extracted_text professional_name : str)
  : M str :=
  let messages := messages extracted_text professional_name in
  try_except
    (external env (ChatCompletionsCreate 0.3 messages) ;;;
     choice <- lift (first (chat_choices env messages)) ;;
     result_text <- lift (content_strip choice) ;;
     ret result_text)
    (fun e =>
       raise (HTTPException 500
                (u"Erro ao gerar resposta via OpenAI: " ++ exn_str e))).

(** [not content_bytes] *)
Definition not_bytes (content_bytes : option bytes) : bool :=
  match content_bytes with
  | Some (_ :: _) => false
  | _ => true
  end.

Definition execute (request : VerifyDocumentRequest) : M str :=
  content_bytes <- Storage.download_file env (document_path request) ;;
  if not_bytes content_bytes
  then raise (HTTPException 404 (u"Arquivo não encontrado"))
  else
    extracted_text <- _ocr (default [] content_bytes) ;;
    if negb (Py.truthy (Py.strip extracted_text))
    then raise (HTTPException 500 (u"Falha na extração de texto"))
    else
      verification_result <-
        _generate_response extracted_text (professional_name request) ;;
      ret verification_result.

Definition verify_file_route (request : VerifyDocumentRequest) : M str :=
  try_except (execute request)
    (fun e => raise (HTTPException 500 (u"Failed: " ++ exn_str e))).

(** [POST /api/documents/verify_file], for a request body that passed the
    validators (neither field is empty).  [Depends(VerifyFileUseCase)]
    constructs the use case for the request: a [Storage] and two clients,
    local objects built without a call to a service. *)
Definition post_verify_file (request : VerifyDocumentRequest) (w : World)
  : http_response * World :=
  let (o, w') := verify_file_route request w in
  (respond 200 o, w').

End VerifyFileUseCase.
End VerifyFileUseCase.

(* ================================================================= *)
(** ** ai-api: [routes/chat.py] *)

Module FaqUseCase.
Section FaqUseCase.

Context (env : Env).

Definition system_prompt : str :=
  u"Você é um assistente útil chamado FAQBot, responsável por responder "
  ++ u"perguntas de usuários com base nos documentos fornecidos. "
  ++ u"Você deve sempre se basear exclusivamente no conteúdo fornecido. "
  ++ u"Caso a resposta não esteja presente, responda educadamente que não "
  ++ u"sabe ou que a informação não está disponível. "
  ++ u"Seja direto, claro e profissional em suas respostas.".

(** [json.loads(doc).get("answer", "")] *)
Definition answer_of (doc : str) : outcome json :=
  obind (Json.loads doc) (fun v => get_default v (u"answer") (JStr [])).

Definition combined_content (values : list pyval) : outcome str :=
  obind (comprehension answer_of values) (join_values (u" ")).

(** [await self.az.search_similar_documents(query, k=3, filters=...)] *)
Definition search_similar_documents
    (query : str) (k : Z) (filters : option str) : M DataFrame :=
  external env (SearchSimilarDocuments query k filters) ;;;
  ret (az_search_similar_documents env query k filters).

Definition _generate_response (query : str) : M str :=
  try_except
    (df <- search_similar_documents query 3 (Some (u"type eq 'faq'")) ;;
     values <- lift (df_column df (u"doc_content")) ;;
     combined_content <- lift (combined_content values) ;;
     let assistant_context :=
       u"Aqui estão informações relevantes para responder à consulta: "
       ++ combined_content ++ u"." in
     let messages :=
       [ {| role := u"system"; content := system_prompt |};
         {| role := u"assistant"; content := assistant_context |};
         {| role := u"user"; content := query |} ] in
     external env (ChatCompletionsCreate 0.3 messages) ;;;
     choice <- lift (first (chat_choices env messages)) ;;
     final_response <- lift (content_strip choice) ;;
     ret final_response)
    (fun _ => ret apology).

Definition chat (query : str) : M str := _generate_response query.

Definition chat_faq (user_message : str) : M str :=
  try_except (chat user_message)
    (fun e => raise (HTTPException 500 (u"Failed: " ++ exn_str e))).

(** The answer to [POST /api/faq/chat] from a use case that is
    constructed: the route and the response made of its result.
    [Depends(FaqUseCase)] constructs the use case for every request, and
    with it the [AzureSearchVectorDB] of [ai-api]; that constructor is in
    [infra/vector_database.py], which is not part of the sources, and is
    not part of this model. *)
Definition post_chat (user_message : str) (w : World)
  : http_response * World :=
  let (o, w') := chat_faq user_message w in
  (respond 200 o, w').

End FaqUseCase.
End FaqUseCase.

(* ================================================================= *)
(** ** Notions used in the statements *)

(** The value [_generate_embeddings] returns for [content] when [n] calls
    have been made before: the empty list when the embedding call fails,
    the vector of the single record the service answers with, or the list
    of the records' vectors. *)
Definition generated (env : Env) (n : nat) (content : str) : embeddings :=
  match fault env n (EmbeddingsCreate content) with
  | Some _ => []
  | None =>
    match embeddings_data env content with
    | [v] => map inl v
    | data => map inr data
    end
  end.

(** The document [insert_document_faq] builds for a question and an answer
    in the world [w] *)
Definition faq_document (env : Env) (w : World) (question answer : json)
  : Document :=
  let data_str := Json.dumps (JObj [(u"question", question); (u"answer", answer)]) in
  {| doc_id := uuid4 env (uuids_drawn w);
     doc_type := u"faq";
     doc_content := data_str;
     doc_content_embeddings := generated env (length (trace w)) data_str |}.

(** The document [insert_document] builds for a text in the world [w] *)
Definition doc_document (env : Env) (w : World) (text : str) : Document :=
  {| doc_id := uuid4 env (uuids_drawn w);
     doc_type := u"doc";
     doc_content := text;
     doc_content_embeddings := generated env (length (trace w)) text |}.

(** The documents of the index after an upload of [doc] made as call number
    [n]: the upload adds the document unless the call fails. *)
Definition after_upload (env : Env) (n : nat) (doc : Document)
    (docs : list Document) : list Document :=
  match fault env n (UploadDocuments [doc]) with
  | None => docs ++ [doc]
  | Some _ => docs
  end.

(** [n] constructions of [AzureSearchVectorDB], one after the other, against
    the same services *)
Fixpoint constructions (env : Env) (n : nat) : M unit :=
  match n with
  | O => ret tt
  | S n' => AzureSearchVectorDB.__init__ env ;;; constructions env n'
  end.

(** The number of indexes of the service that bear the name [name] *)
Definition count_indexes (name : str) (w : World) : nat :=
  length (List.filter (fun ix => bool_decide (index_name_of ix = name)) (indexes w)).

(** The index service answers: listing and creating never fail. *)
Definition index_service_up (env : Env) : Prop :=
  (forall n, fault env n ListIndexNames = None)
  /\ (forall n index, fault env n (CreateOrUpdateIndex index) = None).

(** The blob service answers. *)
Definition blob_service_up (env : Env) : Prop :=
  (forall n, fault env n BlobServiceClientFromConnectionString = None)
  /\ (forall n c, fault env n (CreateContainer c) = None)
  /\ (forall n c b data o, fault env n (UploadBlob c b data o) = None).

(** The generation service is down: every chat completion call fails. *)
Definition generation_down (env : Env) : Prop :=
  forall n temperature messages,
    is_Some (fault env n (ChatCompletionsCreate temperature messages)).

(** The calls made between two worlds *)
Definition calls_between (w w' : World) (calls : list event) : Prop :=
  trace w' = trace w ++ calls.

(** Context assembly as the specification words it: the content of each
    document is parsed as JSON and its ["answer"] taken; an entry whose
    content is absent, not a string, unparseable or without an ["answer"]
    is skipped; the answers are joined by one space, in ranking order. *)
Definition spec_answer (v : pyval) : option str :=
  match v with
  | PyStr doc =>
    match Json.loads doc with
    | Ret (JObj members) =>
      match dict_get (u"answer") members with
      | Some (JStr a) => Some a
      | _ => None
      end
    | _ => None
    end
  | _ => None
  end.

Definition spec_context (values : list pyval) : str :=
  Py.join (u" ") (omap spec_answer values).

(** A string cell holds the JSON text of an object whose ["answer"] is the
    string [a]. *)
Definition holds_answer (v : pyval) (a : str) : Prop :=
  exists doc members,
    v = PyStr doc /\ Json.loads doc = Ret (JObj members)
    /\ dict_get (u"answer") members = Some (JStr a).

(** *** Environments and worlds of the examples *)

Definition empty_world : World :=
  {| trace := []; indexes := []; documents := [];
     containers := ∅; blobs := ∅; uuids_drawn := 0 |}.

Definition hit_of (d : Document) : list (str * pyval) :=
  [(u"id", PyStr (doc_id d)); (u"doc_content", PyStr (doc_content d));
   (u"type", PyStr (doc_type d))].

(** Services that all answer: every embedding is the zero vector of
    dimension 1536, the model replies [reply], the analysis reads [text],
    a search returns the first [top] documents. *)
Definition env_up (reply text : str) : Env :=
  {| fault := fun _ _ => None;
     embeddings_data := fun _ => [repeat 0%float 1536];
     chat_choices := fun _ => [Some reply];
     search_hits := fun request docs => map hit_of (take (Z.to_nat (top request)) docs);
     file_text := fun _ => [];
     ocr_content := fun _ => text;
     uuid4 := fun n => u"uuid-" ++ Py.str_of_int (Z.of_nat n);
     az_search_similar_documents := fun _ _ _ => [] |}.

Definition with_fault (f : nat -> event -> option exn) (env : Env) : Env :=
  {| fault := f;
     embeddings_data := embeddings_data env;
     chat_choices := chat_choices env;
     search_hits := search_hits env;
     file_text := file_text env;
     ocr_content := ocr_content env;
     uuid4 := uuid4 env;
     az_search_similar_documents := az_search_similar_documents env |}.

Definition with_file (text : str) (env : Env) : Env :=
  {| fault := fault env;
     embeddings_data := embeddings_data env;
     chat_choices := chat_choices env;
     search_hits := search_hits env;
     file_text := fun _ => text;
     ocr_content := ocr_content env;
     uuid4 := uuid4 env;
     az_search_similar_documents := az_search_similar_documents env |}.

Definition with_hits (df : DataFrame) (env : Env) : Env :=
  {| fault := fault env;
     embeddings_data := embeddings_data env;
     chat_choices := chat_choices env;
     search_hits := fun _ _ => df;
     file_text := file_text env;
     ocr_content := ocr_content env;
     uuid4 := uuid4 env;
     az_search_similar_documents := fun _ _ _ => df |}.

Definition connection_reset : exn :=
  Error OpenAIError (u"Connection error.").

(** The embedding service is down, everything else answers. *)
Definition env_embedding_down : Env :=
  with_fault (fun _ ev => if is_embedding ev then Some connection_reset else None)
             (env_up (u"Sim") (u"texto")).

(** The generation service is down, everything else answers. *)
Definition env_generation_down : Env :=
  with_fault (fun _ ev => if is_chat_completion ev then Some connection_reset else None)
             (env_up (u"Sim") (u"texto")).

(** The answer with status 200 that carries the apology *)
Definition apology_response : http_response :=
  {| status := 200; body := JObj [(u"response", JStr apology)] |}.

Definition certificate_bytes : bytes :=
  [Byte.x25; Byte.x50; Byte.x44; Byte.x46].

(** A blob service that holds the certificate [documents/certificado.pdf] *)
Definition world_with_certificate : World :=
  {| trace := []; indexes := []; documents := [];
     containers := {[ u"documents" ]};
     blobs := {[ (u"documents", u"certificado.pdf") := certificate_bytes ]};
     uuids_drawn := 0 |}.

Definition certificate_request : VerifyFileUseCase.VerifyDocumentRequest :=
  {| VerifyFileUseCase.document_path := u"documents/certificado.pdf";
     VerifyFileUseCase.professional_name := u"João da Silva" |}.

(** A request whose path has no ['/'] *)
Definition request_without_separator
  : VerifyFileUseCase.VerifyDocumentRequest :=
  {| VerifyFileUseCase.document_path := u"certificado.pdf";
     VerifyFileUseCase.professional_name := u"João da Silva" |}.

(** A request for a blob that does not exist *)
Definition request_for_missing_blob
  : VerifyFileUseCase.VerifyDocumentRequest :=
  {| VerifyFileUseCase.document_path := u"documents/outro.pdf";
     VerifyFileUseCase.professional_name := u"João da Silva" |}.

(** The blob service is down, everything else answers. *)
Definition env_storage_down : Env :=
  with_fault
    (fun _ ev =>
       match ev with
       | BlobServiceClientFromConnectionString | DownloadBlob _ _ =>
         Some (Error ServiceRequestError (u"Cannot connect to host"))
       | _ => None
       end)
    (env_up (u"Válido") (u"Certificado de João da Silva")).

(** The two judgments the prompt asks the model for *)
Definition judgments : list str := [u"Válido"; u"Inválido"].

(** What [POST /api/documents/verify_file] answers when the document is not
    found, as the route has it *)
Definition not_found_as_500 : http_response :=
  {| status := 500;
     body := JObj [(u"detail", JStr (u"Failed: 404: Arquivo não encontrado"))] |}.

Definition is_upload (ev : event) : bool :=
  match ev with UploadDocuments _ => true | _ => false end.

(** The text [insert_document_faq] embeds and stores for a record *)
Definition faq_text (qa : json * json) : str :=
  Json.dumps (JObj [(u"question", qa.1); (u"answer", qa.2)]).

(** [item] is a record with a question and an answer. *)
Definition is_record (item : json) (qa : json * json) : Prop :=
  getitem item (u"question") = Ret qa.1 /\ getitem item (u"answer") = Ret qa.2.

(** A file of three records *)
Definition three_records : json :=
  JObj [(u"faq",
         JArr [ JObj [(u"question", JStr (u"O que é o ConnectDeaf?"));
                      (u"answer", JStr (u"Um marketplace."))];
                JObj [(u"question", JStr (u"Como contratar?"));
                      (u"answer", JStr (u"Pelo aplicativo."))];
                JObj [(u"question", JStr (u"Quanto custa?"));
                      (u"answer", JStr (u"Depende do serviço."))] ])].

(** Every embedding call and every upload fails; the file is read. *)
Definition env_insertions_fail : Env :=
  with_file (Json.dumps three_records)
    (with_fault
       (fun _ ev => if is_embedding ev || is_upload ev
                    then Some connection_reset else None)
       (env_up (u"Sim") (u"texto"))).

(** The questions and answers of [three_records] *)
Definition three_pairs : list (json * json) :=
  [ (JStr (u"O que é o ConnectDeaf?"), JStr (u"Um marketplace."));
    (JStr (u"Como contratar?"), JStr (u"Pelo aplicativo."));
    (JStr (u"Quanto custa?"), JStr (u"Depende do serviço.")) ].

(** The content of a FAQ entry as [insert_document_faq] stores it *)
Definition faq_entry (question answer : str) : pyval :=
  PyStr (faq_text (JStr question, JStr answer)).

(** Hits of a search: two entries and, between them, a cell that is not a
    string *)
Definition hits_with_gap : list pyval :=
  [ faq_entry (u"O que é o ConnectDeaf?") (u"Um marketplace.");
    PyNone;
    faq_entry (u"Como contratar?") (u"Pelo aplicativo.") ].

(** Hits of a search whose second entry is not JSON *)
Definition hits_with_plain_text : list pyval :=
  [ faq_entry (u"O que é o ConnectDeaf?") (u"Um marketplace.");
    PyStr (u"Pelo aplicativo.") ].

(** Hits of a search whose second entry has no answer *)
Definition hits_without_answer : list pyval :=
  [ faq_entry (u"O que é o ConnectDeaf?") (u"Um marketplace.");
    PyStr (Json.dumps (JObj [(u"question", JStr (u"Como contratar?"))]));
    faq_entry (u"Quanto custa?") (u"Depende do serviço.") ].

(** A text of whitespace only: space, line feed, tab, no-break space *)
Definition blank_text : str := [32; 10; 9; 160]%N.

(** A reply of the model with whitespace around the judgment *)
Definition padded_reply : str := [32]%N ++ u"Inválido" ++ [10]%N.

(** Listing the indexes fails, creating them works. *)
Definition env_listing_down : Env :=
  with_fault
    (fun _ ev =>
       match ev with
       | ListIndexNames =>
         Some (Error ServiceRequestError (u"Cannot connect to host"))
       | _ => None
       end)
    (env_up (u"Sim") (u"texto")).

(** A code point of a well-formed text: below [0x110000] and not a
    surrogate *)
Definition is_scalar (c : N) : bool :=
  ((c <? 1114112) && negb ((55296 <=? c) && (c <=? 57343)))%N.

(** The JSON text of the string [s], followed by [rest] *)
Definition quoted (s rest : str) : str :=
  (34 :: flat_map Json.escape_char s ++ 34 :: rest)%N.

(* ================================================================= *)
(** ** Base64: [base64.b64decode] *)

Module Base64.

Local Open Scope N_scope.

(** The value of a character of the standard alphabet *)
Definition digit (c : N) : option N :=
  if (65 <=? c) && (c <=? 90) then Some (c - 65)
  else if (97 <=? c) && (c <=? 122) then Some (c - 71)
  else if (48 <=? c) && (c <=? 57) then Some (c + 4)
  else if c =? 43 then Some 62
  else if c =? 47 then Some 63
  else None.

Definition byte_of (n : N) : Byte.byte :=
  match Byte.of_N n with
  | Some b => b
  | None => Byte.x00
  end.

(** [binascii.Error], a subclass of [ValueError] *)
Definition error {A} (msg : str) : outcome A := Raise (Error ValueError msg).

(** The loop of [binascii.a2b_base64] over the text that is left, with the
    position in the current group of four characters, the bits left over
    from the previous character, the padding characters seen in a row,
    whether padding has started, and the bytes decoded so far (last
    first).  In strict mode a character outside the alphabet, data after
    the padding and a character after a padding character are errors;
    otherwise the first is skipped and the rest is allowed. *)
Fixpoint a2b_loop (strict_mode : bool) (s : str) (quad_pos : nat)
    (leftchar : N) (pads : nat) (padding_started : bool)
    (bin_data : list Byte.byte) : outcome bytes :=
  match s with
  | [] =>
    match quad_pos with
    | O => Ret (rev bin_data)
    | 1%nat =>
      error (u"Invalid base64-encoded string: number of data characters ("
             ++ Py.str_of_int (Z.of_nat (length bin_data / 3 * 4 + 1))
             ++ u") cannot be 1 more than a multiple of 4")
    | _ => error (u"Incorrect padding")
    end
  | this_ch :: rest =>
    if this_ch =? 61 then
      if (2 <=? quad_pos)%nat && (4 <=? quad_pos + S pads)%nat then
        if strict_mode && Py.truthy rest
        then error (u"Excess data after padding")
        else Ret (rev bin_data)
      else
        a2b_loop strict_mode rest quad_pos leftchar
          (if (2 <=? quad_pos)%nat then S pads else pads) true bin_data
    else
      match digit this_ch with
      | None =>
        if strict_mode then error (u"Only base64 data is allowed")
        else a2b_loop strict_mode rest quad_pos leftchar pads
               padding_started bin_data
      | Some v =>
        if strict_mode && padding_started
        then error (u"Discontinuous padding not allowed")
        else
          match quad_pos with
          | O => a2b_loop strict_mode rest 1 v 0 padding_started bin_data
          | 1%nat =>
            a2b_loop strict_mode rest 2 (N.land v 15) 0 padding_started
              (byte_of (N.lor (N.shiftl leftchar 2) (N.shiftr v 4)) :: bin_data)
          | 2%nat =>
            a2b_loop strict_mode rest 3 (N.land v 3) 0 padding_started
              (byte_of (N.lor (N.shiftl leftchar 4) (N.shiftr v 2)) :: bin_data)
          | _ =>
            a2b_loop strict_mode rest 0 0 0 padding_started
              (byte_of (N.lor (N.shiftl leftchar 6) v) :: bin_data)
          end
      end
  end.

(** [binascii.a2b_base64(data, strict_mode=...)], as in CPython 3.11 and
    later *)
Definition a2b_base64 (data : str) (strict_mode : bool) : outcome bytes :=
  match data with
  | c :: _ =>
    if strict_mode && (c =? 61)
    then error (u"Leading padding not allowed")
    else a2b_loop strict_mode data 0 0 0 false []
  | [] => a2b_loop strict_mode data 0 0 0 false []
  end.

(** [base64.b64decode(s, validate=...)] for a [str]: the text has to be
    ASCII. *)
Definition b64decode (s : str) (validate : bool) : outcome bytes :=
  if forallb (fun c => c <? 128) s
  then a2b_base64 s validate
  else error (u"string argument should contain only ASCII characters").

End Base64.

(* ================================================================= *)
(** ** ai-api: [routes/certificate.py], the upload *)

Module UploadFileUseCase.
Section UploadFileUseCase.

Context (env : Env).

(** [settings.DOCUMENTS_CONTAINER_NAME] *)
Context (DOCUMENTS_CONTAINER_NAME : str).

Record UploadDocumentRequest := {
filename : str;
content : str;
}.

(** The validators of the request model: each returns its argument or
    raises [ValueError]. *)
Definition validate_base64 (v : str) : outcome str :=
  match Base64.b64decode v true with
  | Ret _ => Ret v
  | Raise _ =>
    Raise (Error ValueError (u"O conteúdo não é uma string base64 válida."))
  end.

Definition validate_filename (v : str) : outcome str :=
  if negb (Py.truthy v)
  then Raise (Error ValueError (u"O nome do arquivo não pode ser vazio."))
  else Ret v.

(** A request body that the model [UploadDocumentRequest] accepts *)
Definition valid_request (request : UploadDocumentRequest) : Prop :=
  validate_filename (filename request) = Ret (filename request)
  /\ validate_base64 (content request) = Ret (content request).

Definition execute (request : UploadDocumentRequest) : M str :=
  content_bytes <- lift (Base64.b64decode (content request) false) ;;
  uploaded_path <-
    try_except
      (Storage.upload_file env DOCUMENTS_CONTAINER_NAME (filename request)
         content_bytes)
      (fun e => raise (HTTPException 500 (u"Erro no upload: " ++ exn_str e))) ;;
  ret uploaded_path.

Definition upload_file_route (request : UploadDocumentRequest) : M str :=
  try_except (execute request)
    (fun e => raise (HTTPException 500 (u"Failed: " ++ exn_str e))).

(** [POST /api/documents/upload_file], for a request body that passed the
    validators; the route's status code is 201.  The use case constructed
    for the request holds a [Storage], a local object. *)
Definition post_upload_file (request : UploadDocumentRequest) (w : World)
  : http_response * World :=
  let (o, w') := upload_file_route request w in
  (respond 201 o, w').

End UploadFileUseCase.
End UploadFileUseCase.

(** The state the services keep is the same in two worlds; the trace may
    differ. *)
Definition same_state (w w' : World) : Prop :=
  indexes w' = indexes w /\ documents w' = documents w
  /\ containers w' = containers w /\ blobs w' = blobs w
  /\ uuids_drawn w' = uuids_drawn w.

(** A computation that only reads the services *)
Definition read_only {A} (m : M A) : Prop :=
  forall w, same_state w (m w).2.

(** Calls of the insertions: the opening of a file, an embedding, an
    upload of documents *)
Definition is_insertion_call (ev : event) : bool :=
  match ev with
  | OpenFile _ | EmbeddingsCreate _ | UploadDocuments _ => true
  | _ => false
  end.

(** A computation that makes only calls of the insertions and leaves the
    indexes, the containers and the blobs as they are *)
Definition only_inserts {A} (m : M A) : Prop :=
  forall w,
    (exists calls,
       calls_between w (m w).2 calls
       /\ forallb is_insertion_call calls = true)
    /\ indexes (m w).2 = indexes w
    /\ containers (m w).2 = containers w
    /\ blobs (m w).2 = blobs w.

(** *** The batch load *)

(** The questions and answers [insert_documents_from_json] reads from the
    items, in order, up to the first item whose ["question"] or ["answer"]
    cannot be read *)
Fixpoint records_read (items : list json) : list (json * json) :=
  match items with
  | [] => []
  | item :: rest =>
    match getitem item (u"question"), getitem item (u"answer") with
    | Ret question, Ret answer => (question, answer) :: records_read rest
    | _, _ => []
    end
  end.

(** The calls of the insertions of [qas], one after the other, when [n]
    calls have been made and [k] identifiers drawn before: for each record
    the embedding of its text and the upload of one document, which has the
    next identifier, the type ["faq"], that text and the vector obtained
    for it. *)
Fixpoint insertion_calls (env : Env) (n k : nat) (qas : list (json * json))
  : list event :=
  match qas with
  | [] => []
  | qa :: rest =>
    EmbeddingsCreate (faq_text qa)
    :: UploadDocuments
         [ {| doc_id := uuid4 env k;
              doc_type := u"faq";
              doc_content := faq_text qa;
              doc_content_embeddings := generated env n (faq_text qa) |} ]
    :: insertion_calls env (S (S n)) (S k) rest
  end.

(** A nesting far below the one at which [json.load] gives up: the
    interpreter raises [RecursionError] near its recursion limit, 1000
    frames by default, of which the callers use some. *)
Definition shallow (v : json) : Prop := (Json.depth v <= 100)%nat.

(** [item] has no ["question"] or no ["answer"] that can be read. *)
Definition unreadable (item : json) : Prop :=
  (exists e, getitem item (u"question") = Raise e)
  \/ (exists e, getitem item (u"answer") = Raise e).

(** *** Examples for the upload and the batch load *)

(** A request to upload the certificate: the content is the base64 form of
    [certificate_bytes]. *)
Definition certificate_upload : UploadFileUseCase.UploadDocumentRequest :=
  {| UploadFileUseCase.filename := u"certificado.pdf";
     UploadFileUseCase.content := u"JVBERg==" |}.

(** Writing a blob fails, the rest of the blob service answers. *)
Definition env_upload_down : Env :=
  with_fault
    (fun _ ev =>
       match ev with
       | UploadBlob _ _ _ _ =>
         Some (Error ServiceRequestError (u"Cannot connect to host"))
       | _ => None
       end)
    (env_up (u"Válido") (u"Certificado de João da Silva")).

(** The document analysis fails, everything else answers. *)
Definition env_analysis_down : Env :=
  with_fault
    (fun _ ev =>
       match ev with
       | AnalyzeDocument _ _ =>
         Some (Error HttpResponseError (u"Operation returned an invalid status"))
       | _ => None
       end)
    (env_up (u"Válido") (u"Certificado de João da Silva")).

(** The search fails, everything else answers. *)
Definition env_search_down : Env :=
  with_fault
    (fun _ ev =>
       match ev with
       | Search _ => Some (Error HttpResponseError (u"Service unavailable"))
       | _ => None
       end)
    (env_up (u"Sim") (u"texto")).

(** No file can be opened. *)
Definition env_no_file : Env :=
  with_fault
    (fun _ ev =>
       match ev with
       | OpenFile _ => Some (Error OSError (u"No such file or directory"))
       | _ => None
       end)
    (env_up (u"Sim") (u"texto")).

(** A blob service that holds the empty blob [documents/vazio.pdf] *)
Definition world_with_empty_blob : World :=
  {| trace := []; indexes := []; documents := [];
     containers := {[ u"documents" ]};
     blobs := {[ (u"documents", u"vazio.pdf") := [] ]};
     uuids_drawn := 0 |}.

(** A file of three records whose second record has no answer *)
Definition records_with_gap : json :=
  JObj [(u"faq",
         JArr [ JObj [(u"question", JStr (u"O que é o ConnectDeaf?"));
                      (u"answer", JStr (u"Um marketplace."))];
                JObj [(u"question", JStr (u"Como contratar?"))];
                JObj [(u"question", JStr (u"Quanto custa?"));
                      (u"answer", JStr (u"Depende do serviço."))] ])].

(** Two stored entries, as rows of a search *)
Definition two_pairs : list (str * str) :=
  [ (u"O que é o ConnectDeaf?", u"Um marketplace.");
    (u"Como contratar?", u"Pelo aplicativo.") ].

Definition two_hits : DataFrame :=
  map (fun p => [ (u"id", PyStr (u"1"));
                  (u"doc_content", faq_entry p.1 p.2);
                  (u"type", PyStr (u"faq")) ]) two_pairs.

(** The generation service is down and the search has these hits. *)
Definition env_generation_down_with_hits : Env :=
  with_hits two_hits env_generation_down.

(* ================================================================= *)
(** * Properties *)

Arguments Py.lit : simpl never.
Arguments Json.dumps : simpl never.
Arguments Json.loads : simpl never.

Ltac unfold_monad :=
  unfold bind, ret, raise, lift, get, modify, try_except, try_except_if,
         external in *.

(** ** JSON *)

Example loads_nested :
  Json.loads (u" [1, -20, 2.5e3, true, null, {}, [[], [0]]] ")
  = Ret (JArr [JInt 1; JInt (-20); JFloat (u"2500.0"); JBool true; JNull;
               JObj []; JArr [JArr []; JArr [JInt 0]]]).
Proof. vm_compute. reflexivity. Qed.

Example loads_rejects_trailing_comma :
  Json.loads (u"[1, 2,]") = Raise (Error JSONDecodeError (u"Expecting value")).
Proof. vm_compute. reflexivity. Qed.

Example loads_rejects_extra_data :
  Json.loads (u"{} {}") = Raise (Error JSONDecodeError (u"Extra data")).
Proof. vm_compute. reflexivity. Qed.

(** Characters outside ASCII are written as escapes and read back. *)
Example dumps_escapes :
  Json.dumps (JObj [(u"answer", JStr (u"Não sei"))])
  = [123; 34]%N ++ u"answer" ++ [34]%N ++ u": " ++ [34]%N
    ++ u"N" ++ [92]%N ++ u"u00e3o sei" ++ [34; 125]%N.
Proof. vm_compute. reflexivity. Qed.

Example loads_dumps_three_records :
  Json.loads (Json.dumps three_records) = Ret three_records.
Proof. vm_compute. reflexivity. Qed.

(** A number with a fraction or an exponent is read as a [float] and
    written back as Python prints that [float]. *)
Example loads_floats :
  obind (Json.loads (u"[1.50, 1e2, 1E-5, 0.1e1, 123456789012345678.0, 0.30000000000000004, 2.5e-324, 1e400, -0.0]"))
    (fun v => Ret (Json.dumps v))
  = Ret (u"[1.5, 100.0, 1e-05, 1.0, 1.2345678901234568e+17, 0.30000000000000004, 5e-324, Infinity, -0.0]").
Proof. vm_compute. reflexivity. Qed.

(** An integer of 4300 digits is read, one of 4301 digits is refused. *)
Example loads_refuses_long_integers :
  Json.loads (repeat 49%N 4301) = Raise (Json.int_limit_exceeded 4301)
  /\ Json.loads (45%N :: repeat 49%N 4300)
     = Ret (JInt (- Json.int_of_digits (repeat 49%N 4300))).
Proof. vm_compute. split; reflexivity. Qed.

Section Roundtrip.

Local Open Scope N_scope.

Lemma hexval_hexdigit (n : N) : n < 16 -> Json.hexval (Json.hexdigit n) = Some n.
Proof.
  intros H. destruct n as [|p]; [reflexivity |].
  do 4 (try destruct p as [p|p|]); try reflexivity; lia.
Qed.

Lemma hex4_digits (c : N) (rest : str) :
  c < 65536 ->
  Json.hex4 (Json.hexdigit (c / 4096 mod 16) :: Json.hexdigit (c / 256 mod 16)
             :: Json.hexdigit (c / 16 mod 16) :: Json.hexdigit (c mod 16) :: rest)
  = Some (c, rest).
Proof.
  intros H. unfold Json.hex4.
  rewrite !hexval_hexdigit by (apply N.mod_lt; lia).
  do 2 f_equal.
  replace (c / 256) with (c / 16 / 16) by (rewrite N.Div0.div_div; reflexivity).
  replace (c / 4096) with (c / 16 / 16 / 16)
    by (rewrite !N.Div0.div_div; reflexivity).
  pose proof (N.div_mod c 16 ltac:(lia)) as H0.
  pose proof (N.div_mod (c / 16) 16 ltac:(lia)) as H1.
  pose proof (N.div_mod (c / 16 / 16) 16 ltac:(lia)) as H2.
  pose proof (N.div_mod (c / 16 / 16 / 16) 16 ltac:(lia)) as H3.
  pose proof (N.mod_lt c 16 ltac:(lia)).
  pose proof (N.mod_lt (c / 16) 16 ltac:(lia)).
  pose proof (N.mod_lt (c / 16 / 16) 16 ltac:(lia)).
  pose proof (N.mod_lt (c / 16 / 16 / 16) 16 ltac:(lia)).
  set (m0 := c mod 16) in *. set (x1 := c / 16) in *.
  set (m1 := x1 mod 16) in *. set (x2 := x1 / 16) in *.
  set (m2 := x2 mod 16) in *. set (x3 := x2 / 16) in *.
  set (m3 := x3 mod 16) in *. set (x4 := x3 / 16) in *.
  clearbody m0 x1 m1 x2 m2 x3 m3 x4. lia.
Qed.

Lemma scanstring_escape_u (fuel : nat) (c : N) (rest acc : str) :
  c < 65536 ->
  Json.is_high_surrogate c = false ->
  Json.scanstring (S fuel) (Json.escape_u c ++ rest) acc
  = Json.scanstring fuel rest (c :: acc).
Proof.
  intros Hc Hs. unfold Json.escape_u.
  cbn [app Json.scanstring N.eqb Pos.eqb].
  rewrite hex4_digits by exact Hc. by rewrite Hs.
Qed.

Lemma scanstring_char (fuel : nat) (c : N) (rest acc : str) :
  is_scalar c = true ->
  Json.scanstring (S fuel) (Json.escape_char c ++ rest) acc
  = Json.scanstring fuel rest (c :: acc).
Proof.
  intros Hc. unfold is_scalar in Hc. unfold Json.escape_char.
  destruct (N.eqb_spec c 34) as [-> | H34]; [reflexivity |].
  destruct (N.eqb_spec c 92) as [-> | H92]; [reflexivity |].
  destruct (N.eqb_spec c 10) as [-> | H10]; [reflexivity |].
  destruct (N.eqb_spec c 13) as [-> | H13]; [reflexivity |].
  destruct (N.eqb_spec c 9) as [-> | H9]; [reflexivity |].
  destruct (N.eqb_spec c 8) as [-> | H8]; [reflexivity |].
  destruct (N.eqb_spec c 12) as [-> | H12]; [reflexivity |].
  destruct ((32 <=? c) && (c <=? 126)) eqn:Hp.
  - cbn [app Json.scanstring].
    rewrite (proj2 (N.eqb_neq c 34)), (proj2 (N.eqb_neq c 92)) by assumption.
    apply andb_true_iff in Hp as [Hp1 Hp2]. apply N.leb_le in Hp1.
    assert ((c <? 32) = false) as -> by (apply N.ltb_ge; lia). reflexivity.
  - destruct (N.ltb_spec c 65536) as [Hlt | Hge].
    + apply scanstring_escape_u; [exact Hlt |].
      apply andb_true_iff in Hc as [_ Hc]. apply negb_true_iff in Hc.
      unfold Json.is_high_surrogate.
      destruct (55296 <=? c) eqn:E1; [| reflexivity].
      destruct (c <=? 56319) eqn:E2; [| reflexivity].
      apply N.leb_le in E2. assert ((c <=? 57343) = true) as E3
        by (apply N.leb_le; lia).
      rewrite E3 in Hc. discriminate.
    + apply andb_true_iff in Hc as [Hmax _]. apply N.ltb_lt in Hmax.
      set (n := c - 65536).
      assert (Hq : (n / 1024) mod 1024 = n / 1024).
      { apply N.mod_small. apply N.Div0.div_lt_upper_bound. lia. }
      pose proof (N.mod_lt n 1024 ltac:(lia)) as Hr.
      pose proof (N.div_mod n 1024 ltac:(lia)) as Hn.
      assert (Hd : n / 1024 < 1024)
        by (apply N.Div0.div_lt_upper_bound; lia).
      rewrite Hq.
      assert (Hcn : c = 65536 + n) by lia.
      set (q := n / 1024) in *. set (r := n mod 1024) in *.
      clearbody q r. clear Hq.
      set (hi := 55296 + q). set (lo := 56320 + r).
      assert (Hhi : Json.is_high_surrogate hi = true).
      { unfold Json.is_high_surrogate. apply andb_true_iff.
        split; apply N.leb_le; lia. }
      assert (Hlo : Json.is_low_surrogate lo = true).
      { unfold Json.is_low_surrogate. apply andb_true_iff.
        split; apply N.leb_le; lia. }
      rewrite <- app_assoc. unfold Json.escape_u at 1.
      cbn [app Json.scanstring N.eqb Pos.eqb].
      rewrite hex4_digits by lia. rewrite Hhi.
      unfold Json.escape_u. cbn [app].
      rewrite hex4_digits by lia. rewrite Hlo.
      unfold Json.join_surrogates.
      replace (65536 + (hi - 55296) * 1024 + (lo - 56320)) with c by lia.
      reflexivity.
Qed.

Lemma scanstring_encoded (s rest : str) (fuel : nat) (acc : str) :
  forallb is_scalar s = true ->
  (length s < fuel)%nat ->
  Json.scanstring fuel (flat_map Json.escape_char s ++ 34 :: rest) acc
  = Some (rev acc ++ s, rest).
Proof.
  revert fuel acc. induction s as [|c s IH]; intros fuel acc Hs Hf.
  - destruct fuel as [|fuel]; [simpl in Hf; lia |].
    simpl. by rewrite app_nil_r.
  - destruct fuel as [|fuel]; [simpl in Hf; lia |].
    simpl in Hs. apply andb_true_iff in Hs as [Hc Hs].
    cbn [flat_map]. rewrite <- app_assoc, scanstring_char by exact Hc.
    rewrite IH; [| exact Hs | simpl in Hf; lia].
    simpl. by rewrite <- app_assoc.
Qed.

Lemma escape_char_length (c : N) : (1 <= length (Json.escape_char c))%nat.
Proof.
  unfold Json.escape_char, Json.escape_u.
  repeat (match goal with |- context [if ?b then _ else _] => destruct b end);
    simpl; try rewrite length_app; simpl; lia.
Qed.

Lemma encoded_length (s : str) :
  (length s <= length (flat_map Json.escape_char s))%nat.
Proof.
  induction s as [|c s IH]; [reflexivity |].
  cbn [flat_map]. rewrite length_app. simpl.
  pose proof (escape_char_length c). lia.
Qed.

(** The text of a string after its opening quote is read back. *)
Lemma scan_quoted (s rest : str) :
  forallb is_scalar s = true ->
  Json.scanstring (S (length (flat_map Json.escape_char s ++ 34 :: rest)))
    (flat_map Json.escape_char s ++ 34 :: rest) []
  = Some (s, rest).
Proof.
  intros Hs. rewrite scanstring_encoded; [reflexivity | exact Hs |].
  rewrite length_app. pose proof (encoded_length s). simpl. lia.
Qed.

Lemma dumps_two_strings (k1 v1 k2 v2 : str) :
  Json.dumps (JObj [(k1, JStr v1); (k2, JStr v2)])
  = 123 :: quoted k1 (58 :: 32 :: quoted v1
             (44 :: 32 :: quoted k2 (58 :: 32 :: quoted v2 [125]))).
Proof.
  unfold quoted. 
  change (Json.dumps (JObj [(k1, JStr v1); (k2, JStr v2)]))
    with ([123] ++ (Json.encode_str k1 ++ [58; 32] ++ Json.encode_str v1 ++ [44; 32]
                    ++ Json.encode_str k2 ++ [58; 32] ++ Json.encode_str v2) ++ [125]).
  unfold Json.encode_str. rewrite <- !app_assoc. reflexivity.
Qed.

Lemma scan_once_quoted (fuel : nat) (s rest : str) :
  forallb is_scalar s = true ->
  Json.scan_once (S fuel) (quoted s rest) = Ret (JStr s, rest).
Proof.
  intros Hs. unfold quoted. cbn [Json.scan_once N.eqb Pos.eqb].
  by rewrite scan_quoted.
Qed.

Lemma skip_ws_quoted (s rest : str) :
  Json.skip_ws (quoted s rest) = quoted s rest.
Proof. reflexivity. Qed.

Lemma loads_two_strings (k1 v1 k2 v2 : str) :
  forallb is_scalar k1 = true -> forallb is_scalar v1 = true ->
  forallb is_scalar k2 = true -> forallb is_scalar v2 = true ->
  k1 <> k2 ->
  Json.loads (Json.dumps (JObj [(k1, JStr v1); (k2, JStr v2)]))
  = Ret (JObj [(k1, JStr v1); (k2, JStr v2)]).
Proof.
  intros Hk1 Hv1 Hk2 Hv2 Hne. rewrite dumps_two_strings.
  unfold Json.loads.
  set (t := 123 :: _).
  assert (Hfuel : (4 <= 2 * length t + 2)%nat) by (subst t; simpl length; lia).
  destruct (2 * length t + 2)%nat as [|[|[|[|f]]]]; try lia. clear Hfuel.
  subst t.
  cbn [Json.skip_ws Json.is_ws N.eqb Pos.eqb orb].
  cbn [Json.scan_once N.eqb Pos.eqb].
  unfold quoted at 1.
  cbn [Json.skip_ws Json.is_ws N.eqb Pos.eqb orb].
  cbn [Json.scan_object].
  rewrite scan_quoted by exact Hk1.
  cbn [Json.skip_ws Json.is_ws N.eqb Pos.eqb orb].
  rewrite skip_ws_quoted, scan_once_quoted by exact Hv1.
  cbn [Json.skip_ws Json.is_ws N.eqb Pos.eqb orb Json.dict_set].
  rewrite skip_ws_quoted. unfold quoted at 1.
  rewrite scan_quoted by exact Hk2.
  cbn [Json.skip_ws Json.is_ws N.eqb Pos.eqb orb].
  rewrite skip_ws_quoted, scan_once_quoted by exact Hv2.
  cbn [Json.skip_ws Json.is_ws N.eqb Pos.eqb orb Json.dict_set].
  rewrite bool_decide_eq_false_2 by exact Hne.
  reflexivity.
Qed.

(** An entry stored by [insert_document_faq] for a question and an answer
    that are well-formed texts is read back by the context assembly. *)
Lemma faq_entry_holds_answer (question answer : str) :
  forallb is_scalar question = true ->
  forallb is_scalar answer = true ->
  holds_answer (faq_entry question answer) answer.
Proof.
  intros Hq Ha. unfold holds_answer, faq_entry, faq_text.
  eexists _, _. split; [reflexivity |]. cbn [fst snd]. split.
  - by apply loads_two_strings.
  - reflexivity.
Qed.

End Roundtrip.

(** ** The monad *)

Lemma bind_ret_l {A B} (a : A) (k : A -> M B) (w : World) :
  bind (ret a) k w = k a w.
Proof. reflexivity. Qed.

Lemma bind_inv {A B} (m : M A) (k : A -> M B) (w w' : World) (b : B) :
  bind m k w = (Ret b, w') ->
  exists a w1, m w = (Ret a, w1) /\ k a w1 = (Ret b, w').
Proof.
  unfold bind. destruct (m w) as [[a|e] w1]; intros H; [eauto | discriminate].
Qed.

Lemma external_inv (env : Env) (ev : event) (w w' : World) :
  external env ev w = (Ret tt, w') ->
  fault env (length (trace w)) ev = None
  /\ w' = set_trace (trace w ++ [ev]) w.
Proof.
  unfold external. destruct (fault env _ ev); intros H; [discriminate |].
  by inversion H.
Qed.

Lemma external_trace (env : Env) (ev : event) (w : World) :
  trace (external env ev w).2 = trace w ++ [ev].
Proof. unfold external. by destruct (fault env _ ev). Qed.

(** A handler that returns a value makes the whole block return. *)
Lemma try_except_returns {A} (body : M A) (a : A) (w : World) :
  exists r, (try_except body (fun _ => ret a) w).1 = Ret r.
Proof.
  unfold try_except, ret. destruct (body w) as [[x|e] w']; simpl; eauto.
Qed.

(** ** Embeddings *)

Lemma generate_embeddings_run (env : Env) (content : str) (w : World) :
  AzureSearchVectorDB._generate_embeddings env content w
  = (Ret (generated env (length (trace w)) content),
     set_trace (trace w ++ [EmbeddingsCreate content]) w).
Proof.
  unfold AzureSearchVectorDB._generate_embeddings, generated.
  unfold_monad. destruct (fault env _ _); [reflexivity |].
  destruct (embeddings_data env content) as [|v [|v' data]]; reflexivity.
Qed.

Lemma generated_on_failure (env : Env) (n : nat) (content : str) :
  is_Some (fault env n (EmbeddingsCreate content)) ->
  generated env n content = [].
Proof. intros [e He]. unfold generated. by rewrite He. Qed.

Lemma generated_single (env : Env) (n : nat) (content : str) (v : list float) :
  fault env n (EmbeddingsCreate content) = None ->
  embeddings_data env content = [v] ->
  generated env n content = map inl v /\ length (generated env n content) = length v.
Proof.
  intros Hf Hd. unfold generated. rewrite Hf, Hd. split; [done |].
  by rewrite length_map.
Qed.

(** ** Search *)

(** C8: in [search_similar_documents] the filter of the vector query is
    ["type eq 'doc'"] when the caller passes no filter ([None] or the empty
    string), and the caller's expression, unchanged, when it is not empty.
    The query is the second and last call made, after the embedding of the
    text. *)
Theorem search_applies_default_filter
    (env : Env) (query : str) (k : Z) (filters : option str) (w : World) :
  exists request,
    calls_between w
      (AzureSearchVectorDB.search_similar_documents env query k filters w).2
      [EmbeddingsCreate query; Search request]
    /\ top request = k
    /\ (filters = None \/ filters = Some [] -> filter request = u"type eq 'doc'")
    /\ (forall f, filters = Some f -> f <> [] -> filter request = f).
Proof.
  unfold AzureSearchVectorDB.search_similar_documents, calls_between.
  eexists. split; [| split; [| split]].
  - unfold bind at 1. rewrite generate_embeddings_run.
    unfold AzureSearchVectorDB.search. unfold_monad. simpl.
    destruct (fault env _ _); simpl; rewrite <- app_assoc; reflexivity.
  - reflexivity.
  - intros [-> | ->]; reflexivity.
  - intros f -> Hf. simpl. destruct f; [done | reflexivity].
Qed.

Lemma search_applies_default_filter_witness :
  exists request,
    calls_between empty_world
      (AzureSearchVectorDB.search_similar_documents
         (env_up (u"Sim") (u"texto")) (u"libras") 3 (Some []) empty_world).2
      [EmbeddingsCreate (u"libras"); Search request]
    /\ filter request = u"type eq 'doc'".
Proof.
  destruct (search_applies_default_filter
              (env_up (u"Sim") (u"texto")) (u"libras") 3 (Some []) empty_world)
    as (request & Hc & _ & Hd & _).
  exists request. split; [exact Hc | apply Hd; by right].
Defined.

(** The route of the FAQ service asks for the FAQ entries. *)
Example search_keeps_given_filter :
  AzureSearchVectorDB.applied_filter (Some (u"type eq 'faq'")) = u"type eq 'faq'".
Proof. reflexivity. Qed.

(** ** Insertion *)

Lemma upload_documents_run (env : Env) (doc : Document) (w : World) :
  let r := AzureSearchVectorDB.upload_documents env [doc] w in
  trace r.2 = trace w ++ [UploadDocuments [doc]]
  /\ documents r.2 = after_upload env (length (trace w)) doc (documents w)
  /\ indexes r.2 = indexes w
  /\ uuids_drawn r.2 = uuids_drawn w.
Proof.
  unfold AzureSearchVectorDB.upload_documents, after_upload. unfold_monad.
  destruct (fault env _ _); simpl; auto.
Qed.

Lemma insert_document_faq_run
    (env : Env) (question answer : json) (w : World) :
  let r := AzureSearchVectorDB.insert_document_faq env question answer w in
  let doc := faq_document env w question answer in
  r.1 = Ret tt
  /\ trace r.2 = trace w ++ [EmbeddingsCreate (doc_content doc);
                              UploadDocuments [doc]]
  /\ documents r.2
     = after_upload env (S (length (trace w))) doc (documents w)
  /\ indexes r.2 = indexes w
  /\ uuids_drawn r.2 = S (uuids_drawn w).
Proof.
  unfold AzureSearchVectorDB.insert_document_faq, faq_document.
  unfold try_except, bind. rewrite generate_embeddings_run.
  unfold AzureSearchVectorDB.uuid_uuid4, AzureSearchVectorDB.upload_documents,
    after_upload.
  unfold_monad. simpl. rewrite length_app. simpl.
  replace (length (trace w) + 1)%nat with (S (length (trace w))) by lia.
  destruct (fault env _ _); simpl; rewrite <- ?app_assoc; auto.
Qed.

Lemma insert_document_run (env : Env) (text : str) (w : World) :
  let r := AzureSearchVectorDB.insert_document env text w in
  let doc := doc_document env w text in
  r.1 = Ret tt
  /\ trace r.2 = trace w ++ [EmbeddingsCreate text; UploadDocuments [doc]]
  /\ documents r.2
     = after_upload env (S (length (trace w))) doc (documents w)
  /\ indexes r.2 = indexes w
  /\ uuids_drawn r.2 = S (uuids_drawn w).
Proof.
  unfold AzureSearchVectorDB.insert_document, doc_document.
  unfold try_except, bind. rewrite generate_embeddings_run.
  unfold AzureSearchVectorDB.uuid_uuid4, AzureSearchVectorDB.upload_documents,
    after_upload.
  unfold_monad. simpl. rewrite length_app. simpl.
  replace (length (trace w) + 1)%nat with (S (length (trace w))) by lia.
  destruct (fault env _ _); simpl; rewrite <- ?app_assoc; auto.
Qed.

(** C1, as the code has it: neither insertion checks the length of the
    vector.  Both return normally; the document handed to the index carries
    the very value [_generate_embeddings] returned, and the index holds it
    from then on unless the upload call itself fails.  That value is the
    empty list when the embedding call fails, so a document with an empty
    vector is stored; it has as many components as the embedding service
    gave when the service answers with one record. *)
Theorem insertion_stores_the_generated_vector
    (env : Env) (question answer : json) (text : str) (w : World) :
  let n := length (trace w) in
  let faq := AzureSearchVectorDB.insert_document_faq env question answer w in
  let doc := AzureSearchVectorDB.insert_document env text w in
  (faq.1 = Ret tt
   /\ documents faq.2
      = after_upload env (S n) (faq_document env w question answer) (documents w)
   /\ doc_content_embeddings (faq_document env w question answer)
      = generated env n (faq_text (question, answer)))
  /\ (doc.1 = Ret tt
      /\ documents doc.2
         = after_upload env (S n) (doc_document env w text) (documents w)
      /\ doc_content_embeddings (doc_document env w text)
         = generated env n text)
  /\ (forall d docs,
        fault env (S n) (UploadDocuments [d]) = None ->
        after_upload env (S n) d docs = docs ++ [d])
  /\ (forall content,
        is_Some (fault env n (EmbeddingsCreate content)) ->
        generated env n content = [])
  /\ (forall content v,
        fault env n (EmbeddingsCreate content) = None ->
        embeddings_data env content = [v] ->
        length (generated env n content) = length v).
Proof.
  intros n faq doc. subst n faq doc.
  destruct (insert_document_faq_run env question answer w) as (F1 & _ & F2 & _).
  destruct (insert_document_run env text w) as (D1 & _ & D2 & _).
  split; [by repeat split |]. split; [by repeat split |].
  split; [| split].
  - intros d docs Hu. unfold after_upload. by rewrite Hu.
  - intros content. apply generated_on_failure.
  - intros content v He Hd. by apply generated_single.
Qed.

Lemma insertion_stores_the_generated_vector_witness :
  exists d,
    documents
      (AzureSearchVectorDB.insert_document_faq env_embedding_down
         (JStr (u"Como contratar?")) (JStr (u"Pelo aplicativo."))
         empty_world).2 = [d]
    /\ doc_content_embeddings d = [].
Proof.
  destruct (insertion_stores_the_generated_vector env_embedding_down
              (JStr (u"Como contratar?")) (JStr (u"Pelo aplicativo."))
              (u"Libras") empty_world)
    as ((_ & Hdocs & Hvec) & _ & Hup & Hfail & _).
  eexists. split.
  - rewrite Hdocs. rewrite Hup by reflexivity. reflexivity.
  - rewrite Hvec. apply Hfail. eexists. reflexivity.
Defined.

(** C1 as the specification states it fails: with the embedding service
    down, [insert_document_faq] returns normally and the index then holds a
    document whose vector is empty, not of length 1536. *)
Lemma insertion_with_failed_embedding_is_stored :
  let r := AzureSearchVectorDB.insert_document_faq env_embedding_down
             (JStr (u"O que é o ConnectDeaf?")) (JStr (u"Um marketplace."))
             empty_world in
  r.1 = Ret tt
  /\ map doc_content_embeddings (documents r.2) = [[]]
  /\ ~ Forall (fun d => length (doc_content_embeddings d) = 1536%nat)
         (documents r.2).
Proof.
  vm_compute. repeat split. intros H. inversion H. discriminate.
Qed.

(** With every service up the stored vector has the dimension of the
    index. *)
Example insertion_with_embedding_has_dimension :
  map (fun d => Z.of_nat (length (doc_content_embeddings d)))
      (documents
         (AzureSearchVectorDB.insert_document_faq (env_up (u"Sim") (u"texto"))
            (JStr (u"O que é o ConnectDeaf?")) (JStr (u"Um marketplace."))
            empty_world).2)
  = [AzureSearchVectorDB.embeddings_dimension].
Proof. vm_compute. reflexivity. Qed.

(** ** The question-answering pipelines when generation fails *)

Lemma external_down (env : Env) (temperature : float) (messages : list message)
    (w w' : World) (a : unit) :
  generation_down env ->
  external env (ChatCompletionsCreate temperature messages) w <> (Ret a, w').
Proof.
  intros Hd H. destruct a. apply external_inv in H as [H _].
  destruct (Hd (length (trace w)) temperature messages) as [e He]. congruence.
Qed.

Lemma faq_service_response_when_down (env : Env) (query : str) (w : World) :
  generation_down env ->
  (FAQService._generate_response env query w).1 = Ret (Some apology).
Proof.
  intros Hd. unfold FAQService._generate_response, try_except.
  lazymatch goal with
  | |- context [bind ?m ?k w] => destruct (bind m k w) as [[x|e] w'] eqn:E
  end; [exfalso | reflexivity].
  apply bind_inv in E as (df & w1 & _ & E).
  apply bind_inv in E as (values & w2 & _ & E).
  apply bind_inv in E as (combined & w3 & _ & E).
  apply bind_inv in E as (a & w4 & E & _).
  by apply external_down in E.
Qed.

Lemma faq_use_case_response_when_down (env : Env) (query : str) (w : World) :
  generation_down env ->
  (FaqUseCase._generate_response env query w).1 = Ret apology.
Proof.
  intros Hd. unfold FaqUseCase._generate_response, try_except.
  lazymatch goal with
  | |- context [bind ?m ?k w] => destruct (bind m k w) as [[x|e] w'] eqn:E
  end; [exfalso | reflexivity].
  apply bind_inv in E as (df & w1 & _ & E).
  apply bind_inv in E as (values & w2 & _ & E).
  apply bind_inv in E as (combined & w3 & _ & E).
  apply bind_inv in E as (a & w4 & E & _).
  by apply external_down in E.
Qed.

(** C2: when the generation service fails, [POST /api/faq/chat] answers, in
    both services, with status 200 and the fixed apology under
    ["response"], whatever the query and whatever the other services do;
    no exception leaves the pipeline. *)
Theorem generation_failure_yields_apology
    (env : Env) (query : str) (w : World) :
  generation_down env ->
  (FAQService.post_chat env query w).1 = apology_response
  /\ (FaqUseCase.post_chat env query w).1 = apology_response
  /\ apology
     = u"Desculpe, não consegui encontrar uma resposta para sua pergunta.".
Proof.
  intros Hd. split; [| split; [| reflexivity]].
  - pose proof (faq_service_response_when_down env query w Hd) as H.
    unfold FAQService.post_chat, FAQService.chat_faq, FAQService.chat,
      try_except.
    destruct (FAQService._generate_response env query w) as [o w'].
    simpl in H. subst o. reflexivity.
  - pose proof (faq_use_case_response_when_down env query w Hd) as H.
    unfold FaqUseCase.post_chat, FaqUseCase.chat_faq, FaqUseCase.chat,
      try_except.
    destruct (FaqUseCase._generate_response env query w) as [o w'].
    simpl in H. subst o. reflexivity.
Qed.

Lemma generation_failure_yields_apology_witness :
  let env := env_generation_down_with_hits in
  let query := u"O que é o ConnectDeaf?" in
  generation_down env
  /\ (FAQService.post_chat env query empty_world).1 = apology_response
  /\ (FaqUseCase.post_chat env query empty_world).1 = apology_response
  /\ List.filter is_chat_completion
       (trace (FAQService.post_chat env query empty_world).2)
     = [ ChatCompletionsCreate 0
           [ {| role := u"system"; content := FAQService.system_prompt |};
             {| role := u"assistant";
                content := u"Contexto: Um marketplace. Pelo aplicativo." |};
             {| role := u"user"; content := query |} ] ].
Proof.
  intros env query.
  assert (Hd : generation_down env).
  { intros n t m. eexists. reflexivity. }
  destruct (generation_failure_yields_apology env query empty_world Hd)
    as (H1 & H2 & _).
  split; [exact Hd |]. split; [exact H1 |]. split; [exact H2 |].
  vm_compute. reflexivity.
Defined.

(** With the same hits and the generation service up, the answer is the
    reply of the model: in the example above it is the failure of the
    generation call that brings the apology. *)
Example generation_up_answers_with_the_reply :
  let env := with_hits two_hits (env_up (u"Um marketplace.") (u"texto")) in
  (FAQService.post_chat env (u"O que é o ConnectDeaf?") empty_world).1
  = {| status := 200; body := JObj [(u"response", JStr (u"Um marketplace."))] |}.
Proof. vm_compute. reflexivity. Qed.

(** In that example the chat completion call is made, and it is the call
    that fails. *)
Example generation_is_called_and_fails :
  List.filter is_chat_completion
    (trace (FaqUseCase.post_chat
              (with_hits [hit_of {| doc_id := u"1"; doc_type := u"faq";
                                    doc_content := u"{}";
                                    doc_content_embeddings := [] |}]
                 env_generation_down)
              (u"O que é o ConnectDeaf?") empty_world).2) <> [].
Proof. vm_compute. discriminate. Qed.

(** ** Storage: download *)

Lemma strip_blank (s : str) : forallb Py.isspace s = true -> Py.strip s = [].
Proof.
  intros H. unfold Py.strip.
  assert (Py.lstrip s = []) as ->; [| reflexivity].
  induction s as [|c s IH]; [reflexivity |].
  simpl in *. apply andb_true_iff in H as [-> H]. auto.
Qed.

(** [download_file] returns the bytes or [None]: no exception leaves it. *)
Lemma download_file_never_raises (env : Env) (blob_path : str) (w : World) :
  exists r, (Storage.download_file env blob_path w).1 = Ret r.
Proof. apply try_except_returns. Qed.

Ltac solve_calls :=
  simpl; rewrite <- ?app_assoc;
  first [ exists []; split; [by rewrite app_nil_r | done]
        | eexists; split; reflexivity ].

(** It calls the blob service only. *)
Lemma download_file_calls (env : Env) (blob_path : str) (w : World) :
  exists calls,
    calls_between w (Storage.download_file env blob_path w).2 calls
    /\ List.filter is_chat_completion calls = [].
Proof.
  unfold Storage.download_file, Storage.get_blob_service_client,
    Storage.download_blob, calls_between.
  unfold_monad.
  destruct (Storage.unpack2 _) as [[c b]|e]; [| solve_calls].
  destruct (fault env _ _); [solve_calls |]. simpl.
  destruct (fault env _ _); [solve_calls |]. simpl.
  destruct (blobs w !! _); solve_calls.
Qed.

(** A path without ['/'] is not even looked up. *)
Lemma download_file_without_separator (env : Env) (blob_path : str) (w : World) :
  47%N ∉ blob_path ->
  Storage.download_file env blob_path w = (Ret None, w).
Proof.
  intros H. unfold Storage.download_file. unfold_monad.
  assert (Py.split_1 47 blob_path = [blob_path]) as ->; [| reflexivity].
  induction blob_path as [|c s IH]; [reflexivity |].
  simpl. destruct (N.eqb_spec c 47) as [-> | Hc].
  - exfalso. apply H. left.
  - rewrite IH; [reflexivity |]. intros Hin. apply H. by right.
Qed.

(** A blob that is not there, or a service that fails, gives [None]. *)
Lemma download_file_missing (env : Env) (blob_path : str) (w : World) :
  (forall c b, Py.split_1 47 blob_path = [c; b] ->
     is_Some (fault env (length (trace w)) BlobServiceClientFromConnectionString)
     \/ is_Some (fault env (S (length (trace w))) (DownloadBlob c b))
     \/ blobs w !! (c, b) = None) ->
  (Storage.download_file env blob_path w).1 = Ret None.
Proof.
  intros H. unfold Storage.download_file, Storage.get_blob_service_client,
    Storage.download_blob.
  unfold_monad. unfold Storage.unpack2.
  destruct (Py.split_1 47 blob_path) as [|c [|b [|x l]]]; try reflexivity.
  destruct (H c b eq_refl) as [[e He] | [[e He] | Hm]].
  - by rewrite He.
  - destruct (fault env _ _); [reflexivity |]. simpl.
    rewrite length_app. simpl.
    replace (length (trace w) + 1)%nat with (S (length (trace w))) by lia.
    by rewrite He.
  - destruct (fault env _ _); [reflexivity |]. simpl.
    destruct (fault env _ _); [reflexivity |]. simpl. by rewrite Hm.
Qed.

(** ** Certificate verification *)

Lemma ocr_calls (env : Env) (content : bytes) (w : World) :
  calls_between w (VerifyFileUseCase._ocr env content w).2
    [AnalyzeDocument (u"prebuilt-read") content].
Proof.
  unfold VerifyFileUseCase._ocr, calls_between. unfold_monad.
  destruct (fault env _ _) as [e|]; [destruct (is_AzureError e) |]; reflexivity.
Qed.

Lemma filter_calls_between (w w' : World) (calls : list event) :
  calls_between w w' calls ->
  List.filter is_chat_completion calls = [] ->
  List.filter is_chat_completion (trace w')
  = List.filter is_chat_completion (trace w).
Proof.
  unfold calls_between. intros -> H.
  by rewrite List.filter_app, H, app_nil_r.
Qed.

Lemma execute_not_found
    (env : Env) (request : VerifyFileUseCase.VerifyDocumentRequest)
    (w w1 : World) (content_bytes : option bytes) :
  Storage.download_file env (VerifyFileUseCase.document_path request) w
  = (Ret content_bytes, w1) ->
  VerifyFileUseCase.not_bytes content_bytes = true ->
  VerifyFileUseCase.execute env request w
  = (Raise (HTTPException 404 (u"Arquivo não encontrado")), w1).
Proof.
  intros Hd Hn. unfold VerifyFileUseCase.execute, bind.
  by rewrite Hd, Hn.
Qed.

(** C3: when the document is downloaded and the text read from it is blank
    or made of whitespace only, [execute] raises the HTTP error 500 "Falha
    na extração de texto", the request is answered with status 500, and no
    chat completion call is made for the request: the check comes before
    the generation stage. *)
Theorem blank_text_is_rejected_before_generation
    (env : Env) (request : VerifyFileUseCase.VerifyDocumentRequest)
    (w w1 w2 : World) (content : bytes) (text : str) :
  Storage.download_file env (VerifyFileUseCase.document_path request) w
  = (Ret (Some content), w1) ->
  content <> [] ->
  VerifyFileUseCase._ocr env content w1 = (Ret text, w2) ->
  forallb Py.isspace text = true ->
  VerifyFileUseCase.execute env request w
  = (Raise (HTTPException 500 (u"Falha na extração de texto")), w2)
  /\ status (VerifyFileUseCase.post_verify_file env request w).1 = 500%Z
  /\ List.filter is_chat_completion
       (trace (VerifyFileUseCase.post_verify_file env request w).2)
     = List.filter is_chat_completion (trace w).
Proof.
  intros Hd Hc Ho Hb.
  assert (E : VerifyFileUseCase.execute env request w
              = (Raise (HTTPException 500 (u"Falha na extração de texto")), w2)).
  { unfold VerifyFileUseCase.execute, bind. rewrite Hd.
    destruct content as [|b content]; [done |]. simpl.
    rewrite Ho. by rewrite (strip_blank text Hb). }
  split; [exact E |].
  unfold VerifyFileUseCase.post_verify_file, VerifyFileUseCase.verify_file_route,
    try_except.
  rewrite E. simpl. split; [reflexivity |].
  destruct (download_file_calls env (VerifyFileUseCase.document_path request) w)
    as (calls & Hcalls & Hnone).
  rewrite Hd in Hcalls. simpl in Hcalls.
  pose proof (ocr_calls env content w1) as Hocr. rewrite Ho in Hocr.
  simpl in Hocr.
  rewrite (filter_calls_between w1 w2 _ Hocr eq_refl).
  exact (filter_calls_between w w1 _ Hcalls Hnone).
Qed.

Lemma blank_text_is_rejected_before_generation_witness :
  let env := env_up (u"Válido") blank_text in
  (VerifyFileUseCase.post_verify_file env certificate_request
     world_with_certificate).1
  = {| status := 500;
       body := JObj [(u"detail",
                      JStr (u"Failed: 500: Falha na extração de texto"))] |}
  /\ List.filter is_chat_completion
       (trace (VerifyFileUseCase.post_verify_file env certificate_request
                 world_with_certificate).2) = [].
Proof.
  intros env.
  pose (w1 := (Storage.download_file env (u"documents/certificado.pdf")
                 world_with_certificate).2).
  pose (w2 := (VerifyFileUseCase._ocr env certificate_bytes w1).2).
  assert (H1 : Storage.download_file env
                 (VerifyFileUseCase.document_path certificate_request)
                 world_with_certificate
               = (Ret (Some certificate_bytes), w1))
    by (vm_compute; reflexivity).
  assert (H2 : certificate_bytes <> []) by discriminate.
  assert (H3 : VerifyFileUseCase._ocr env certificate_bytes w1
               = (Ret blank_text, w2))
    by (vm_compute; reflexivity).
  assert (H4 : forallb Py.isspace blank_text = true)
    by (vm_compute; reflexivity).
  pose proof (blank_text_is_rejected_before_generation env certificate_request
                world_with_certificate w1 w2 certificate_bytes blank_text
                H1 H2 H3 H4) as (E & _ & Hno).
  split; [| exact Hno].
  unfold VerifyFileUseCase.post_verify_file,
    VerifyFileUseCase.verify_file_route, try_except.
  rewrite E. vm_compute. reflexivity.
Defined.

Lemma ocr_inv (env : Env) (content : bytes) (text : str) (w w' : World) :
  VerifyFileUseCase._ocr env content w = (Ret text, w') ->
  text = ocr_content env content.
Proof.
  unfold VerifyFileUseCase._ocr. unfold_monad.
  destruct (fault env _ _) as [e|]; [destruct (is_AzureError e) |];
    intros H; by inversion H.
Qed.

Lemma generate_response_inv
    (env : Env) (text name r : str) (w w' : World) :
  VerifyFileUseCase._generate_response env text name w = (Ret r, w') ->
  exists reply rest,
    chat_choices env (VerifyFileUseCase.messages text name) = Some reply :: rest
    /\ r = Py.strip reply.
Proof.
  unfold VerifyFileUseCase._generate_response, try_except.
  lazymatch goal with
  | |- context [bind ?m ?k w] => destruct (bind m k w) as [[x|e] w1] eqn:E
  end; [| discriminate].
  intros H. inversion H; subst; clear H.
  apply bind_inv in E as (a & w2 & _ & E).
  apply bind_inv in E as (choice & w3 & Hc & E).
  apply bind_inv in E as (result & w4 & Hs & E).
  unfold lift in Hc, Hs. unfold ret in E.
  inversion Hc as [[Hfirst Hw]]. inversion Hs as [[Hstrip Hw']].
  inversion E; subst; clear E Hc Hs.
  destruct (chat_choices env _) as [|c rest]; [discriminate |].
  simpl in Hfirst. inversion Hfirst; subst.
  destruct choice as [reply|]; [| discriminate].
  simpl in Hstrip. inversion Hstrip. eauto.
Qed.

(** The reply is passed through: a verification request answered with
    status 200 carries under ["response"] the reply of the generation
    service to the text read from the document, with the whitespace around
    it removed, whatever that reply is.  It is one of the two judgments
    only when the service's reply, so stripped, is one. *)
Theorem verification_answers_with_the_stripped_reply
    (env : Env) (request : VerifyFileUseCase.VerifyDocumentRequest)
    (w w' : World) (resp : http_response) :
  VerifyFileUseCase.post_verify_file env request w = (resp, w') ->
  status resp = 200%Z ->
  exists content reply rest,
    (Storage.download_file env (VerifyFileUseCase.document_path request) w).1
    = Ret (Some content)
    /\ chat_choices env
         (VerifyFileUseCase.messages (ocr_content env content)
            (VerifyFileUseCase.professional_name request))
       = Some reply :: rest
    /\ body resp = JObj [(u"response", JStr (Py.strip reply))]
    /\ (body resp ∈ map (fun j => JObj [(u"response", JStr j)]) judgments
        <-> Py.strip reply ∈ judgments).
Proof.
  unfold VerifyFileUseCase.post_verify_file, VerifyFileUseCase.verify_file_route,
    try_except.
  destruct (VerifyFileUseCase.execute env request w) as [[r|e] w1] eqn:E.
  2:{ unfold raise. intros H. inversion H; subst. discriminate. }
  intros H _. inversion H; subst; clear H.
  unfold VerifyFileUseCase.execute in E.
  apply bind_inv in E as (cb & w2 & Hd & E).
  destruct (VerifyFileUseCase.not_bytes cb) eqn:Hn; [discriminate |].
  apply bind_inv in E as (text & w3 & Ho & E).
  destruct (negb _); [discriminate |].
  apply bind_inv in E as (r' & w4 & Hg & E).
  unfold ret in E. inversion E; subst; clear E.
  destruct cb as [content|]; [| discriminate].
  simpl in Ho. apply ocr_inv in Ho. subst text.
  apply generate_response_inv in Hg as (reply & rest & Hc & ->).
  exists content, reply, rest. rewrite Hd.
  split; [reflexivity |]. split; [exact Hc |]. split; [reflexivity |].
  cbn [body]. split.
  - intros Hin. apply list_elem_of_fmap in Hin as (j & Hj & Hin).
    inversion Hj. by subst.
  - intros Hin. apply list_elem_of_fmap. eauto.
Qed.

Lemma verification_answers_with_the_stripped_reply_witness :
  exists reply,
    body (VerifyFileUseCase.post_verify_file
            (env_up padded_reply (u"Certificado de Maria")) certificate_request
            world_with_certificate).1
    = JObj [(u"response", JStr (Py.strip reply))]
    /\ Py.strip reply = u"Inválido".
Proof.
  pose (env := env_up padded_reply (u"Certificado de Maria")).
  pose (p := VerifyFileUseCase.post_verify_file env certificate_request
               world_with_certificate).
  assert (H1 : VerifyFileUseCase.post_verify_file env certificate_request
                 world_with_certificate = (p.1, p.2))
    by apply surjective_pairing.
  assert (H2 : status p.1 = 200%Z) by (vm_compute; reflexivity).
  destruct (verification_answers_with_the_stripped_reply env certificate_request
              world_with_certificate p.2 p.1 H1 H2)
    as (content & reply & rest & _ & Hc & Hb & _).
  exists reply. split; [exact Hb |].
  vm_compute in Hc. inversion Hc. vm_compute. reflexivity.
Defined.

(** C4: the route is documented to return ["Válido"] or ["Inválido"], and
    the prompt asks the model for one of the two, but nothing checks the
    reply.  When the model replies with a sentence, the request is answered
    with status 200 and that sentence, which is neither judgment. *)
Theorem verification_can_answer_neither_judgment :
  let resp := (VerifyFileUseCase.post_verify_file
                 (env_up (u"O certificado parece válido.")
                    (u"Certificado de João da Silva"))
                 certificate_request world_with_certificate).1 in
  status resp = 200%Z
  /\ body resp = JObj [(u"response", JStr (u"O certificado parece válido."))]
  /\ body resp <> JObj [(u"response", JStr (u"Válido"))]
  /\ body resp <> JObj [(u"response", JStr (u"Inválido"))].
Proof. vm_compute. repeat split; discriminate. Qed.

(** ** Documents that are not found *)

Lemma not_found_is_answered_with_500
    (env : Env) (request : VerifyFileUseCase.VerifyDocumentRequest)
    (w : World) (content_bytes : option bytes) :
  (Storage.download_file env (VerifyFileUseCase.document_path request) w).1
  = Ret content_bytes ->
  VerifyFileUseCase.not_bytes content_bytes = true ->
  (VerifyFileUseCase.execute env request w).1
  = Raise (HTTPException 404 (u"Arquivo não encontrado"))
  /\ (VerifyFileUseCase.post_verify_file env request w).1 = not_found_as_500.
Proof.
  intros Hd Hn.
  destruct (Storage.download_file env _ w) as [o w1] eqn:E. simpl in Hd. subst o.
  pose proof (execute_not_found env request w w1 content_bytes E Hn) as Hx.
  split; [by rewrite Hx |].
  unfold VerifyFileUseCase.post_verify_file, VerifyFileUseCase.verify_file_route,
    try_except.
  rewrite Hx. vm_compute. reflexivity.
Qed.

(** C9: [download_file] never raises, and [execute] turns each of its
    failures into the HTTP error 404; but the route catches that error with
    every other exception and raises the error 500 in its place.  A path
    without ['/'], a blob that does not exist and a blob service that is
    down are all answered with status 500 and the detail "Failed: 404:
    Arquivo não encontrado". *)
Theorem download_failures_are_answered_with_500 :
  (Storage.download_file (env_up (u"Válido") (u"Certificado"))
     (u"certificado.pdf") world_with_certificate).1 = Ret None
  /\ (VerifyFileUseCase.execute (env_up (u"Válido") (u"Certificado"))
        request_without_separator world_with_certificate).1
     = Raise (HTTPException 404 (u"Arquivo não encontrado"))
  /\ (VerifyFileUseCase.post_verify_file (env_up (u"Válido") (u"Certificado"))
        request_without_separator world_with_certificate).1 = not_found_as_500
  /\ (VerifyFileUseCase.post_verify_file (env_up (u"Válido") (u"Certificado"))
        request_for_missing_blob world_with_certificate).1 = not_found_as_500
  /\ (VerifyFileUseCase.post_verify_file env_storage_down
        certificate_request world_with_certificate).1 = not_found_as_500
  /\ status not_found_as_500 = 500%Z.
Proof. vm_compute. repeat split. Qed.

(** ** Storage: upload *)

Lemma upload_file_run
    (env : Env) (container_name filename : str) (content : bytes) (w : World) :
  blob_service_up env ->
  let r := Storage.upload_file env container_name filename content w in
  r.1 = Ret (container_name ++ u"/" ++ filename)
  /\ blobs r.2 = <[(container_name, filename) := content]> (blobs w)
  /\ containers r.2 = {[container_name]} ∪ containers w.
Proof.
  intros (Hc & Hk & Hu).
  unfold Storage.upload_file, Storage.create_container,
    Storage.get_blob_service_client, Storage.service_create_container,
    Storage.upload_blob.
  unfold_monad. rewrite Hc. simpl. rewrite Hk. simpl.
  destruct (bool_decide (container_name ∈ containers w)) eqn:Hin; simpl.
  - rewrite Hu. simpl. rewrite Hin. simpl. rewrite andb_false_r. simpl.
    apply bool_decide_eq_true in Hin. repeat split. set_solver.
  - rewrite Hu. simpl.
    rewrite bool_decide_eq_true_2 by set_solver. simpl.
    rewrite andb_false_r. simpl. repeat split.
Qed.

(** C10: with the blob service up, [upload_file] returns
    ["<container>/<filename>"] and leaves the content under that name,
    whether or not a blob was there before (the upload is made with
    [overwrite=True], so an existing blob is replaced, not an error); a
    second upload of the same content leaves containers and blobs as the
    first one left them. *)
Theorem upload_overwrites_and_is_idempotent
    (env : Env) (container_name filename : str) (content : bytes) (w : World) :
  blob_service_up env ->
  let once := Storage.upload_file env container_name filename content w in
  let twice := Storage.upload_file env container_name filename content once.2 in
  (once.1 = Ret (container_name ++ u"/" ++ filename)
   /\ blobs once.2 = <[(container_name, filename) := content]> (blobs w)
   /\ blobs once.2 !! (container_name, filename) = Some content
   /\ containers once.2 = {[container_name]} ∪ containers w)
  /\ (exists data overwrite,
        last (trace once.2)
        = Some (UploadBlob container_name filename data overwrite)
        /\ data = content /\ overwrite = true)
  /\ (twice.1 = once.1
      /\ blobs twice.2 = blobs once.2
      /\ containers twice.2 = containers once.2).
Proof.
  intros Hup once twice.
  destruct (upload_file_run env container_name filename content w Hup)
    as (H1 & H2 & H3).
  destruct (upload_file_run env container_name filename content once.2 Hup)
    as (T1 & T2 & T3).
  fold once in H1, H2, H3. fold twice in T1, T2, T3.
  split; [| split].
  - repeat split; try assumption. rewrite H2. apply lookup_insert_eq.
  - exists content, true. split; [| done].
    subst once. destruct Hup as (Hc & Hk & Hu).
    unfold Storage.upload_file, Storage.create_container,
      Storage.get_blob_service_client, Storage.service_create_container,
      Storage.upload_blob.
    unfold_monad. rewrite Hc. simpl. rewrite Hk. simpl.
    destruct (bool_decide (container_name ∈ containers w)) eqn:Hin; simpl.
    + rewrite Hu. simpl. rewrite Hin. simpl. rewrite andb_false_r. simpl.
      by rewrite last_snoc.
    + rewrite Hu. simpl.
      rewrite bool_decide_eq_true_2 by set_solver. simpl.
      rewrite andb_false_r. simpl. by rewrite last_snoc.
  - repeat split.
    + by rewrite T1, H1.
    + rewrite T2, H2. apply insert_insert_eq.
    + rewrite T3, H3. set_solver.
Qed.

Lemma upload_overwrites_and_is_idempotent_witness :
  let env := env_up (u"Válido") (u"Certificado") in
  let once := Storage.upload_file env (u"documents") (u"certificado.pdf")
                [Byte.x00] world_with_certificate in
  blob_service_up env
  /\ once.1 = Ret (u"documents/certificado.pdf")
  /\ blobs once.2 !! (u"documents", u"certificado.pdf") = Some [Byte.x00].
Proof.
  intros env once.
  assert (Hup : blob_service_up env) by (repeat split).
  destruct (upload_overwrites_and_is_idempotent env (u"documents")
              (u"certificado.pdf") [Byte.x00] world_with_certificate Hup)
    as ((H1 & _ & H3 & _) & _).
  split; [exact Hup |]. split; [exact H1 | exact H3].
Defined.

(** ** The index *)

(** The constructor never raises, whatever the index service does. *)
Lemma init_never_raises (env : Env) (w : World) :
  (AzureSearchVectorDB.__init__ env w).1 = Ret tt.
Proof.
  unfold AzureSearchVectorDB.__init__,
    AzureSearchVectorDB._get_existing_index_names,
    AzureSearchVectorDB._create_vector_index,
    AzureSearchVectorDB.list_index_names,
    AzureSearchVectorDB.create_or_update_index.
  unfold_monad.
  destruct (fault env _ _); simpl.
  - destruct (fault env _ _); reflexivity.
  - destruct (negb _); [| reflexivity].
    destruct (fault env _ _); reflexivity.
Qed.

Lemma init_when_present (env : Env) (w : World) :
  index_service_up env ->
  AzureSearchVectorDB.index_name ∈ map index_name_of (indexes w) ->
  AzureSearchVectorDB.__init__ env w
  = (Ret tt, set_trace (trace w ++ [ListIndexNames]) w).
Proof.
  intros [Hl _] Hin.
  unfold AzureSearchVectorDB.__init__,
    AzureSearchVectorDB._get_existing_index_names,
    AzureSearchVectorDB.list_index_names.
  unfold_monad. rewrite Hl. simpl.
  by rewrite bool_decide_eq_true_2.
Qed.

Lemma put_index_fresh (index : SearchIndex) (l : list SearchIndex) :
  index_name_of index ∉ map index_name_of l ->
  AzureSearchVectorDB.put_index index l = l ++ [index].
Proof.
  induction l as [|x l IH]; intros Hn; [reflexivity |]. simpl.
  rewrite bool_decide_eq_false_2.
  - rewrite IH; [reflexivity |]. intros Hin. apply Hn. by right.
  - intros Heq. apply Hn. rewrite <- Heq. left.
Qed.

Lemma init_when_absent (env : Env) (w : World) :
  index_service_up env ->
  AzureSearchVectorDB.index_name ∉ map index_name_of (indexes w) ->
  exists index,
    index_name_of index = AzureSearchVectorDB.index_name
    /\ AzureSearchVectorDB.__init__ env w
       = (Ret tt,
          set_indexes (indexes w ++ [index])
            (set_trace (trace w ++ [ListIndexNames; CreateOrUpdateIndex index])
               w)).
Proof.
  intros [Hl Hc] Hn. eexists. split; [| 
  unfold AzureSearchVectorDB.__init__,
    AzureSearchVectorDB._get_existing_index_names,
    AzureSearchVectorDB._create_vector_index,
    AzureSearchVectorDB.list_index_names,
    AzureSearchVectorDB.create_or_update_index;
  unfold_monad; rewrite Hl; simpl;
  rewrite bool_decide_eq_false_2 by exact Hn; simpl;
  rewrite Hc; simpl;
  rewrite put_index_fresh by exact Hn;
  rewrite <- app_assoc; reflexivity ].
  reflexivity.
Qed.

Lemma count_indexes_app (name : str) (l1 l2 : list SearchIndex) (w : World) :
  indexes w = l1 ++ l2 ->
  count_indexes name w
  = (length (List.filter (fun ix => bool_decide (index_name_of ix = name)) l1)
     + length (List.filter (fun ix => bool_decide (index_name_of ix = name)) l2))%nat.
Proof.
  intros H. unfold count_indexes. by rewrite H, List.filter_app, length_app.
Qed.

Lemma count_absent (name : str) (l : list SearchIndex) :
  name ∉ map index_name_of l ->
  length (List.filter (fun ix => bool_decide (index_name_of ix = name)) l) = 0%nat.
Proof.
  induction l as [|x l IH]; intros Hn; [reflexivity |]. simpl.
  rewrite bool_decide_eq_false_2.
  - apply IH. intros Hin. apply Hn. by right.
  - intros Heq. apply Hn. rewrite <- Heq. left.
Qed.

Lemma count_present_once (name : str) (l : list SearchIndex) :
  NoDup (map index_name_of l) ->
  name ∈ map index_name_of l ->
  length (List.filter (fun ix => bool_decide (index_name_of ix = name)) l) = 1%nat.
Proof.
  induction l as [|x l IH]; intros Hnd Hin; [by apply elem_of_nil in Hin |].
  simpl in *. apply NoDup_cons in Hnd as [Hx Hnd].
  destruct (decide (index_name_of x = name)) as [Heq | Hne].
  - rewrite bool_decide_eq_true_2 by exact Heq. simpl.
    rewrite count_absent; [reflexivity |]. by rewrite <- Heq.
  - rewrite bool_decide_eq_false_2 by exact Hne.
    apply IH; [exact Hnd |].
    apply elem_of_cons in Hin as [Heq | Hin]; [by symmetry in Heq | exact Hin].
Qed.

(** Once the index is there, further constructions list the indexes and
    do nothing else. *)
Lemma constructions_when_present (env : Env) (n : nat) (w : World) :
  index_service_up env ->
  AzureSearchVectorDB.index_name ∈ map index_name_of (indexes w) ->
  (constructions env n w).1 = Ret tt
  /\ indexes (constructions env n w).2 = indexes w
  /\ trace (constructions env n w).2 = trace w ++ repeat ListIndexNames n.
Proof.
  intros Hup. revert w. induction n as [|n IH]; intros w Hin.
  - simpl. by rewrite app_nil_r.
  - simpl. unfold bind. rewrite (init_when_present env w Hup Hin).
    destruct (IH (set_trace (trace w ++ [ListIndexNames]) w) Hin)
      as (H1 & H2 & H3).
    split; [exact H1 |]. split; [exact H2 |].
    rewrite H3. simpl. by rewrite <- app_assoc.
Qed.

(** C7: with the index service up, [N >= 1] constructions of the vector
    store leave exactly one index named ["faq-index"]; none of them raises;
    the constructions after the first find the name among the index names
    and make no creation call: each only lists the indexes. *)
Theorem construction_is_idempotent (env : Env) (N : nat) (w : World) :
  index_service_up env ->
  NoDup (map index_name_of (indexes w)) ->
  (1 <= N)%nat ->
  let first := AzureSearchVectorDB.__init__ env w in
  let all := constructions env N w in
  all.1 = Ret tt
  /\ count_indexes (u"faq-index") all.2 = 1%nat
  /\ indexes all.2 = indexes first.2
  /\ trace all.2 = trace first.2 ++ repeat ListIndexNames (N - 1).
Proof.
  intros Hup Hnd HN first all. subst first all.
  destruct N as [|n]; [lia |]. simpl constructions.
  replace (S n - 1)%nat with n by lia.
  unfold bind at 1 2 3 4.
  destruct (decide (AzureSearchVectorDB.index_name ∈ map index_name_of (indexes w)))
    as [Hin | Hn].
  - rewrite (init_when_present env w Hup Hin).
    destruct (constructions_when_present env n
                (set_trace (trace w ++ [ListIndexNames]) w) Hup Hin)
      as (H1 & H2 & H3).
    split; [exact H1 |]. split; [| split; [exact H2 | exact H3]].
    unfold count_indexes. rewrite H2. simpl.
    by apply count_present_once.
  - destruct (init_when_absent env w Hup Hn) as (index & Hname & ->).
    set (w1 := set_indexes _ _).
    assert (Hin : AzureSearchVectorDB.index_name ∈ map index_name_of (indexes w1)).
    { subst w1. simpl. rewrite map_app. apply elem_of_app. right.
      simpl. rewrite Hname. left. }
    destruct (constructions_when_present env n w1 Hup Hin) as (H1 & H2 & H3).
    split; [exact H1 |]. split; [| split; [exact H2 | exact H3]].
    rewrite (count_indexes_app _ (indexes w) [index]) by (by rewrite H2).
    rewrite count_absent by exact Hn. simpl.
    by rewrite bool_decide_eq_true_2.
Qed.

Lemma construction_is_idempotent_witness :
  let env := env_up (u"Sim") (u"texto") in
  let all := constructions env 3 empty_world in
  all.1 = Ret tt
  /\ count_indexes (u"faq-index") all.2 = 1%nat
  /\ List.filter is_create_index (trace all.2)
     = List.filter is_create_index (trace (AzureSearchVectorDB.__init__ env empty_world).2).
Proof.
  intros env all.
  assert (Hup : index_service_up env) by (split; reflexivity).
  assert (Hnd : NoDup (map index_name_of (indexes empty_world)))
    by apply NoDup_nil_2.
  assert (HN : (1 <= 3)%nat) by lia.
  destruct (construction_is_idempotent env 3 empty_world Hup Hnd HN)
    as (H1 & H2 & _ & H4).
  split; [exact H1 |]. split; [exact H2 |].
  fold all in H4. rewrite H4, List.filter_app.
  change (List.filter is_create_index (repeat ListIndexNames (3 - 1)))
    with (@nil event).
  apply app_nil_r.
Defined.

(** When the listing itself fails the constructor takes the index for
    absent and asks for it again; the service still holds one index. *)
Example construction_when_listing_fails :
  let all := constructions env_listing_down 2 empty_world in
  all.1 = Ret tt
  /\ count_indexes (u"faq-index") all.2 = 1%nat
  /\ length (List.filter is_create_index (trace all.2)) = 2%nat.
Proof. vm_compute. repeat split. Qed.

(** ** Batch insertion *)


Lemma records_read_all (items : list json) (qas : list (json * json)) :
  Forall2 is_record items qas -> records_read items = qas.
Proof.
  induction 1 as [|item [q a] items qas [Hq Ha] _ IH]; [reflexivity |].
  simpl in *. by rewrite Hq, Ha, IH.
Qed.

Lemma records_read_until (good rest : list json) (bad : json)
    (qas : list (json * json)) :
  Forall2 is_record good qas -> unreadable bad ->
  records_read (good ++ bad :: rest) = qas.
Proof.
  intros Hgood Hbad.
  induction Hgood as [|item [q a] good qas [Hq Ha] _ IH].
  - simpl. destruct Hbad as [[e He] | [e He]]; rewrite He; [reflexivity |].
    by destruct (getitem bad (u"question")).
  - simpl in *. by rewrite Hq, Ha, IH.
Qed.

(** The loop of [insert_documents_from_json]: whether it ends normally or
    by the exception of an item that cannot be read, the calls made are the
    insertions of the records read. *)
Lemma load_loop_calls (env : Env) (items : list json) (w : World) :
  let loop :=
    for_each items
      (fun item =>
         question <- lift (getitem item (u"question")) ;;
         answer <- lift (getitem item (u"answer")) ;;
         AzureSearchVectorDB.insert_document_faq env question answer) in
  trace (loop w).2
  = trace w ++ insertion_calls env (length (trace w)) (uuids_drawn w)
                 (records_read items).
Proof.
  revert w. induction items as [|item items IH]; intros w; simpl.
  - by rewrite app_nil_r.
  - unfold bind at 1. unfold bind at 1. unfold lift at 1.
    destruct (getitem item (u"question")) as [q | e];
      [| simpl; by rewrite app_nil_r].
    unfold bind at 1. unfold lift at 1.
    destruct (getitem item (u"answer")) as [a | e];
      [| simpl; by rewrite app_nil_r].
    destruct (insert_document_faq_run env q a w) as (R1 & R2 & _ & _ & R5).
    destruct (AzureSearchVectorDB.insert_document_faq env q a w) as [o w1].
    simpl in R1, R2, R5. subst o.
    specialize (IH w1). simpl in IH. rewrite IH, R2, R5, length_app.
    simpl length.
    replace (length (trace w) + 2)%nat with (S (S (length (trace w)))) by lia.
    rewrite <- app_assoc. reflexivity.
Qed.

(** C6: [insert_documents_from_json] goes on after an insertion that
    fails, but not after a record that cannot be read.  For a file that is
    read (it opens, it is JSON, not nested beyond what the interpreter
    reads), it returns normally and its calls are, after the opening of the
    file, exactly the insertions of the records up to the first item
    without a ["question"] or an ["answer"]: for each of them the embedding
    of its text and the upload of its document, whichever of these calls
    fail.  So every record is attempted when all of them can be read, and
    no record after one that cannot be read is attempted. *)
Theorem batch_insertion_stops_at_the_first_unreadable_record
    (env : Env) (json_filepath : str) (w : World)
    (data faq : json) (items : list json) :
  fault env (length (trace w)) (OpenFile json_filepath) = None ->
  Json.loads (file_text env json_filepath) = Ret data ->
  shallow data ->
  get_default data (u"faq") (JArr []) = Ret faq ->
  iterate faq = Ret items ->
  let r := AzureSearchVectorDB.insert_documents_from_json env json_filepath w in
  r.1 = Ret tt
  /\ calls_between w r.2
       (OpenFile json_filepath
        :: insertion_calls env (S (length (trace w))) (uuids_drawn w)
             (records_read items))
  /\ (forall qas, Forall2 is_record items qas -> records_read items = qas)
  /\ (forall good bad rest qas,
        items = good ++ bad :: rest ->
        Forall2 is_record good qas -> unreadable bad ->
        records_read items = qas).
Proof.
  intros Hf Hl _ Hg Hi r.
  split; [| split; [| split]].
  - subst r. unfold AzureSearchVectorDB.insert_documents_from_json, try_except.
    by lazymatch goal with
       | |- context [bind ?m ?k w] => destruct (bind m k w) as [[[]|e] w']
       end.
  - subst r. unfold AzureSearchVectorDB.insert_documents_from_json.
    unfold try_except. unfold bind at 1. unfold external at 1. rewrite Hf.
    unfold bind at 1. unfold lift at 1. rewrite Hl.
    unfold bind at 1. unfold lift at 1. rewrite Hg.
    unfold bind at 1. unfold lift at 1. rewrite Hi.
    lazymatch goal with
    | |- context [for_each items ?f ?w0] =>
      pose proof (load_loop_calls env items w0) as H; cbv zeta in H;
        destruct (for_each items f w0) as [[[]|e] w1]
    end; simpl in H |- *; unfold calls_between;
      rewrite H, length_app, <- app_assoc; simpl;
      by replace (length (trace w) + 1)%nat with (S (length (trace w))) by lia.
  - apply records_read_all.
  - intros good bad rest qas ->. apply records_read_until.
Qed.

Lemma batch_insertion_stops_at_the_first_unreadable_record_witness :
  let env := with_file (Json.dumps records_with_gap)
               (env_up (u"Sim") (u"texto")) in
  let r := AzureSearchVectorDB.insert_documents_from_json env (u"faq.json")
             empty_world in
  let first := (JStr (u"O que é o ConnectDeaf?"), JStr (u"Um marketplace.")) in
  r.1 = Ret tt
  /\ trace r.2
     = [ OpenFile (u"faq.json");
         EmbeddingsCreate (faq_text first);
         UploadDocuments
           [ {| doc_id := u"uuid-0";
                doc_type := u"faq";
                doc_content := faq_text first;
                doc_content_embeddings := map inl (repeat 0%float 1536) |} ] ].
Proof.
  intros env r first.
  assert (Hf : fault env (length (trace empty_world)) (OpenFile (u"faq.json"))
               = None) by reflexivity.
  assert (Hl : Json.loads (file_text env (u"faq.json")) = Ret records_with_gap)
    by (vm_compute; reflexivity).
  assert (Hg : get_default records_with_gap (u"faq") (JArr [])
               = Ret (JArr ([ JObj [(u"question", fst first);
                                    (u"answer", snd first)] ]
                            ++ JObj [(u"question", JStr (u"Como contratar?"))]
                            :: [ JObj [(u"question", JStr (u"Quanto custa?"));
                                       (u"answer",
                                        JStr (u"Depende do serviço."))] ])))
    by (vm_compute; reflexivity).
  assert (Hs : shallow records_with_gap)
    by (unfold shallow; vm_compute; lia).
  destruct (batch_insertion_stops_at_the_first_unreadable_record env
              (u"faq.json") empty_world records_with_gap _ _ Hf Hl Hs Hg
              eq_refl)
    as (H1 & H2 & _ & H4).
  split; [exact H1 |].
  unfold calls_between in H2. fold r in H2. rewrite H2.
  rewrite (H4 _ _ _ [first] eq_refl).
  - vm_compute. reflexivity.
  - repeat constructor.
  - right. eexists. vm_compute. reflexivity.
Defined.

(** Failing insertions do not stop the load: with the embedding service
    and the uploads down, each of the three records of the file is still
    attempted, and nothing is stored. *)
Example failed_insertions_do_not_stop_the_load :
  let r := AzureSearchVectorDB.insert_documents_from_json env_insertions_fail
             (u"faq.json") empty_world in
  r.1 = Ret tt
  /\ List.filter is_embedding (trace r.2)
     = map (fun qa => EmbeddingsCreate (faq_text qa)) three_pairs
  /\ length (List.filter is_upload (trace r.2)) = 3%nat
  /\ documents r.2 = [].
Proof. vm_compute. repeat split. Qed.

(** Reading the key of a record without an answer raises in the loop,
    outside [insert_document_faq], and the load stops there: here before
    the first insertion. *)
Example record_without_answer_stops_the_load :
  let file := JObj [(u"faq",
                     JArr [ JObj [(u"question", JStr (u"Como contratar?"))];
                            JObj [(u"question", JStr (u"Quanto custa?"));
                                  (u"answer", JStr (u"Depende."))] ])] in
  let r := AzureSearchVectorDB.insert_documents_from_json
             (with_file (Json.dumps file) (env_up (u"Sim") (u"texto")))
             (u"faq.json") empty_world in
  r.1 = Ret tt /\ trace r.2 = [OpenFile (u"faq.json")].
Proof. vm_compute. split; reflexivity. Qed.

(** ** Context assembly *)

Lemma comprehension_skips_non_strings
    (f : str -> outcome json) (values : list pyval) :
  comprehension f values = comprehension f (List.filter isinstance_str values).
Proof.
  induction values as [|v values IH]; [reflexivity |].
  destruct v; simpl; rewrite <- ?IH; reflexivity.
Qed.

Lemma comprehension_answers
    (f : str -> outcome json) (cells : list pyval) (answers : list str) :
  (forall doc members a,
     Json.loads doc = Ret (JObj members) ->
     dict_get (u"answer") members = Some (JStr a) ->
     f doc = Ret (JStr a)) ->
  Forall2 holds_answer cells answers ->
  comprehension f cells = Ret (map JStr answers).
Proof.
  intros Hf H. induction H as [|v a cells answers Hv _ IH]; [reflexivity |].
  destruct Hv as (doc & members & -> & Hl & Hg). simpl.
  by rewrite (Hf doc members a Hl Hg), IH.
Qed.

Lemma join_values_strings (sep : str) (l : list str) :
  join_values sep (map JStr l) = Ret (Py.join sep l).
Proof.
  unfold join_values.
  assert (traverse
            (fun v => match v with
                      | JStr s => Ret s
                      | _ => Raise (Error TypeError
                                      (u"sequence item: expected str instance"))
                      end) (map JStr l) = Ret l) as ->; [| reflexivity].
  induction l as [|x l IH]; [reflexivity |]. simpl. by rewrite IH.
Qed.

Lemma comprehension_raises
    (f : str -> outcome json) (values : list pyval) (doc : str) :
  PyStr doc ∈ values ->
  (exists e, f doc = Raise e) ->
  exists e, comprehension f values = Raise e.
Proof.
  intros Hin [e He]. induction values as [|v values IH].
  - by apply elem_of_nil in Hin.
  - apply elem_of_cons in Hin as [<- | Hin].
    + simpl. rewrite He. eauto.
    + destruct (IH Hin) as [e' He']. destruct v; simpl; eauto.
      destruct (f s); simpl; eauto. rewrite He'. simpl. eauto.
Qed.

Lemma faq_service_answer_of (doc : str) (members : list (str * json)) (a : str) :
  Json.loads doc = Ret (JObj members) ->
  dict_get (u"answer") members = Some (JStr a) ->
  FAQService.answer_of doc = Ret (JStr a).
Proof.
  intros Hl Hg. unfold FAQService.answer_of. rewrite Hl. simpl. by rewrite Hg.
Qed.

Lemma faq_use_case_answer_of (doc : str) (members : list (str * json)) (a : str) :
  Json.loads doc = Ret (JObj members) ->
  dict_get (u"answer") members = Some (JStr a) ->
  FaqUseCase.answer_of doc = Ret (JStr a).
Proof.
  intros Hl Hg. unfold FaqUseCase.answer_of. rewrite Hl. simpl. by rewrite Hg.
Qed.

(** When the assembly raises, the pipeline answers with the apology. *)
Lemma faq_service_assembly_failure
    (env : Env) (query : str) (w w1 : World) (df : DataFrame)
    (values : list pyval) (e : exn) :
  AzureSearchVectorDB.search_similar_documents env query 3
    (Some (u"type eq 'faq'")) w = (Ret df, w1) ->
  df_column df (u"doc_content") = Ret values ->
  FAQService.combined_content values = Raise e ->
  (FAQService.post_chat env query w).1 = apology_response.
Proof.
  intros Hs Hc He.
  unfold FAQService.post_chat, FAQService.chat_faq, FAQService.chat,
    FAQService._generate_response, try_except.
  unfold bind at 1. rewrite Hs.
  unfold bind at 1. unfold lift at 1. rewrite Hc.
  unfold bind at 1. unfold lift at 1. rewrite He.
  reflexivity.
Qed.

Lemma faq_use_case_assembly_failure
    (env : Env) (query : str) (w : World) (values : list pyval) (e : exn) :
  df_column (az_search_similar_documents env query 3 (Some (u"type eq 'faq'")))
    (u"doc_content") = Ret values ->
  FaqUseCase.combined_content values = Raise e ->
  (FaqUseCase.post_chat env query w).1 = apology_response.
Proof.
  intros Hc He.
  unfold FaqUseCase.post_chat, FaqUseCase.chat_faq, FaqUseCase.chat,
    FaqUseCase._generate_response, FaqUseCase.search_similar_documents,
    try_except.
  unfold bind at 1. unfold bind at 1. unfold external.
  destruct (fault env _ _); [reflexivity |].
  unfold ret at 1.
  unfold bind at 1. unfold lift at 1. rewrite Hc.
  unfold bind at 1. unfold lift at 1. rewrite He.
  reflexivity.
Qed.

(** C5, as the code has it, for the hits [values] of a query in both
    services.  Cells that are not strings (absent content) are skipped.
    When every string cell is the JSON text of an object with a string
    under ["answer"], the context is these answers joined by one space, in
    ranking order.  A string cell that does not parse is not skipped: the
    assembly raises, and the pipeline then answers with the apology. *)
Theorem context_assembly_joins_answers_in_order
    (env : Env) (query : str) (w : World) (values : list pyval) :
  (FAQService.combined_content values
   = FAQService.combined_content (List.filter isinstance_str values)
   /\ FaqUseCase.combined_content values
      = FaqUseCase.combined_content (List.filter isinstance_str values))
  /\ (forall answers,
        Forall2 holds_answer (List.filter isinstance_str values) answers ->
        FAQService.combined_content values = Ret (Py.join (u" ") answers)
        /\ FaqUseCase.combined_content values = Ret (Py.join (u" ") answers))
  /\ (forall doc e,
        PyStr doc ∈ values ->
        Json.loads doc = Raise e ->
        (exists e1, FAQService.combined_content values = Raise e1)
        /\ (exists e2, FaqUseCase.combined_content values = Raise e2)
        /\ (forall df w1,
              AzureSearchVectorDB.search_similar_documents env query 3
                (Some (u"type eq 'faq'")) w = (Ret df, w1) ->
              df_column df (u"doc_content") = Ret values ->
              (FAQService.post_chat env query w).1 = apology_response)
        /\ (df_column
              (az_search_similar_documents env query 3 (Some (u"type eq 'faq'")))
              (u"doc_content") = Ret values ->
            (FaqUseCase.post_chat env query w).1 = apology_response)).
Proof.
  split; [| split].
  - unfold FAQService.combined_content, FaqUseCase.combined_content.
    by rewrite <- !comprehension_skips_non_strings.
  - intros answers H.
    unfold FAQService.combined_content, FaqUseCase.combined_content.
    rewrite (comprehension_skips_non_strings FAQService.answer_of),
      (comprehension_skips_non_strings FaqUseCase.answer_of).
    rewrite (comprehension_answers _ _ answers faq_service_answer_of H),
      (comprehension_answers _ _ answers faq_use_case_answer_of H).
    simpl. by rewrite join_values_strings.
  - intros doc e Hin Hl.
    assert (H1 : exists e1, FAQService.combined_content values = Raise e1).
    { destruct (comprehension_raises FAQService.answer_of values doc Hin)
        as [e1 He1].
      - unfold FAQService.answer_of. rewrite Hl. simpl. eauto.
      - exists e1. unfold FAQService.combined_content. by rewrite He1. }
    assert (H2 : exists e2, FaqUseCase.combined_content values = Raise e2).
    { destruct (comprehension_raises FaqUseCase.answer_of values doc Hin)
        as [e2 He2].
      - unfold FaqUseCase.answer_of. rewrite Hl. simpl. eauto.
      - exists e2. unfold FaqUseCase.combined_content. by rewrite He2. }
    split; [exact H1 |]. split; [exact H2 |]. split.
    + intros df w1 Hs Hc. destruct H1 as [e1 He1].
      exact (faq_service_assembly_failure env query w w1 df values e1 Hs Hc He1).
    + intros Hc. destruct H2 as [e2 He2].
      exact (faq_use_case_assembly_failure env query w values e2 Hc He2).
Qed.

Lemma context_assembly_joins_answers_in_order_witness :
  FAQService.combined_content hits_with_gap
  = Ret (u"Um marketplace. Pelo aplicativo.")
  /\ FaqUseCase.combined_content hits_with_gap
     = Ret (u"Um marketplace. Pelo aplicativo.").
Proof.
  destruct (context_assembly_joins_answers_in_order
              (env_up (u"Sim") (u"texto")) (u"Como contratar?") empty_world
              hits_with_gap) as (_ & H & _).
  apply (H [u"Um marketplace."; u"Pelo aplicativo."]).
  repeat constructor.
  - eexists _, _. split; [reflexivity |]. split; vm_compute; reflexivity.
  - eexists _, _. split; [reflexivity |]. split; vm_compute; reflexivity.
Defined.

(** C5 as the specification states it fails: an entry that is not JSON is
    not skipped.  The specification's assembly gives the answer of the
    first entry; in both services the assembly raises
    [JSONDecodeError]. *)
Lemma unparseable_entry_is_not_skipped :
  spec_context hits_with_plain_text = u"Um marketplace."
  /\ FAQService.combined_content hits_with_plain_text
     = Raise (Error JSONDecodeError (u"Expecting value"))
  /\ FaqUseCase.combined_content hits_with_plain_text
     = Raise (Error JSONDecodeError (u"Expecting value"))
  /\ FAQService.combined_content hits_with_plain_text
     <> Ret (spec_context hits_with_plain_text)
  /\ FaqUseCase.combined_content hits_with_plain_text
     <> Ret (spec_context hits_with_plain_text).
Proof. vm_compute. repeat split; discriminate. Qed.

(** An entry without an answer is not skipped either: the FAQ service
    raises [KeyError], the other service puts an empty string in its
    place. *)
Example entry_without_answer_is_not_skipped :
  spec_context hits_without_answer = u"Um marketplace. Depende do serviço."
  /\ FAQService.combined_content hits_without_answer
     = Raise (Error KeyError (u"answer"))
  /\ FaqUseCase.combined_content hits_without_answer
     = Ret (u"Um marketplace.  Depende do serviço.").
Proof. vm_compute. repeat split. Qed.

(** ** From insertion to context *)

Lemma stored_content_is_entry
    (env : Env) (w : World) (question answer : str) :
  PyStr (doc_content (faq_document env w (JStr question) (JStr answer)))
  = faq_entry question answer.
Proof. reflexivity. Qed.

(** What [insert_document_faq] stores is what the assembly reads: for
    entries inserted with well-formed questions and answers, the context is
    the answers joined by one space, in the order of the hits. *)
Lemma inserted_entries_are_assembled (pairs : list (str * str)) :
  Forall (fun p => forallb is_scalar p.1 = true
                   /\ forallb is_scalar p.2 = true) pairs ->
  FAQService.combined_content (map (fun p => faq_entry p.1 p.2) pairs)
  = Ret (Py.join (u" ") (map snd pairs))
  /\ FaqUseCase.combined_content (map (fun p => faq_entry p.1 p.2) pairs)
     = Ret (Py.join (u" ") (map snd pairs)).
Proof.
  intros H.
  assert (H2 : Forall2 holds_answer (map (fun p => faq_entry p.1 p.2) pairs)
                 (map snd pairs)).
  { induction H as [|p pairs [Hq Ha] _ IH]; [constructor |].
    simpl. constructor; [| exact IH]. by apply faq_entry_holds_answer. }
  unfold FAQService.combined_content, FaqUseCase.combined_content.
  rewrite (comprehension_answers _ _ _ faq_service_answer_of H2),
    (comprehension_answers _ _ _ faq_use_case_answer_of H2).
  simpl. by rewrite join_values_strings.
Qed.

(** ** Paths *)

Lemma split_1_without (sep : N) (s : str) :
  sep ∉ s -> Py.split_1 sep s = [s].
Proof.
  induction s as [|c s IH]; intros H; [reflexivity |].
  simpl. destruct (N.eqb_spec c sep) as [-> | Hc].
  - exfalso. apply H. left.
  - rewrite IH; [reflexivity |]. intros Hin. apply H. by right.
Qed.

Lemma split_1_at_first (sep : N) (a b : str) :
  sep ∉ a -> Py.split_1 sep (a ++ sep :: b) = [a; b].
Proof.
  induction a as [|c a IH]; intros H; simpl.
  - by rewrite N.eqb_refl.
  - destruct (N.eqb_spec c sep) as [-> | Hc].
    + exfalso. apply H. left.
    + rewrite IH; [reflexivity |]. intros Hin. apply H. by right.
Qed.

Lemma split_1_cases (sep : N) (s : str) :
  ((sep ∉ s) /\ Py.split_1 sep s = [s])
  \/ (exists a b,
        s = a ++ sep :: b /\ (sep ∉ a) /\ Py.split_1 sep s = [a; b]).
Proof.
  induction s as [|c s IH].
  - left. split; [apply not_elem_of_nil | reflexivity].
  - simpl. destruct (N.eqb_spec c sep) as [-> | Hc].
    + right. exists [], s. repeat split. apply not_elem_of_nil.
    + destruct IH as [[Hn ->] | (a & b & -> & Hn & ->)].
      * left. split; [| reflexivity].
        intros Hin. apply elem_of_cons in Hin as [-> | Hin]; [done | by apply Hn].
      * right. exists (c :: a), b. repeat split.
        intros Hin. apply elem_of_cons in Hin as [-> | Hin]; [done | by apply Hn].
Qed.

Lemma upload_file_cases
    (env : Env) (container_name filename : str) (content : bytes) (w : World) :
  let r := Storage.upload_file env container_name filename content w in
  (r.1 = Ret (container_name ++ u"/" ++ filename)
   /\ blobs r.2 = <[(container_name, filename) := content]> (blobs w))
  \/ (exists e, r.1 = Raise e /\ blobs r.2 = blobs w).
Proof.
  intros r. subst r.
  unfold Storage.upload_file, Storage.create_container,
    Storage.get_blob_service_client, Storage.service_create_container,
    Storage.upload_blob.
  unfold_monad.
  destruct (fault env _ BlobServiceClientFromConnectionString); simpl;
    [right; eauto |].
  destruct (fault env _ (CreateContainer _)) as [e|]; simpl.
  - destruct (is_ResourceExistsError e); simpl; [| right; eauto].
    destruct (fault env _ _); simpl; [right; eauto |].
    destruct (bool_decide _) eqn:Hin; simpl; [| right; eauto].
    rewrite andb_false_r. simpl. left. auto.
  - destruct (bool_decide (container_name ∈ containers w)) eqn:Hin; simpl.
    + destruct (fault env _ _); simpl; [right; eauto |].
      rewrite Hin. simpl. rewrite andb_false_r. simpl. left. auto.
    + destruct (fault env _ _); simpl; [right; eauto |].
      rewrite bool_decide_eq_true_2 by set_solver. simpl.
      rewrite andb_false_r. simpl. left. auto.
Qed.

(** ** Storage: what a download returns *)

(** X1: [download_file] never raises and changes nothing in the blob
    service.  It returns the bytes exactly when the path has a ['/'], the
    two calls to the service succeed and the blob named by the text after
    the first ['/'] exists in the container named by the text before it;
    in every other case it returns [None]. *)
Theorem download_file_returns_the_blob_or_none
    (env : Env) (blob_path : str) (w : World) :
  let r := Storage.download_file env blob_path w in
  let n := length (trace w) in
  (forall content,
     r.1 = Ret (Some content)
     <-> exists c b,
           blob_path = c ++ 47%N :: b /\ (47%N ∉ c)
           /\ fault env n BlobServiceClientFromConnectionString = None
           /\ fault env (S n) (DownloadBlob c b) = None
           /\ blobs w !! (c, b) = Some content)
  /\ (r.1 = Ret None \/ exists content, r.1 = Ret (Some content))
  /\ blobs r.2 = blobs w
  /\ containers r.2 = containers w.
Proof.
  intros r n. subst r n.
  unfold Storage.download_file, Storage.get_blob_service_client,
    Storage.download_blob.
  unfold_monad.
  destruct (split_1_cases 47 blob_path) as [[Hn ->] | (c & b & -> & Hn & ->)].
  - simpl. repeat split; auto; try discriminate.
    intros (c & b & -> & _). exfalso. apply Hn.
    apply elem_of_app. right. left.
  - assert (Huniq : forall c' b', c ++ 47%N :: b = c' ++ 47%N :: b' ->
                                  47%N ∉ c' -> c' = c /\ b' = b).
    { intros c' b' Heq Hn'.
      assert (Hs : Py.split_1 47 (c ++ 47%N :: b) = [c'; b'])
        by (rewrite Heq; by apply split_1_at_first).
      rewrite split_1_at_first in Hs by exact Hn. by inversion Hs. }
    simpl.
    destruct (fault env (length (trace w)) _) as [e1|] eqn:F1; simpl.
    { repeat split; auto; try discriminate.
      intros (c' & b' & Heq & Hn' & F & _). congruence. }
    rewrite length_app. simpl.
    replace (length (trace w) + 1)%nat with (S (length (trace w))) by lia.
    destruct (fault env (S (length (trace w))) _) as [e2|] eqn:F2; simpl.
    { repeat split; auto; try discriminate.
      intros (c' & b' & Heq & Hn' & _ & F & _).
      destruct (Huniq c' b' Heq Hn') as [-> ->]. congruence. }
    destruct (blobs w !! (c, b)) as [data|] eqn:Hb; simpl.
    + repeat split; eauto.
      * intros H. inversion H; subst. exists c, b. auto.
      * intros (c' & b' & Heq & Hn' & _ & _ & Hb').
        destruct (Huniq c' b' Heq Hn') as [-> ->]. congruence.
    + repeat split; auto; try discriminate.
      intros (c' & b' & Heq & Hn' & _ & _ & Hb').
      destruct (Huniq c' b' Heq Hn') as [-> ->]. congruence.
Qed.

Lemma download_file_returns_the_blob_or_none_witness :
  (Storage.download_file (env_up (u"Válido") (u"texto"))
     (u"documents/certificado.pdf") world_with_certificate).1
  = Ret (Some certificate_bytes).
Proof.
  pose proof (download_file_returns_the_blob_or_none
                (env_up (u"Válido") (u"texto")) (u"documents/certificado.pdf")
                world_with_certificate) as (H & _).
  apply H. exists (u"documents"), (u"certificado.pdf").
  split; [vm_compute; reflexivity |].
  split; [apply (bool_decide_unpack _); vm_compute; exact I |].
  split; [reflexivity |]. split; [reflexivity |].
  vm_compute. reflexivity.
Defined.


(** X2: what [upload_file] returns can be handed to [download_file]: with
    the blob service up and a container name without ['/'], the download of
    the returned reference gives back the uploaded content. *)
Theorem upload_then_download_returns_the_content
    (env : Env) (container_name filename : str) (content : bytes) (w : World) :
  blob_service_up env ->
  (forall n c b, fault env n (DownloadBlob c b) = None) ->
  47%N ∉ container_name ->
  let up := Storage.upload_file env container_name filename content w in
  exists reference,
    up.1 = Ret reference
    /\ reference = container_name ++ u"/" ++ filename
    /\ (Storage.download_file env reference up.2).1 = Ret (Some content).
Proof.
  intros Hup Hdown Hsep up.
  destruct (upload_file_run env container_name filename content w Hup)
    as (H1 & H2 & _).
  fold up in H1, H2. exists (container_name ++ u"/" ++ filename).
  split; [exact H1 |]. split; [reflexivity |].
  destruct Hup as (Hc & _ & _).
  unfold Storage.download_file, Storage.get_blob_service_client,
    Storage.download_blob.
  unfold_monad. change (u"/") with [47%N]. simpl app.
  rewrite split_1_at_first by exact Hsep. simpl.
  rewrite Hc. simpl. rewrite Hdown. simpl.
  rewrite H2, lookup_insert_eq. reflexivity.
Qed.

Lemma upload_then_download_returns_the_content_witness :
  let env := env_up (u"Válido") (u"texto") in
  let up := Storage.upload_file env (u"documents") (u"certificado.pdf")
              certificate_bytes empty_world in
  exists reference,
    up.1 = Ret reference
    /\ reference = u"documents" ++ u"/" ++ u"certificado.pdf"
    /\ (Storage.download_file env reference up.2).1
       = Ret (Some certificate_bytes).
Proof.
  intros env up.
  assert (Hup : blob_service_up env) by (repeat split).
  assert (Hdown : forall n c b, fault env n (DownloadBlob c b) = None)
    by reflexivity.
  assert (Hsep : 47%N ∉ u"documents")
    by (apply (bool_decide_unpack _); vm_compute; exact I).
  exact (upload_then_download_returns_the_content env (u"documents")
           (u"certificado.pdf") certificate_bytes empty_world Hup Hdown Hsep).
Defined.

(** X3: [upload_file] stores the content exactly when its three calls go
    through, and changes no blob otherwise.  It returns the reference and
    the blob holds the content when the client is obtained, the creation
    of the container is answered, or refused because the container exists
    already, and the upload is not refused; whether the container existed
    before makes no difference.  In every other case it raises, and every
    blob is as it was. *)
Theorem upload_file_stores_or_changes_no_blob
    (env : Env) (container_name filename : str) (content : bytes) (w : World) :
  let n := length (trace w) in
  let r := Storage.upload_file env container_name filename content w in
  let created :=
    fault env (S n) (CreateContainer container_name) = None
    \/ exists e,
         fault env (S n) (CreateContainer container_name) = Some e
         /\ is_ResourceExistsError e = true
         /\ container_name ∈ containers w in
  let stored :=
    r.1 = Ret (container_name ++ u"/" ++ filename)
    /\ blobs r.2 = <[(container_name, filename) := content]> (blobs w) in
  (fault env n BlobServiceClientFromConnectionString = None ->
   created ->
   fault env (S (S n)) (UploadBlob container_name filename content true) = None ->
   stored)
  /\ (stored \/ exists e, r.1 = Raise e /\ blobs r.2 = blobs w)
  /\ (forall reference,
        r.1 = Ret reference ->
        fault env n BlobServiceClientFromConnectionString = None
        /\ created
        /\ fault env (S (S n)) (UploadBlob container_name filename content true)
           = None).
Proof.
  intros n r created stored. subst n r created stored.
  unfold Storage.upload_file, Storage.create_container,
    Storage.get_blob_service_client, Storage.service_create_container,
    Storage.upload_blob.
  unfold_monad.
  destruct (fault env _ BlobServiceClientFromConnectionString) as [e0|] eqn:E0;
    simpl.
  { split; [done |]. split; [right; by eexists |]. done. }
  rewrite !length_app, !Nat.add_1_r. simpl length.
  destruct (fault env _ (CreateContainer _)) as [e1|] eqn:E1; simpl.
  - destruct (is_ResourceExistsError e1) eqn:Hx; simpl.
    + rewrite ?length_app, ?Nat.add_1_r. simpl length.
      destruct (fault env _ (UploadBlob _ _ _ _)) as [e2|] eqn:E2; simpl.
      { split; [done |]. split; [right; by eexists |]. done. }
      destruct (decide (container_name ∈ containers w)) as [Hin | Hout].
      * rewrite bool_decide_eq_true_2 by exact Hin. simpl.
        rewrite andb_false_r. simpl.
        split; [done |]. split; [by left |].
        intros reference _. split; [done |]. split; [| done].
        right. by exists e1.
      * rewrite bool_decide_eq_false_2 by exact Hout. simpl.
        split.
        { intros _ [Hc | (e & He & _ & Hin)]; [discriminate | done]. }
        split; [right; by eexists |]. done.
    + split.
      { intros _ [Hc | (e & He & Hr & _)]; [discriminate |].
        injection He as <-. congruence. }
      split; [right; by eexists |]. done.
  - destruct (decide (container_name ∈ containers w)) as [Hin | Hout].
    + rewrite bool_decide_eq_true_2 by exact Hin. simpl.
      rewrite ?length_app, ?Nat.add_1_r. simpl length.
      destruct (fault env _ (UploadBlob _ _ _ _)) as [e2|] eqn:E2; simpl.
      { split; [done |]. split; [right; by eexists |]. done. }
      rewrite bool_decide_eq_true_2 by exact Hin. simpl.
      rewrite andb_false_r. simpl.
      split; [done |]. split; [by left |].
      intros reference _. split; [done |]. split; [by left | done].
    + rewrite bool_decide_eq_false_2 by exact Hout. simpl.
      rewrite ?length_app, ?Nat.add_1_r. simpl length.
      destruct (fault env _ (UploadBlob _ _ _ _)) as [e2|] eqn:E2; simpl.
      { split; [done |]. split; [right; by eexists |]. done. }
      rewrite bool_decide_eq_true_2 by set_solver. simpl.
      rewrite andb_false_r. simpl.
      split; [done |]. split; [by left |].
      intros reference _. split; [done |]. split; [by left | done].
Qed.


Lemma upload_file_stores_or_changes_no_blob_witness :
  let env := env_up (u"Válido") (u"texto") in
  let r := Storage.upload_file env (u"documents") (u"novo.pdf") [Byte.x00]
             world_with_certificate in
  u"documents" ∈ containers world_with_certificate
  /\ r.1 = Ret (u"documents" ++ u"/" ++ u"novo.pdf")
  /\ blobs r.2
     = <[(u"documents", u"novo.pdf") := [Byte.x00]]>
         (blobs world_with_certificate).
Proof.
  intros env r.
  assert (Hin : u"documents" ∈ containers world_with_certificate)
    by (apply (bool_decide_unpack _); vm_compute; exact I).
  split; [exact Hin |].
  destruct (upload_file_stores_or_changes_no_blob env (u"documents")
              (u"novo.pdf") [Byte.x00] world_with_certificate) as (H & _).
  apply H; [reflexivity | by left | reflexivity].
Defined.

(** X4: a blob that exists but is empty is reported as not found:
    [execute] raises the error 404 for it, after the download and without
    any call to the analysis or the generation service. *)
Theorem existing_empty_blob_is_not_found
    (env : Env) (c b name : str) (w : World) :
  47%N ∉ c ->
  fault env (length (trace w)) BlobServiceClientFromConnectionString = None ->
  fault env (S (length (trace w))) (DownloadBlob c b) = None ->
  blobs w !! (c, b) = Some [] ->
  let request := {| VerifyFileUseCase.document_path := c ++ u"/" ++ b;
                    VerifyFileUseCase.professional_name := name |} in
  let r := VerifyFileUseCase.execute env request w in
  r.1 = Raise (HTTPException 404 (u"Arquivo não encontrado"))
  /\ calls_between w r.2
       [BlobServiceClientFromConnectionString; DownloadBlob c b].
Proof.
  intros Hsep F1 F2 Hb request r. subst request r.
  unfold VerifyFileUseCase.execute, Storage.download_file,
    Storage.get_blob_service_client, Storage.download_blob, calls_between.
  unfold_monad. cbn [VerifyFileUseCase.document_path].
  change (u"/") with [47%N]. simpl app.
  rewrite split_1_at_first by exact Hsep. simpl.
  rewrite F1. simpl. rewrite length_app. simpl.
  replace (length (trace w) + 1)%nat with (S (length (trace w))) by lia.
  rewrite F2. simpl. rewrite Hb. simpl.
  split; [reflexivity |]. by rewrite <- app_assoc.
Qed.

Lemma existing_empty_blob_is_not_found_witness :
  let env := env_up (u"Válido") (u"texto") in
  let request := {| VerifyFileUseCase.document_path :=
                      u"documents" ++ u"/" ++ u"vazio.pdf";
                    VerifyFileUseCase.professional_name := u"João da Silva" |} in
  blobs world_with_empty_blob !! (u"documents", u"vazio.pdf") = Some []
  /\ (VerifyFileUseCase.execute env request world_with_empty_blob).1
     = Raise (HTTPException 404 (u"Arquivo não encontrado")).
Proof.
  intros env request.
  assert (Hsep : 47%N ∉ u"documents")
    by (apply (bool_decide_unpack _); vm_compute; exact I).
  assert (H1 : fault env (length (trace world_with_empty_blob))
                 BlobServiceClientFromConnectionString = None) by reflexivity.
  assert (H2 : fault env (S (length (trace world_with_empty_blob)))
                 (DownloadBlob (u"documents") (u"vazio.pdf")) = None)
    by reflexivity.
  assert (H3 : blobs world_with_empty_blob !! (u"documents", u"vazio.pdf")
               = Some []) by (vm_compute; reflexivity).
  split; [exact H3 |].
  exact (proj1 (existing_empty_blob_is_not_found env (u"documents")
                  (u"vazio.pdf") (u"João da Silva") world_with_empty_blob
                  Hsep H1 H2 H3)).
Defined.


(** ** The vector store under failures *)

Lemma put_index_keeps_other_names
    (index : SearchIndex) (l : list SearchIndex) (name : str) :
  index_name_of index <> name ->
  List.filter (fun ix => bool_decide (index_name_of ix = name))
    (AzureSearchVectorDB.put_index index l)
  = List.filter (fun ix => bool_decide (index_name_of ix = name)) l.
Proof.
  intros Hne. induction l as [|x l IH]; simpl.
  - by rewrite bool_decide_eq_false_2.
  - destruct (decide (index_name_of x = index_name_of index)) as [Heq | Hx].
    + rewrite bool_decide_eq_true_2 by exact Heq. simpl.
      rewrite !bool_decide_eq_false_2 by congruence. reflexivity.
    + rewrite bool_decide_eq_false_2 by exact Hx. simpl. by rewrite IH.
Qed.

(** X5: the constructor never raises, whatever the index service does (a
    failed listing is taken for an empty list, a failed creation is
    dropped); it leaves the documents alone and never changes an index
    that bears another name than ["faq-index"]. *)
Theorem constructor_is_safe_under_failures (env : Env) (w : World) :
  let r := AzureSearchVectorDB.__init__ env w in
  r.1 = Ret tt
  /\ documents r.2 = documents w
  /\ (forall name,
        name <> u"faq-index" ->
        List.filter (fun ix => bool_decide (index_name_of ix = name))
          (indexes r.2)
        = List.filter (fun ix => bool_decide (index_name_of ix = name))
            (indexes w))
  /\ (is_Some (fault env (length (trace w)) ListIndexNames) ->
      exists index,
        calls_between w r.2 [ListIndexNames; CreateOrUpdateIndex index]
        /\ index_name_of index = u"faq-index").
Proof.
  intros r. subst r.
  unfold AzureSearchVectorDB.__init__,
    AzureSearchVectorDB._get_existing_index_names,
    AzureSearchVectorDB._create_vector_index,
    AzureSearchVectorDB.list_index_names,
    AzureSearchVectorDB.create_or_update_index, calls_between.
  unfold_monad.
  assert (Hother : forall (index : SearchIndex) l name,
            index_name_of index = u"faq-index" -> name <> u"faq-index" ->
            List.filter (fun ix => bool_decide (index_name_of ix = name))
              (AzureSearchVectorDB.put_index index l)
            = List.filter (fun ix => bool_decide (index_name_of ix = name)) l).
  { intros index l name Hi Hne. apply put_index_keeps_other_names. congruence. }
  destruct (fault env _ ListIndexNames) as [e|]; simpl.
  - destruct (fault env _ (CreateOrUpdateIndex _)); simpl.
    + split; [done |]. split; [done |]. split; [done |].
      intros _. eexists. rewrite <- app_assoc. split; reflexivity.
    + split; [done |]. split; [done |]. split.
      * intros name Hne. by apply Hother.
      * intros _. eexists. rewrite <- app_assoc. split; reflexivity.
  - destruct (negb _); simpl.
    + destruct (fault env _ (CreateOrUpdateIndex _)); simpl.
      * split; [done |]. split; [done |]. split; [done |].
        intros [e0 He]. discriminate.
      * split; [done |]. split; [done |]. split.
        -- intros name Hne. by apply Hother.
        -- intros [e0 He]. discriminate.
    + split; [done |]. split; [done |]. split; [done |].
      intros [e0 He]. discriminate.
Qed.

Lemma constructor_is_safe_under_failures_witness :
  let r := AzureSearchVectorDB.__init__ env_listing_down empty_world in
  r.1 = Ret tt
  /\ exists index,
       calls_between empty_world r.2
         [ListIndexNames; CreateOrUpdateIndex index]
       /\ index_name_of index = u"faq-index".
Proof.
  intros r.
  destruct (constructor_is_safe_under_failures env_listing_down empty_world)
    as (H1 & _ & _ & H4).
  split; [exact H1 |]. apply H4. eexists. reflexivity.
Defined.

(** X6: in [search_similar_documents] a failure of the embedding call does
    not stop the search, which is then made with an empty vector, while a
    failure of the search itself is raised to the caller.  No document
    changes. *)
Theorem search_failure_is_raised_embedding_failure_is_not
    (env : Env) (query : str) (k : Z) (filters : option str) (w : World) :
  let n := length (trace w) in
  let r := AzureSearchVectorDB.search_similar_documents env query k filters w in
  let request := {| top := k;
                    vector_queries :=
                      [ {| vector := generated env n query;
                           vector_fields := u"document_vector" |} ];
                    select := [u"id"; u"doc_content"; u"type"];
                    filter := AzureSearchVectorDB.applied_filter filters |} in
  calls_between w r.2 [EmbeddingsCreate query; Search request]
  /\ (is_Some (fault env n (EmbeddingsCreate query)) ->
      map vector (vector_queries request) = [[]])
  /\ (forall e, fault env (S n) (Search request) = Some e -> r.1 = Raise e)
  /\ (fault env (S n) (Search request) = None ->
      r.1 = Ret (search_hits env request (documents w)))
  /\ documents r.2 = documents w.
Proof.
  intros n r request. subst n r request.
  unfold AzureSearchVectorDB.search_similar_documents, calls_between.
  unfold bind. rewrite generate_embeddings_run.
  unfold AzureSearchVectorDB.search. unfold_monad. simpl.
  rewrite length_app. simpl.
  replace (length (trace w) + 1)%nat with (S (length (trace w))) by lia.
  split; [| split; [| split; [| split]]].
  - destruct (fault env (S _) _); simpl; by rewrite <- app_assoc.
  - intros He. by rewrite generated_on_failure.
  - intros e He. by rewrite He.
  - intros He. by rewrite He.
  - destruct (fault env (S _) _); reflexivity.
Qed.

Lemma search_failure_is_raised_embedding_failure_is_not_witness :
  (exists e,
     (AzureSearchVectorDB.search_similar_documents env_search_down
        (u"libras") 3 None empty_world).1 = Raise e)
  /\ (AzureSearchVectorDB.search_similar_documents env_embedding_down
        (u"libras") 3 None empty_world).1 = Ret [].
Proof.
  split.
  - destruct (search_failure_is_raised_embedding_failure_is_not
                env_search_down (u"libras") 3 None empty_world)
      as (_ & _ & H & _).
    eexists. apply H. reflexivity.
  - destruct (search_failure_is_raised_embedding_failure_is_not
                env_embedding_down (u"libras") 3 None empty_world)
      as (_ & _ & _ & H & _).
    rewrite H by reflexivity. reflexivity.
Defined.


(** X7: [insert_documents_from_json] never raises.  When the file cannot
    be opened, is not JSON, does not hold an object, or holds an object
    without ["faq"], it makes no call beyond opening the file and stores
    nothing. *)
Theorem unusable_file_inserts_nothing
    (env : Env) (json_filepath : str) (w : World) :
  let r := AzureSearchVectorDB.insert_documents_from_json env json_filepath w in
  r.1 = Ret tt
  /\ (is_Some (fault env (length (trace w)) (OpenFile json_filepath))
      \/ (exists e, Json.loads (file_text env json_filepath) = Raise e)
      \/ (exists data,
            Json.loads (file_text env json_filepath) = Ret data
            /\ forall members, data <> JObj members)
      \/ (exists members,
            Json.loads (file_text env json_filepath) = Ret (JObj members)
            /\ dict_get (u"faq") members = None) ->
      calls_between w r.2 [OpenFile json_filepath]
      /\ documents r.2 = documents w).
Proof.
  intros r. subst r. split.
  - unfold AzureSearchVectorDB.insert_documents_from_json, try_except, ret.
    lazymatch goal with
    | |- context [bind ?m ?k w] => destruct (bind m k w) as [[[]|e] w1]
    end; reflexivity.
  - unfold AzureSearchVectorDB.insert_documents_from_json, calls_between.
    unfold_monad.
    intros [[e He] | [[e He] | [(data & Hl & Hd) | (members & Hl & Hg)]]].
    + by rewrite He.
    + destruct (fault env _ _); [done |]. by rewrite He.
    + destruct (fault env _ _); [done |]. rewrite Hl.
      destruct data; try done. by destruct (Hd members).
    + destruct (fault env _ _); [done |]. rewrite Hl. simpl. by rewrite Hg.
Qed.

Lemma unusable_file_inserts_nothing_witness :
  let r := AzureSearchVectorDB.insert_documents_from_json env_no_file
             (u"faq.json") empty_world in
  r.1 = Ret tt
  /\ calls_between empty_world r.2 [OpenFile (u"faq.json")]
  /\ documents r.2 = documents empty_world.
Proof.
  intros r.
  destruct (unusable_file_inserts_nothing env_no_file (u"faq.json") empty_world)
    as (H1 & H2).
  split; [exact H1 |]. apply H2. left. eexists. reflexivity.
Defined.




(** ** The chat routes under every failure *)

(** X9: [POST /api/faq/chat] of [ai-api] answers with status 200 whatever
    the services do.  The answer is the apology, or the reply of the model,
    stripped, to three messages: the system prompt, the context as
    assistant and the query as user. *)
Theorem chat_always_answers_200 (env : Env) (query : str) (w : World) :
  let r := (FaqUseCase.post_chat env query w).1 in
  status r = 200%Z
  /\ (body r = JObj [(u"response", JStr apology)]
      \/ exists context reply rest,
           chat_choices env
             [ {| role := u"system"; content := FaqUseCase.system_prompt |};
               {| role := u"assistant"; content := context |};
               {| role := u"user"; content := query |} ]
           = Some reply :: rest
           /\ body r = JObj [(u"response", JStr (Py.strip reply))]).
Proof.
  intros r. subst r.
  unfold FaqUseCase.post_chat, FaqUseCase.chat_faq, FaqUseCase.chat,
    FaqUseCase._generate_response.
  unfold try_except at 1. unfold try_except.
  lazymatch goal with
  | |- context [bind ?m ?k w] => destruct (bind m k w) as [[x|e] w1] eqn:E
  end; [| split; [reflexivity | by left]].
  split; [reflexivity |]. right.
  apply bind_inv in E as (df & w2 & _ & E).
  apply bind_inv in E as (values & w3 & _ & E).
  apply bind_inv in E as (combined & w4 & _ & E).
  apply bind_inv in E as (a & w5 & _ & E).
  apply bind_inv in E as (choice & w6 & Hc & E).
  apply bind_inv in E as (final & w7 & Hs & E).
  unfold lift in Hc, Hs. unfold ret in E.
  inversion Hc as [[Hfirst Hw]]. inversion Hs as [[Hstrip Hw']].
  inversion E; subst; clear E Hc Hs.
  destruct (chat_choices env _) as [|c rest] eqn:Hch; [discriminate |].
  simpl in Hfirst. inversion Hfirst; subst.
  destruct choice as [reply|]; [| discriminate].
  simpl in Hstrip. inversion Hstrip; subst.
  eexists _, reply, rest. split; [exact Hch | reflexivity].
Qed.

(** X10: [POST /api/faq/chat] of the FAQ service answers with status 200
    and the apology or the model's reply as it is, except when the model
    replies without content: the dictionary then fails the response model
    and the answer is an internal server error. *)
Theorem faq_chat_answers_200_unless_the_reply_is_empty
    (env : Env) (query : str) (w : World) :
  let r := (FAQService.post_chat env query w).1 in
  (status r = 200%Z
   /\ (body r = JObj [(u"response", JStr apology)]
       \/ exists context reply rest,
            chat_choices env
              [ {| role := u"system"; content := FAQService.system_prompt |};
                {| role := u"assistant"; content := u"Contexto: " ++ context |};
                {| role := u"user"; content := query |} ]
            = Some reply :: rest
            /\ body r = JObj [(u"response", JStr reply)]))
  \/ (status r = 500%Z
      /\ exists context rest,
           chat_choices env
             [ {| role := u"system"; content := FAQService.system_prompt |};
               {| role := u"assistant"; content := u"Contexto: " ++ context |};
               {| role := u"user"; content := query |} ]
           = None :: rest).
Proof.
  intros r. subst r.
  unfold FAQService.post_chat, FAQService.chat_faq, FAQService.chat,
    FAQService._generate_response.
  unfold try_except at 1. unfold try_except.
  lazymatch goal with
  | |- context [bind ?m ?k w] => destruct (bind m k w) as [[x|e] w1] eqn:E
  end; [| left; split; [reflexivity | by left]].
  apply bind_inv in E as (df & w2 & _ & E).
  apply bind_inv in E as (values & w3 & _ & E).
  apply bind_inv in E as (combined & w4 & _ & E).
  apply bind_inv in E as (a & w5 & _ & E).
  apply bind_inv in E as (choice & w6 & Hc & E).
  unfold lift in Hc. unfold ret in E.
  inversion Hc as [[Hfirst Hw]]. inversion E; subst; clear E Hc.
  destruct (chat_choices env _) as [|c rest] eqn:Hch; [discriminate |].
  simpl in Hfirst. inversion Hfirst; subst.
  destruct x as [reply|].
  - left. split; [reflexivity |]. right.
    eexists _, reply, rest. split; [exact Hch | reflexivity].
  - right. split; [reflexivity |]. eexists _, rest. exact Hch.
Qed.

Lemma df_column_empty (col : str) : df_column [] col = Raise (Error KeyError col).
Proof. reflexivity. Qed.

(** X11: when the search returns no hit, the frame has no column
    [doc_content] and reading it raises: both pipelines answer with the
    apology, and the generation service is not called. *)
Theorem no_hit_yields_apology_without_generation
    (env : Env) (query : str) (w : World) :
  (forall request, search_hits env request (documents w) = []) ->
  az_search_similar_documents env query 3 (Some (u"type eq 'faq'")) = [] ->
  ((FAQService.post_chat env query w).1 = apology_response
   /\ List.filter is_chat_completion (trace (FAQService.post_chat env query w).2)
      = List.filter is_chat_completion (trace w))
  /\ ((FaqUseCase.post_chat env query w).1 = apology_response
      /\ List.filter is_chat_completion
           (trace (FaqUseCase.post_chat env query w).2)
         = List.filter is_chat_completion (trace w)).
Proof.
  intros Hfaq Hai. split.
  - unfold FAQService.post_chat, FAQService.chat_faq, FAQService.chat,
      FAQService._generate_response,
      AzureSearchVectorDB.search_similar_documents.
    unfold try_except, bind. rewrite generate_embeddings_run.
    unfold AzureSearchVectorDB.search. unfold_monad. simpl.
    destruct (fault env _ _); simpl.
    + split; [reflexivity |].
      rewrite !List.filter_app. simpl. by rewrite !app_nil_r.
    + rewrite Hfaq. simpl. split; [reflexivity |].
      rewrite !List.filter_app. simpl. by rewrite !app_nil_r.
  - unfold FaqUseCase.post_chat, FaqUseCase.chat_faq, FaqUseCase.chat,
      FaqUseCase._generate_response, FaqUseCase.search_similar_documents.
    unfold_monad. rewrite Hai. simpl.
    destruct (fault env _ _); simpl; (split; [reflexivity |]);
      rewrite !List.filter_app; simpl; by rewrite !app_nil_r.
Qed.

Lemma no_hit_yields_apology_without_generation_witness :
  let env := env_up (u"Sim") (u"texto") in
  (FAQService.post_chat env (u"Como contratar?") empty_world).1
  = apology_response
  /\ (FaqUseCase.post_chat env (u"Como contratar?") empty_world).1
     = apology_response.
Proof.
  intros env.
  assert (H1 : forall request,
             search_hits env request (documents empty_world) = []).
  { intros request. simpl. by rewrite take_nil. }
  assert (H2 : az_search_similar_documents env (u"Como contratar?") 3
                 (Some (u"type eq 'faq'")) = []) by reflexivity.
  destruct (no_hit_yields_apology_without_generation env (u"Como contratar?")
              empty_world H1 H2) as ((A & _) & (B & _)).
  split; [exact A | exact B].
Defined.

(** ** The verification pipeline under failures *)

(** X12: when the document analysis fails, [execute] raises the HTTP error
    500 "Erro ao realizar OCR" for an Azure error and the exception itself
    otherwise; the request is answered with status 500 either way, and the
    generation service is not called. *)
Theorem ocr_failure_is_500_without_generation
    (env : Env) (request : VerifyFileUseCase.VerifyDocumentRequest)
    (w w1 : World) (content : bytes) (e : exn) :
  Storage.download_file env (VerifyFileUseCase.document_path request) w
  = (Ret (Some content), w1) ->
  content <> [] ->
  fault env (length (trace w1)) (AnalyzeDocument (u"prebuilt-read") content)
  = Some e ->
  (VerifyFileUseCase.execute env request w).1
  = Raise (if is_AzureError e
           then HTTPException 500 (u"Erro ao realizar OCR: " ++ exn_str e)
           else e)
  /\ status (VerifyFileUseCase.post_verify_file env request w).1 = 500%Z
  /\ List.filter is_chat_completion
       (trace (VerifyFileUseCase.post_verify_file env request w).2)
     = List.filter is_chat_completion (trace w).
Proof.
  intros Hd Hc He.
  destruct (download_file_calls env (VerifyFileUseCase.document_path request) w)
    as (calls & Hcalls & Hnone).
  rewrite Hd in Hcalls. simpl in Hcalls.
  pose proof (filter_calls_between w w1 _ Hcalls Hnone) as Hw1.
  set (raised := if is_AzureError e
                 then HTTPException 500 (u"Erro ao realizar OCR: " ++ exn_str e)
                 else e).
  assert (Ho : VerifyFileUseCase._ocr env content w1
               = (Raise raised,
                  set_trace (trace w1
                             ++ [AnalyzeDocument (u"prebuilt-read") content])
                    w1)).
  { unfold VerifyFileUseCase._ocr. unfold_monad. rewrite He. subst raised.
    by destruct (is_AzureError e). }
  assert (E : VerifyFileUseCase.execute env request w
              = (Raise raised,
                 set_trace (trace w1
                            ++ [AnalyzeDocument (u"prebuilt-read") content])
                   w1)).
  { unfold VerifyFileUseCase.execute, bind. rewrite Hd.
    destruct content as [|b content]; [done |]. simpl. by rewrite Ho. }
  unfold VerifyFileUseCase.post_verify_file, VerifyFileUseCase.verify_file_route,
    try_except.
  rewrite E. simpl. split; [reflexivity |]. split; [reflexivity |].
  rewrite List.filter_app. simpl. by rewrite app_nil_r.
Qed.

Lemma ocr_failure_is_500_without_generation_witness :
  (VerifyFileUseCase.execute env_analysis_down certificate_request
     world_with_certificate).1
  = Raise (HTTPException 500
             (u"Erro ao realizar OCR: "
              ++ u"Operation returned an invalid status"))
  /\ status (VerifyFileUseCase.post_verify_file env_analysis_down
               certificate_request world_with_certificate).1 = 500%Z.
Proof.
  pose (w1 := (Storage.download_file env_analysis_down
                 (u"documents/certificado.pdf") world_with_certificate).2).
  assert (H1 : Storage.download_file env_analysis_down
                 (VerifyFileUseCase.document_path certificate_request)
                 world_with_certificate
               = (Ret (Some certificate_bytes), w1))
    by (vm_compute; reflexivity).
  assert (H2 : certificate_bytes <> []) by discriminate.
  assert (H3 : fault env_analysis_down (length (trace w1))
                 (AnalyzeDocument (u"prebuilt-read") certificate_bytes)
               = Some (Error HttpResponseError
                         (u"Operation returned an invalid status")))
    by (vm_compute; reflexivity).
  pose proof (ocr_failure_is_500_without_generation env_analysis_down
              certificate_request world_with_certificate w1 certificate_bytes
              _ H1 H2 H3) as (A & B & _).
  split; [| exact B].
  rewrite A. vm_compute. reflexivity.
Defined.

(** X13: while the generation service is down no verification request is
    answered with status 200: whatever the path, the document and the
    text, the answer has status 500. *)
Theorem generation_failure_fails_every_verification
    (env : Env) (request : VerifyFileUseCase.VerifyDocumentRequest)
    (w : World) :
  generation_down env ->
  status (VerifyFileUseCase.post_verify_file env request w).1 = 500%Z.
Proof.
  intros Hd.
  unfold VerifyFileUseCase.post_verify_file, VerifyFileUseCase.verify_file_route,
    try_except.
  destruct (VerifyFileUseCase.execute env request w) as [[r|e] w1] eqn:E;
    [exfalso | reflexivity].
  unfold VerifyFileUseCase.execute in E.
  apply bind_inv in E as (cb & w2 & _ & E).
  destruct (VerifyFileUseCase.not_bytes cb); [discriminate |].
  apply bind_inv in E as (text & w3 & _ & E).
  destruct (negb _); [discriminate |].
  apply bind_inv in E as (r' & w4 & Hg & _).
  unfold VerifyFileUseCase._generate_response, try_except in Hg.
  lazymatch type of Hg with
  | context [bind ?m ?k w3] => destruct (bind m k w3) as [[x|e] w5] eqn:B
  end; [| discriminate].
  apply bind_inv in B as (a & w6 & B & _).
  by apply external_down in B.
Qed.

Lemma generation_failure_fails_every_verification_witness :
  generation_down env_generation_down
  /\ status (VerifyFileUseCase.post_verify_file env_generation_down
               certificate_request world_with_certificate).1 = 500%Z.
Proof.
  assert (Hd : generation_down env_generation_down).
  { intros n t m. eexists. reflexivity. }
  split; [exact Hd |].
  exact (generation_failure_fails_every_verification env_generation_down
           certificate_request world_with_certificate Hd).
Defined.


(** ** Uploads *)

Lemma a2b_loop_strict_lenient (s : str) :
  forall quad_pos leftchar pads padding_started bin_data decoded,
    Base64.a2b_loop true s quad_pos leftchar pads padding_started bin_data
    = Ret decoded ->
    Base64.a2b_loop false s quad_pos leftchar pads padding_started bin_data
    = Ret decoded.
Proof.
  induction s as [|c s IH]; intros q l p ps acc decoded; [done |].
  cbn [Base64.a2b_loop]. cbn [andb].
  destruct (c =? 61)%N.
  - destruct (_ && _); [| apply IH].
    destruct (Py.truthy s); [discriminate | done].
  - destruct (Base64.digit c) as [v|]; [| discriminate].
    destruct ps; [discriminate |].
    destruct q as [|[|[|q]]]; apply IH.
Qed.

(** Content that passes the validator is decoded without error by the
    lenient decoding of [execute], to the same bytes. *)
Lemma validated_content_decodes (v v' : str) :
  UploadFileUseCase.validate_base64 v = Ret v' ->
  v' = v
  /\ exists decoded,
       Base64.b64decode v true = Ret decoded
       /\ Base64.b64decode v false = Ret decoded.
Proof.
  unfold UploadFileUseCase.validate_base64.
  destruct (Base64.b64decode v true) as [decoded|e] eqn:E; [| discriminate].
  intros [= <-]. split; [reflexivity |].
  exists decoded. split; [reflexivity |].
  unfold Base64.b64decode in *. destruct (forallb _ v); [| discriminate].
  unfold Base64.a2b_base64 in *. destruct v as [|c v].
  - by apply a2b_loop_strict_lenient.
  - cbn [andb] in *. destruct (c =? 61)%N; [discriminate |].
    by apply a2b_loop_strict_lenient.
Qed.



(** X14: a request that the model [UploadDocumentRequest] accepts is
    answered, with the blob service up, with status 201 and the reference
    ["<container>/<filename>"]: the content is decoded without error and
    the blob holds the decoded bytes. *)
Theorem valid_upload_is_stored_and_answered_201
    (env : Env) (container : str)
    (request : UploadFileUseCase.UploadDocumentRequest) (w : World) :
  UploadFileUseCase.valid_request request ->
  blob_service_up env ->
  let r := UploadFileUseCase.post_upload_file env container request w in
  exists decoded,
    Base64.b64decode (UploadFileUseCase.content request) true = Ret decoded
    /\ r.1 = {| status := 201;
                body := JObj [(u"response",
                               JStr (container ++ u"/"
                                     ++ UploadFileUseCase.filename request))] |}
    /\ blobs r.2 !! (container, UploadFileUseCase.filename request)
       = Some decoded.
Proof.
  intros [_ Hv] Hup r. subst r.
  apply validated_content_decodes in Hv as (_ & decoded & Hs & Hl).
  exists decoded. split; [exact Hs |].
  destruct (upload_file_run env container (UploadFileUseCase.filename request)
              decoded w Hup) as (H1 & H2 & _).
  unfold UploadFileUseCase.post_upload_file, UploadFileUseCase.upload_file_route,
    UploadFileUseCase.execute.
  unfold try_except at 1. unfold bind at 1. unfold lift. rewrite Hl.
  unfold bind, try_except, ret.
  destruct (Storage.upload_file env container _ decoded w) as [o w1].
  simpl in H1, H2. subst o. simpl. split; [reflexivity |].
  rewrite H2. apply lookup_insert_eq.
Qed.

Lemma valid_upload_is_stored_and_answered_201_witness :
  let env := env_up (u"Válido") (u"texto") in
  let r := UploadFileUseCase.post_upload_file env (u"documents")
             certificate_upload empty_world in
  UploadFileUseCase.valid_request certificate_upload
  /\ exists decoded,
       Base64.b64decode (u"JVBERg==") true = Ret decoded
       /\ status r.1 = 201%Z
       /\ blobs r.2 !! (u"documents", u"certificado.pdf") = Some decoded.
Proof.
  intros env r.
  assert (Hv : UploadFileUseCase.valid_request certificate_upload)
    by (vm_compute; repeat split; discriminate).
  assert (Hup : blob_service_up env) by (repeat split).
  split; [exact Hv |].
  destruct (valid_upload_is_stored_and_answered_201 env (u"documents")
              certificate_upload empty_world Hv Hup) as (decoded & A & B & C).
  exists decoded. split; [exact A |]. split; [| exact C].
  fold r in B. rewrite B. reflexivity.
Defined.

(** X15: when the upload to the blob service fails, the request is
    answered with status 500 and the detail "Failed: 500: Erro no upload:"
    followed by the text of the exception, and no blob has changed. *)
Theorem failed_upload_is_answered_500
    (env : Env) (container : str)
    (request : UploadFileUseCase.UploadDocumentRequest) (w : World)
    (decoded : bytes) (e : exn) :
  Base64.b64decode (UploadFileUseCase.content request) false = Ret decoded ->
  (Storage.upload_file env container (UploadFileUseCase.filename request)
     decoded w).1 = Raise e ->
  let r := UploadFileUseCase.post_upload_file env container request w in
  r.1 = {| status := 500;
           body := JObj [(u"detail",
                          JStr (u"Failed: 500: Erro no upload: "
                                ++ exn_str e))] |}
  /\ blobs r.2 = blobs w.
Proof.
  intros Hl He r. subst r.
  destruct (upload_file_cases env container (UploadFileUseCase.filename request)
              decoded w) as [[H1 _] | (e' & H1 & H2)].
  { rewrite H1 in He. discriminate. }
  unfold UploadFileUseCase.post_upload_file, UploadFileUseCase.upload_file_route,
    UploadFileUseCase.execute.
  unfold try_except at 1. unfold bind at 1. unfold lift. rewrite Hl.
  unfold bind, try_except, ret, raise.
  destruct (Storage.upload_file env container _ decoded w) as [o w1].
  simpl in He, H2. subst o. simpl. split; [| exact H2].
  f_equal.
Qed.

Lemma failed_upload_is_answered_500_witness :
  let r := UploadFileUseCase.post_upload_file env_upload_down (u"documents")
             certificate_upload empty_world in
  r.1 = {| status := 500;
           body := JObj [(u"detail",
                          JStr (u"Failed: 500: Erro no upload: "
                                ++ u"Cannot connect to host"))] |}
  /\ blobs r.2 = blobs empty_world.
Proof.
  intros r.
  assert (H1 : Base64.b64decode (UploadFileUseCase.content certificate_upload)
                 false = Ret certificate_bytes) by (vm_compute; reflexivity).
  assert (H2 : (Storage.upload_file env_upload_down (u"documents")
                  (UploadFileUseCase.filename certificate_upload)
                  certificate_bytes empty_world).1
               = Raise (Error ServiceRequestError (u"Cannot connect to host")))
    by (vm_compute; reflexivity).
  destruct (failed_upload_is_answered_500 env_upload_down (u"documents")
              certificate_upload empty_world certificate_bytes _ H1 H2)
    as (A & B).
  split; [| exact B].
  unfold r. rewrite A. vm_compute. reflexivity.
Defined.

(** X16: an upload of empty content passes the validators and is stored,
    and the verification of the reference it returns then raises the error
    404: the empty blob counts as not found. *)
Theorem empty_upload_is_then_not_found
    (env : Env) (container file_name name : str) (w : World) :
  blob_service_up env ->
  (forall n c b, fault env n (DownloadBlob c b) = None) ->
  47%N ∉ container ->
  file_name <> [] ->
  let upload := {| UploadFileUseCase.filename := file_name;
                   UploadFileUseCase.content := [] |} in
  let up := UploadFileUseCase.post_upload_file env container upload w in
  let reference := container ++ u"/" ++ file_name in
  UploadFileUseCase.valid_request upload
  /\ up.1 = {| status := 201; body := JObj [(u"response", JStr reference)] |}
  /\ (VerifyFileUseCase.execute env
        {| VerifyFileUseCase.document_path := reference;
           VerifyFileUseCase.professional_name := name |} up.2).1
     = Raise (HTTPException 404 (u"Arquivo não encontrado")).
Proof.
  intros Hup Hdown Hsep Hname upload up reference.
  assert (Hvalid : UploadFileUseCase.valid_request upload).
  { split; [| reflexivity]. subst upload. simpl.
    unfold UploadFileUseCase.validate_filename. by destruct file_name. }
  split; [exact Hvalid |].
  destruct (upload_file_run env container file_name [] w Hup) as (H1 & H2 & _).
  assert (Hrun : UploadFileUseCase.upload_file_route env container upload w
                 = (Ret reference,
                    (Storage.upload_file env container file_name [] w).2)).
  { unfold UploadFileUseCase.upload_file_route, UploadFileUseCase.execute.
    unfold try_except at 1. unfold bind at 1. unfold lift.
    change (Base64.b64decode (UploadFileUseCase.content upload) false)
      with (@Ret bytes []).
    unfold bind, try_except, ret. subst upload. simpl.
    destruct (Storage.upload_file env container file_name [] w) as [o w1].
    simpl in H1. subst o. reflexivity. }
  subst up. unfold UploadFileUseCase.post_upload_file. rewrite Hrun.
  split; [reflexivity |]. cbn [snd].
  destruct Hup as (Hc & _ & _).
  unfold VerifyFileUseCase.execute, Storage.download_file,
    Storage.get_blob_service_client, Storage.download_blob.
  unfold_monad. cbn [VerifyFileUseCase.document_path]. subst reference.
  change (u"/") with [47%N]. simpl app.
  rewrite split_1_at_first by exact Hsep. simpl.
  rewrite Hc. simpl. rewrite Hdown. simpl.
  rewrite H2, lookup_insert_eq. reflexivity.
Qed.

Lemma empty_upload_is_then_not_found_witness :
  let env := env_up (u"Válido") (u"texto") in
  let up := UploadFileUseCase.post_upload_file env (u"documents")
              {| UploadFileUseCase.filename := u"vazio.pdf";
                 UploadFileUseCase.content := [] |} empty_world in
  status up.1 = 201%Z
  /\ (VerifyFileUseCase.execute env
        {| VerifyFileUseCase.document_path :=
             u"documents" ++ u"/" ++ u"vazio.pdf";
           VerifyFileUseCase.professional_name := u"João da Silva" |} up.2).1
     = Raise (HTTPException 404 (u"Arquivo não encontrado")).
Proof.
  intros env up.
  assert (Hup : blob_service_up env) by (repeat split).
  assert (Hdown : forall n c b, fault env n (DownloadBlob c b) = None)
    by reflexivity.
  assert (Hsep : 47%N ∉ u"documents")
    by (apply (bool_decide_unpack _); vm_compute; exact I).
  assert (Hname : u"vazio.pdf" <> []) by (vm_compute; discriminate).
  destruct (empty_upload_is_then_not_found env (u"documents") (u"vazio.pdf")
              (u"João da Silva") empty_world Hup Hdown Hsep Hname)
    as (_ & A & B).
  split; [| exact B].
  fold up in A. rewrite A. reflexivity.
Defined.


(** ** From the stored entries to the model *)

(** X17: entries stored by [insert_document_faq] for well-formed questions
    and answers come back to the model: when the hits of a query are such
    entries, the generation call that follows carries three messages, the
    system prompt, as assistant the answers joined by one space in the
    order of the hits, and as user the query, at temperature 0.0 in the
    FAQ service and 0.3 in [ai-api]. *)
Theorem stored_answers_reach_the_model
    (env : Env) (query : str) (w w1 : World) (df : DataFrame)
    (pairs : list (str * str)) :
  Forall (fun p => forallb is_scalar p.1 = true
                   /\ forallb is_scalar p.2 = true) pairs ->
  AzureSearchVectorDB.search_similar_documents env query 3
    (Some (u"type eq 'faq'")) w = (Ret df, w1) ->
  df_column df (u"doc_content") = Ret (map (fun p => faq_entry p.1 p.2) pairs) ->
  fault env (length (trace w))
    (SearchSimilarDocuments query 3 (Some (u"type eq 'faq'"))) = None ->
  df_column (az_search_similar_documents env query 3 (Some (u"type eq 'faq'")))
    (u"doc_content") = Ret (map (fun p => faq_entry p.1 p.2) pairs) ->
  let context := Py.join (u" ") (map snd pairs) in
  calls_between w1 (FAQService.post_chat env query w).2
    [ ChatCompletionsCreate 0
        [ {| role := u"system"; content := FAQService.system_prompt |};
          {| role := u"assistant"; content := u"Contexto: " ++ context |};
          {| role := u"user"; content := query |} ] ]
  /\ calls_between w (FaqUseCase.post_chat env query w).2
       [ SearchSimilarDocuments query 3 (Some (u"type eq 'faq'"));
         ChatCompletionsCreate 0.3
           [ {| role := u"system"; content := FaqUseCase.system_prompt |};
             {| role := u"assistant";
                content :=
                  u"Aqui estão informações relevantes para responder à consulta: "
                  ++ context ++ u"." |};
             {| role := u"user"; content := query |} ] ].
Proof.
  intros Hp Hs Hc Hf Hc' context.
  destruct (inserted_entries_are_assembled pairs Hp) as [A1 A2].
  fold context in A1, A2. unfold calls_between. split.
  - unfold FAQService.post_chat, FAQService.chat_faq, FAQService.chat,
      FAQService._generate_response.
    unfold try_except at 1. unfold try_except.
    unfold bind at 1. rewrite Hs.
    unfold bind at 1. unfold lift at 1. rewrite Hc.
    unfold bind at 1. unfold lift at 1. rewrite A1.
    unfold bind, external, lift, ret.
    destruct (fault env _ (ChatCompletionsCreate _ _)); [reflexivity |].
    destruct (first _); reflexivity.
  - unfold FaqUseCase.post_chat, FaqUseCase.chat_faq, FaqUseCase.chat,
      FaqUseCase._generate_response, FaqUseCase.search_similar_documents.
    unfold try_except at 1. unfold try_except.
    unfold bind at 1. unfold bind at 1. unfold external at 1. rewrite Hf.
    unfold ret at 1.
    unfold bind at 1. unfold lift at 1. rewrite Hc'.
    unfold bind at 1. unfold lift at 1. rewrite A2.
    unfold bind, external, lift, ret.
    destruct (fault env _ (ChatCompletionsCreate _ _));
      [simpl; by rewrite <- app_assoc |].
    destruct (first _) as [[c|]|]; simpl; by rewrite <- app_assoc.
Qed.

Lemma stored_answers_reach_the_model_witness :
  let env := with_hits two_hits (env_up (u"Sim") (u"texto")) in
  let query := u"Como contratar?" in
  let context := u"Um marketplace. Pelo aplicativo." in
  List.filter is_chat_completion
    (trace (FAQService.post_chat env query empty_world).2)
  = [ ChatCompletionsCreate 0
        [ {| role := u"system"; content := FAQService.system_prompt |};
          {| role := u"assistant"; content := u"Contexto: " ++ context |};
          {| role := u"user"; content := query |} ] ].
Proof.
  intros env query context.
  pose (w1 := (AzureSearchVectorDB.search_similar_documents env query 3
                 (Some (u"type eq 'faq'")) empty_world).2).
  assert (Hp : Forall (fun p => forallb is_scalar p.1 = true
                                /\ forallb is_scalar p.2 = true) two_pairs).
  { repeat constructor. }
  assert (H1 : AzureSearchVectorDB.search_similar_documents env query 3
                 (Some (u"type eq 'faq'")) empty_world = (Ret two_hits, w1))
    by (vm_compute; reflexivity).
  assert (H2 : df_column two_hits (u"doc_content")
               = Ret (map (fun p => faq_entry p.1 p.2) two_pairs))
    by (vm_compute; reflexivity).
  assert (H3 : fault env (length (trace empty_world))
                 (SearchSimilarDocuments query 3 (Some (u"type eq 'faq'")))
               = None) by reflexivity.
  assert (H4 : df_column (az_search_similar_documents env query 3
                            (Some (u"type eq 'faq'"))) (u"doc_content")
               = Ret (map (fun p => faq_entry p.1 p.2) two_pairs))
    by (vm_compute; reflexivity).
  destruct (stored_answers_reach_the_model env query empty_world w1 two_hits
              two_pairs Hp H1 H2 H3 H4) as (A & _).
  unfold calls_between in A. rewrite A, List.filter_app.
  vm_compute. reflexivity.
Defined.


(** ** What the operations leave alone *)

Lemma same_state_refl (w : World) : same_state w w.
Proof. by repeat split. Qed.

Lemma same_state_trans (w1 w2 w3 : World) :
  same_state w1 w2 -> same_state w2 w3 -> same_state w1 w3.
Proof.
  intros (A1 & A2 & A3 & A4 & A5) (B1 & B2 & B3 & B4 & B5).
  repeat split; congruence.
Qed.

Lemma read_only_ret {A} (a : A) : read_only (ret a).
Proof. intros w. apply same_state_refl. Qed.

Lemma read_only_raise {A} (e : exn) : read_only (@raise A e).
Proof. intros w. apply same_state_refl. Qed.

Lemma read_only_lift {A} (o : outcome A) : read_only (lift o).
Proof. intros w. apply same_state_refl. Qed.

Lemma read_only_get : read_only get.
Proof. intros w. apply same_state_refl. Qed.

Lemma read_only_external (env : Env) (ev : event) : read_only (external env ev).
Proof. intros w. unfold external. destruct (fault env _ _); by repeat split. Qed.

Lemma read_only_bind {A B} (m : M A) (k : A -> M B) :
  read_only m -> (forall a, read_only (k a)) -> read_only (bind m k).
Proof.
  intros Hm Hk w. unfold bind. specialize (Hm w).
  destruct (m w) as [[a|e] w1]; [| exact Hm].
  exact (same_state_trans _ _ _ Hm (Hk a w1)).
Qed.

Lemma read_only_try_except {A} (body : M A) (handler : exn -> M A) :
  read_only body -> (forall e, read_only (handler e)) ->
  read_only (try_except body handler).
Proof.
  intros Hb Hh w. unfold try_except. specialize (Hb w).
  destruct (body w) as [[a|e] w1]; [exact Hb |].
  exact (same_state_trans _ _ _ Hb (Hh e w1)).
Qed.

Lemma read_only_try_except_if {A} (catches : exn -> bool)
    (body : M A) (handler : exn -> M A) :
  read_only body -> (forall e, read_only (handler e)) ->
  read_only (try_except_if catches body handler).
Proof.
  intros Hb Hh w. unfold try_except_if. specialize (Hb w).
  destruct (body w) as [[a|e] w1]; [exact Hb |].
  destruct (catches e); [| exact Hb].
  exact (same_state_trans _ _ _ Hb (Hh e w1)).
Qed.

Ltac read_only :=
  repeat first
    [ apply read_only_ret | apply read_only_raise | apply read_only_lift
    | apply read_only_get | apply read_only_external
    | apply read_only_try_except_if | apply read_only_try_except
    | apply read_only_bind
    | match goal with
      | |- forall _, _ => intro
      | |- read_only (if ?b then _ else _) => destruct b
      | |- read_only (match ?x with _ => _ end) => destruct x
      | |- read_only (let _ := _ in _) => cbv zeta
      end ].

Lemma read_only_generate_embeddings (env : Env) (content : str) :
  read_only (AzureSearchVectorDB._generate_embeddings env content).
Proof. unfold AzureSearchVectorDB._generate_embeddings. read_only. Qed.

Lemma read_only_search_similar_documents
    (env : Env) (query : str) (k : Z) (filters : option str) :
  read_only (AzureSearchVectorDB.search_similar_documents env query k filters).
Proof.
  unfold AzureSearchVectorDB.search_similar_documents,
    AzureSearchVectorDB.search.
  apply read_only_bind; [apply read_only_generate_embeddings |]. read_only.
Qed.

Lemma read_only_download_file (env : Env) (blob_path : str) :
  read_only (Storage.download_file env blob_path).
Proof.
  unfold Storage.download_file, Storage.get_blob_service_client,
    Storage.download_blob.
  read_only.
Qed.

Lemma read_only_post_chat (env : Env) (query : str) (w : World) :
  same_state w (FAQService.post_chat env query w).2.
Proof.
  unfold FAQService.post_chat.
  assert (H : read_only (FAQService.chat_faq env query)).
  { unfold FAQService.chat_faq, FAQService.chat,
      FAQService._generate_response.
    apply read_only_try_except; [| read_only].
    apply read_only_try_except; [| read_only].
    apply read_only_bind;
      [apply read_only_search_similar_documents |]. read_only. }
  specialize (H w). by destruct (FAQService.chat_faq env query w).
Qed.

(** What the constructor changes: nothing but the indexes, and of these
    only one that bears the name of the index. *)
Lemma init_changes_only_the_index (env : Env) (w : World) :
  let w0 := (AzureSearchVectorDB.__init__ env w).2 in
  documents w0 = documents w
  /\ containers w0 = containers w
  /\ blobs w0 = blobs w
  /\ uuids_drawn w0 = uuids_drawn w
  /\ forall name,
       name <> AzureSearchVectorDB.index_name ->
       List.filter (fun ix => bool_decide (index_name_of ix = name))
         (indexes w0)
       = List.filter (fun ix => bool_decide (index_name_of ix = name))
           (indexes w).
Proof.
  unfold AzureSearchVectorDB.__init__,
    AzureSearchVectorDB._get_existing_index_names,
    AzureSearchVectorDB._create_vector_index,
    AzureSearchVectorDB.list_index_names,
    AzureSearchVectorDB.create_or_update_index.
  unfold_monad.
  destruct (fault env _ ListIndexNames); simpl.
  - destruct (fault env _ (CreateOrUpdateIndex _)); simpl;
      repeat split; try done.
    intros name Hne. apply put_index_keeps_other_names. by simpl.
  - destruct (negb _); simpl; [| by repeat split].
    destruct (fault env _ (CreateOrUpdateIndex _)); simpl;
      repeat split; try done.
    intros name Hne. apply put_index_keeps_other_names. by simpl.
Qed.

(** X18: what a request changes.  A verification request only reads:
    indexes, documents, containers and blobs are the same afterwards,
    whatever fails on the way.  A chat request to the FAQ service first
    constructs the service, which never fails the request, and is then
    answered as by the constructed service; it changes no document, no
    container, no blob and no index of another name than ["faq-index"].
    It leaves the indexes as they are when the listing shows
    ["faq-index"], and adds that index when the listing does not show it
    and the creation goes through: a chat request is not read-only. *)
Theorem chat_request_changes_at_most_the_faq_index
    (env : Env) (request : VerifyFileUseCase.VerifyDocumentRequest)
    (query : str) (w : World) :
  let n := length (trace w) in
  let r := FAQService.handle_post_chat env query w in
  same_state w (VerifyFileUseCase.post_verify_file env request w).2
  /\ r = FAQService.post_chat env query (FAQService.__init__ env w).2
  /\ documents r.2 = documents w
  /\ containers r.2 = containers w
  /\ blobs r.2 = blobs w
  /\ (forall name,
        name <> u"faq-index" ->
        List.filter (fun ix => bool_decide (index_name_of ix = name))
          (indexes r.2)
        = List.filter (fun ix => bool_decide (index_name_of ix = name))
            (indexes w))
  /\ (fault env n ListIndexNames = None ->
      u"faq-index" ∈ map index_name_of (indexes w) ->
      indexes r.2 = indexes w)
  /\ (fault env n ListIndexNames = None ->
      u"faq-index" ∉ map index_name_of (indexes w) ->
      (forall index, fault env (S n) (CreateOrUpdateIndex index) = None) ->
      exists index,
        index_name_of index = u"faq-index"
        /\ indexes r.2 = indexes w ++ [index]).
Proof.
  intros n r.
  assert (Hr : r = FAQService.post_chat env query
                     (FAQService.__init__ env w).2).
  { subst r. unfold FAQService.handle_post_chat, FAQService.__init__.
    pose proof (init_never_raises env w) as H.
    destruct (AzureSearchVectorDB.__init__ env w) as [o w0].
    simpl in H. by subst o. }
  pose proof (read_only_post_chat env query (FAQService.__init__ env w).2)
    as (S1 & S2 & S3 & S4 & _).
  rewrite <- Hr in S1, S2, S3, S4.
  destruct (init_changes_only_the_index env w) as (I1 & I2 & I3 & _ & I5).
  unfold FAQService.__init__ in *.
  split.
  { unfold VerifyFileUseCase.post_verify_file.
    assert (H : read_only (VerifyFileUseCase.verify_file_route env request)).
    { unfold VerifyFileUseCase.verify_file_route, VerifyFileUseCase.execute,
        VerifyFileUseCase._ocr, VerifyFileUseCase._generate_response.
      apply read_only_try_except; [| read_only].
      apply read_only_bind; [apply read_only_download_file |]. read_only. }
    specialize (H w).
    by destruct (VerifyFileUseCase.verify_file_route env request w). }
  split; [exact Hr |].
  split; [congruence |]. split; [congruence |]. split; [congruence |].
  split; [| split].
  - intros name Hne. rewrite S1. by apply I5.
  - intros Hl Hin. rewrite S1.
    unfold AzureSearchVectorDB.__init__,
      AzureSearchVectorDB._get_existing_index_names,
      AzureSearchVectorDB.list_index_names.
    unfold_monad. fold n. rewrite Hl. simpl.
    by rewrite bool_decide_eq_true_2.
  - intros Hl Hout Hc. rewrite S1.
    unfold AzureSearchVectorDB.__init__,
      AzureSearchVectorDB._get_existing_index_names,
      AzureSearchVectorDB._create_vector_index,
      AzureSearchVectorDB.list_index_names,
      AzureSearchVectorDB.create_or_update_index.
    unfold_monad. fold n. rewrite Hl. simpl.
    rewrite bool_decide_eq_false_2 by exact Hout. simpl.
    rewrite length_app, Nat.add_1_r. fold n. rewrite Hc. simpl.
    eexists. split; [| apply put_index_fresh; exact Hout]. reflexivity.
Qed.

Lemma chat_request_changes_at_most_the_faq_index_witness :
  let env := env_up (u"Sim") (u"texto") in
  let r := FAQService.handle_post_chat env (u"Como contratar?") empty_world in
  exists index,
    index_name_of index = u"faq-index"
    /\ indexes r.2 = indexes empty_world ++ [index].
Proof.
  intros env r.
  destruct (chat_request_changes_at_most_the_faq_index env certificate_request
              (u"Como contratar?") empty_world)
    as (_ & _ & _ & _ & _ & _ & _ & H).
  apply H; [reflexivity | | reflexivity].
  apply (bool_decide_unpack _). vm_compute. exact I.
Defined.

Lemma only_inserts_quiet {A} (m : M A) :
  (forall w, (m w).2 = w) -> only_inserts m.
Proof.
  intros H w. rewrite H. split; [| done].
  exists []. split; [| done]. unfold calls_between. by rewrite app_nil_r.
Qed.

Lemma only_inserts_external (env : Env) (ev : event) :
  is_insertion_call ev = true -> only_inserts (external env ev).
Proof.
  intros Hev w. unfold external.
  split; [| by destruct (fault env _ _)].
  exists [ev]. split; [by destruct (fault env _ _) |].
  simpl. by rewrite Hev.
Qed.

Lemma only_inserts_step {A} (w : World) (m : M A) (w2 : World) :
  only_inserts m ->
  ((exists calls,
      calls_between (m w).2 w2 calls
      /\ forallb is_insertion_call calls = true)
   /\ indexes w2 = indexes (m w).2
   /\ containers w2 = containers (m w).2
   /\ blobs w2 = blobs (m w).2) ->
  (exists calls,
     calls_between w w2 calls /\ forallb is_insertion_call calls = true)
  /\ indexes w2 = indexes w
  /\ containers w2 = containers w
  /\ blobs w2 = blobs w.
Proof.
  intros Hm ((c2 & T2 & F2) & I2 & C2 & B2).
  destruct (Hm w) as ((c1 & T1 & F1) & I1 & C1 & B1).
  split; [| split; [congruence | split; congruence]].
  exists (c1 ++ c2). unfold calls_between in *.
  rewrite T2, T1, <- app_assoc, forallb_app, F1, F2. done.
Qed.

Lemma only_inserts_bind {A B} (m : M A) (k : A -> M B) :
  only_inserts m -> (forall a, only_inserts (k a)) -> only_inserts (bind m k).
Proof.
  intros Hm Hk w. unfold bind.
  destruct (m w) as [[a|e] w1] eqn:E.
  - apply (only_inserts_step w m); [exact Hm |]. rewrite E. apply Hk.
  - specialize (Hm w). by rewrite E in Hm.
Qed.

Lemma only_inserts_try_except {A} (body : M A) (handler : exn -> M A) :
  only_inserts body -> (forall e, only_inserts (handler e)) ->
  only_inserts (try_except body handler).
Proof.
  intros Hb Hh w. unfold try_except.
  destruct (body w) as [[a|e] w1] eqn:E.
  - specialize (Hb w). by rewrite E in Hb.
  - apply (only_inserts_step w body); [exact Hb |]. rewrite E. apply Hh.
Qed.

Lemma only_inserts_for_each {A} (l : list A) (body : A -> M unit) :
  (forall x, only_inserts (body x)) -> only_inserts (for_each l body).
Proof.
  intros Hb. induction l as [|x l IH]; simpl.
  - by apply only_inserts_quiet.
  - apply only_inserts_bind; [apply Hb | intros _; exact IH].
Qed.

Lemma only_inserts_generate_embeddings (env : Env) (content : str) :
  only_inserts (AzureSearchVectorDB._generate_embeddings env content).
Proof.
  unfold AzureSearchVectorDB._generate_embeddings.
  apply only_inserts_try_except; [| intros e; by apply only_inserts_quiet].
  apply only_inserts_bind; [by apply only_inserts_external | intros _].
  cbv zeta. destruct (_ =? _)%nat; [| by apply only_inserts_quiet].
  apply only_inserts_bind; intros; by apply only_inserts_quiet.
Qed.

Lemma only_inserts_upload (env : Env) (docs : list Document) :
  only_inserts (AzureSearchVectorDB.upload_documents env docs).
Proof.
  intros w. unfold AzureSearchVectorDB.upload_documents. unfold_monad.
  split; [| by destruct (fault env _ _)].
  exists [UploadDocuments docs]. by destruct (fault env _ _).
Qed.

Lemma only_inserts_uuid (env : Env) :
  only_inserts (AzureSearchVectorDB.uuid_uuid4 env).
Proof.
  intros w. unfold AzureSearchVectorDB.uuid_uuid4. simpl.
  split; [| done]. exists []. split; [| done].
  unfold calls_between. by rewrite app_nil_r.
Qed.

Lemma only_inserts_insert_document_faq (env : Env) (question answer : json) :
  only_inserts (AzureSearchVectorDB.insert_document_faq env question answer).
Proof.
  unfold AzureSearchVectorDB.insert_document_faq.
  apply only_inserts_try_except; [| intros e; by apply only_inserts_quiet].
  cbv zeta.
  apply only_inserts_bind; [apply only_inserts_generate_embeddings |].
  intros v. apply only_inserts_bind; [apply only_inserts_uuid |].
  intros id. apply only_inserts_upload.
Qed.

Lemma only_inserts_insert_document (env : Env) (text : str) :
  only_inserts (AzureSearchVectorDB.insert_document env text).
Proof.
  unfold AzureSearchVectorDB.insert_document.
  apply only_inserts_try_except; [| intros e; by apply only_inserts_quiet].
  apply only_inserts_bind; [apply only_inserts_generate_embeddings |].
  intros v. apply only_inserts_bind; [apply only_inserts_uuid |].
  intros id. apply only_inserts_upload.
Qed.

Lemma only_inserts_from_json (env : Env) (json_filepath : str) :
  only_inserts (AzureSearchVectorDB.insert_documents_from_json env json_filepath).
Proof.
  unfold AzureSearchVectorDB.insert_documents_from_json.
  apply only_inserts_try_except; [| intros e; by apply only_inserts_quiet].
  apply only_inserts_bind; [by apply only_inserts_external | intros _].
  apply only_inserts_bind; [by apply only_inserts_quiet | intros data].
  apply only_inserts_bind; [by apply only_inserts_quiet | intros faq].
  apply only_inserts_bind; [by apply only_inserts_quiet | intros items].
  apply only_inserts_for_each. intros item.
  apply only_inserts_bind; [by apply only_inserts_quiet | intros q].
  apply only_inserts_bind; [by apply only_inserts_quiet | intros a].
  apply only_inserts_insert_document_faq.
Qed.

(** X19: what the insertions never do.  [insert_document_faq],
    [insert_document] and [insert_documents_from_json] return normally
    whatever fails; the only calls they make are the opening of the file,
    embeddings and uploads of documents: no listing or creation of an
    index, no search, no generation; and the indexes, the containers and
    the blobs are afterwards as they were. *)
Theorem insertions_only_embed_and_upload
    (env : Env) (question answer : json) (text json_filepath : str)
    (w : World) :
  let untouched (r : outcome unit * World) :=
    r.1 = Ret tt
    /\ (exists calls,
          calls_between w r.2 calls
          /\ forallb is_insertion_call calls = true)
    /\ indexes r.2 = indexes w
    /\ containers r.2 = containers w
    /\ blobs r.2 = blobs w in
  untouched (AzureSearchVectorDB.insert_document_faq env question answer w)
  /\ untouched (AzureSearchVectorDB.insert_document env text w)
  /\ untouched
       (AzureSearchVectorDB.insert_documents_from_json env json_filepath w).
Proof.
  intros untouched. subst untouched. cbv beta.
  split; [| split].
  - split; [apply insert_document_faq_run |].
    apply only_inserts_insert_document_faq.
  - split; [apply insert_document_run |].
    apply only_inserts_insert_document.
  - split; [| apply only_inserts_from_json].
    unfold AzureSearchVectorDB.insert_documents_from_json, try_except.
    by lazymatch goal with
       | |- context [bind ?m ?k w] => destruct (bind m k w) as [[[]|e] w']
       end.
Qed.
